(** * Transaction lifecycle of the Go SDK client ([core/tx.go])

    A shallow embedding of the transaction lifecycle manager: fee and gas
    computation, building and signing, synchronous broadcast with bounded
    retry, inclusion polling with bounded retry, and the orchestrator.

    Go values are modelled as follows.
    - [error] is the error text ([err.Error()]); [fmt.Errorf("p: %w", e)]
      is string concatenation.  A nil error is [None].
    - [uint64], [int64], [uint32] are [Z] with the conversions written out.
    - A Go call that may panic returns an [outcome].
    - Network, keyring and codec calls are fields of an environment record
      acting on an abstract world; every such call is appended to a trace. *)

From Stdlib Require Import ZArith List String Ascii Bool Lia DecimalString SpecFloat.
From Stdlib Require DecimalPos.
Import ListNotations.
Local Open Scope string_scope.
Local Open Scope Z_scope.

Set Implicit Arguments.

(** ** Outcomes of Go computations *)

(** A Go call either returns, panics, or (in the model only) exhausts the
    fuel given to a loop that Go would run without bound. *)
Inductive outcome (A : Type) : Type :=
| Ret (a : A)
| Panic (msg : string)
| OutOfFuel.

Arguments Panic {A} msg.
Arguments OutOfFuel {A}.

Definition obind {A B} (o : outcome A) (k : A -> outcome B) : outcome B :=
  match o with
  | Ret a => k a
  | Panic m => Panic m
  | OutOfFuel => OutOfFuel
  end.

Notation "x <-! c ;; k" := (obind c (fun x => k))
  (at level 61, c at next level, right associativity).

(** State-passing computations over a state [S]. *)
Definition M (S A : Type) : Type := S -> outcome (A * S).

Definition ret {S A} (a : A) : M S A := fun s => Ret (a, s).

Definition bind {S A B} (m : M S A) (k : A -> M S B) : M S B :=
  fun s =>
    match m s with
    | Ret (a, s') => k a s'
    | Panic msg => Panic msg
    | OutOfFuel => OutOfFuel
    end.

Definition panic {S A} (msg : string) : M S A := fun _ => Panic msg.

Definition lift_outcome {S A} (o : outcome A) : M S A :=
  fun s => match o with
           | Ret a => Ret (a, s)
           | Panic m => Panic m
           | OutOfFuel => OutOfFuel
           end.

Notation "x <- c ;; k" := (bind c (fun x => k))
  (at level 61, c at next level, right associativity).
Notation "c ;;; k" := (bind c (fun _ => k))
  (at level 61, right associativity).

(** Go's [(value, error)] results for calls that return exactly one of the two. *)
Inductive result (A : Type) : Type :=
| Ok (a : A)
| Err (e : string).

Arguments Err {A} e.

Definition error := string.

(** [fmt.Errorf(prefix ++ "%w", err)] *)
Definition wrap (prefix : string) (err : error) : error := prefix ++ err.

Definition string_of_Z (z : Z) : string := NilZero.string_of_int (Z.to_int z).

(** ** [strings] and the error classification of [core/error.go] *)

Module strings.

(** A byte of a Go string, as a number. *)
Definition byte_of (c : ascii) : Z := Z.of_N (N_of_ascii c).

Definition of_byte (n : Z) : ascii := ascii_of_N (Z.to_N n).

(** *** [unicode/utf8] *)

Definition RuneError : Z := 65533.
Definition MaxRune : Z := 1114111.

(** A continuation byte, [0x80] to [0xBF]. *)
Definition continuation (n : Z) : bool := (128 <=? n) && (n <=? 191).

(** The payload of a continuation byte. *)
Definition low6 (n : Z) : Z := Z.land n 63.

(** The width of the sequence a first byte announces, and the range its
    second byte must lie in ([first] and [acceptRanges]); width 0 is a
    byte that starts no sequence. *)
Definition first (n : Z) : nat * (Z * Z) :=
  if (194 <=? n) && (n <=? 223) then (2%nat, (128, 191))
  else if n =? 224 then (3%nat, (160, 191))
  else if (225 <=? n) && (n <=? 236) then (3%nat, (128, 191))
  else if n =? 237 then (3%nat, (128, 159))
  else if (238 <=? n) && (n <=? 239) then (3%nat, (128, 191))
  else if n =? 240 then (4%nat, (144, 191))
  else if (241 <=? n) && (n <=? 243) then (4%nat, (128, 191))
  else if n =? 244 then (4%nat, (128, 143))
  else (0%nat, (0, 0)).

(** The runes of a string as [for range] and [utf8.DecodeRuneInString]
    give them: a byte that is no part of a well-formed sequence is the
    rune [RuneError] of width 1. *)
Fixpoint runes (s : string) : list Z :=
  match s with
  | EmptyString => []
  | String b0 s1 =>
      let n0 := byte_of b0 in
      if n0 <? 128 then n0 :: runes s1
      else
        let '(size, (lo, hi)) := first n0 in
        match size, s1 with
        | O, _ | _, EmptyString => RuneError :: runes s1
        | _, String b1 s2 =>
            let n1 := byte_of b1 in
            if negb ((lo <=? n1) && (n1 <=? hi)) then RuneError :: runes s1
            else if (size <=? 2)%nat then
              (Z.shiftl (Z.land n0 31) 6 + low6 n1) :: runes s2
            else
              match s2 with
              | EmptyString => RuneError :: runes s1
              | String b2 s3 =>
                  let n2 := byte_of b2 in
                  if negb (continuation n2) then RuneError :: runes s1
                  else if (size <=? 3)%nat then
                    (Z.shiftl (Z.land n0 15) 12 + Z.shiftl (low6 n1) 6 + low6 n2)
                      :: runes s3
                  else
                    match s3 with
                    | EmptyString => RuneError :: runes s1
                    | String b3 s4 =>
                        let n3 := byte_of b3 in
                        if negb (continuation n3) then RuneError :: runes s1
                        else
                          (Z.shiftl (Z.land n0 7) 18 + Z.shiftl (low6 n1) 12
                           + Z.shiftl (low6 n2) 6 + low6 n3) :: runes s4
                    end
              end
        end
  end.

(** [utf8.AppendRune]: a surrogate or a rune out of range is written as
    [RuneError]. *)
Definition encode (r : Z) : string :=
  if (0 <=? r) && (r <=? 127) then String (of_byte r) EmptyString
  else if (0 <=? r) && (r <=? 2047) then
    String (of_byte (192 + Z.shiftr r 6))
      (String (of_byte (128 + low6 r)) EmptyString)
  else
    let r := if (r <? 0) || (MaxRune <? r) || ((55296 <=? r) && (r <=? 57343))
             then RuneError else r in
    if r <=? 65535 then
      String (of_byte (224 + Z.shiftr r 12))
        (String (of_byte (128 + low6 (Z.shiftr r 6)))
           (String (of_byte (128 + low6 r)) EmptyString))
    else
      String (of_byte (240 + Z.shiftr r 18))
        (String (of_byte (128 + low6 (Z.shiftr r 12)))
           (String (of_byte (128 + low6 (Z.shiftr r 6)))
              (String (of_byte (128 + low6 r)) EmptyString))).

(** *** [unicode] *)

(** The mark of a range in which upper and lower case letters alternate. *)
Definition UpperLower : Z := MaxRune + 1.

(** The lower-case column of [unicode.CaseRanges] past ASCII, for the
    runes it changes (Unicode 14.0): first rune, last rune, and the
    distance to the lower-case rune or [UpperLower]. *)
Definition CaseRanges : list (Z * Z * Z) :=
 [(192, 214, 32); (216, 222, 32); (256, 303, UpperLower); (304, 304, -199);
   (306, 311, UpperLower); (313, 328, UpperLower); (330, 375, UpperLower);
   (376, 376, -121); (377, 382, UpperLower); (385, 385, 210); (386, 389, UpperLower);
   (390, 390, 206); (391, 391, 1); (393, 394, 205); (395, 395, 1); (398, 398, 79);
   (399, 399, 202); (400, 400, 203); (401, 401, 1); (403, 403, 205); (404, 404, 207);
   (406, 406, 211); (407, 407, 209); (408, 408, 1); (412, 412, 211); (413, 413, 213);
   (415, 415, 214); (416, 421, UpperLower); (422, 422, 218); (423, 423, 1);
   (425, 425, 218); (428, 428, 1); (430, 430, 218); (431, 431, 1); (433, 434, 217);
   (435, 438, UpperLower); (439, 439, 219); (440, 440, 1); (444, 444, 1);
   (452, 452, 2); (453, 453, 1); (455, 455, 2); (456, 456, 1); (458, 458, 2);
   (459, 476, UpperLower); (478, 495, UpperLower); (497, 497, 2);
   (498, 501, UpperLower); (502, 502, -97); (503, 503, -56); (504, 543, UpperLower);
   (544, 544, -130); (546, 563, UpperLower); (570, 570, 10795); (571, 571, 1);
   (573, 573, -163); (574, 574, 10792); (577, 577, 1); (579, 579, -195);
   (580, 580, 69); (581, 581, 71); (582, 591, UpperLower); (880, 883, UpperLower);
   (886, 886, 1); (895, 895, 116); (902, 902, 38); (904, 906, 37); (908, 908, 64);
   (910, 911, 63); (913, 929, 32); (931, 939, 32); (975, 975, 8);
   (984, 1007, UpperLower); (1012, 1012, -60); (1015, 1015, 1); (1017, 1017, -7);
   (1018, 1018, 1); (1021, 1023, -130); (1024, 1039, 80); (1040, 1071, 32);
   (1120, 1153, UpperLower); (1162, 1215, UpperLower); (1216, 1216, 15);
   (1217, 1230, UpperLower); (1232, 1327, UpperLower); (1329, 1366, 48);
   (4256, 4293, 7264); (4295, 4295, 7264); (4301, 4301, 7264); (5024, 5103, 38864);
   (5104, 5109, 8); (7312, 7354, -3008); (7357, 7359, -3008); (7680, 7829, UpperLower);
   (7838, 7838, -7615); (7840, 7935, UpperLower); (7944, 7951, -8); (7960, 7965, -8);
   (7976, 7983, -8); (7992, 7999, -8); (8008, 8013, -8); (8025, 8025, -8);
   (8027, 8027, -8); (8029, 8029, -8); (8031, 8031, -8); (8040, 8047, -8);
   (8072, 8079, -8); (8088, 8095, -8); (8104, 8111, -8); (8120, 8121, -8);
   (8122, 8123, -74); (8124, 8124, -9); (8136, 8139, -86); (8140, 8140, -9);
   (8152, 8153, -8); (8154, 8155, -100); (8168, 8169, -8); (8170, 8171, -112);
   (8172, 8172, -7); (8184, 8185, -128); (8186, 8187, -126); (8188, 8188, -9);
   (8486, 8486, -7517); (8490, 8490, -8383); (8491, 8491, -8262); (8498, 8498, 28);
   (8544, 8559, 16); (8579, 8579, 1); (9398, 9423, 26); (11264, 11311, 48);
   (11360, 11360, 1); (11362, 11362, -10743); (11363, 11363, -3814);
   (11364, 11364, -10727); (11367, 11372, UpperLower); (11373, 11373, -10780);
   (11374, 11374, -10749); (11375, 11375, -10783); (11376, 11376, -10782);
   (11378, 11378, 1); (11381, 11381, 1); (11390, 11391, -10815);
   (11392, 11491, UpperLower); (11499, 11502, UpperLower); (11506, 11506, 1);
   (42560, 42605, UpperLower); (42624, 42651, UpperLower); (42786, 42799, UpperLower);
   (42802, 42863, UpperLower); (42873, 42876, UpperLower); (42877, 42877, -35332);
   (42878, 42887, UpperLower); (42891, 42891, 1); (42893, 42893, -42280);
   (42896, 42899, UpperLower); (42902, 42921, UpperLower); (42922, 42922, -42308);
   (42923, 42923, -42319); (42924, 42924, -42315); (42925, 42925, -42305);
   (42926, 42926, -42308); (42928, 42928, -42258); (42929, 42929, -42282);
   (42930, 42930, -42261); (42931, 42931, 928); (42932, 42947, UpperLower);
   (42948, 42948, -48); (42949, 42949, -42307); (42950, 42950, -35384);
   (42951, 42954, UpperLower); (42960, 42960, 1); (42966, 42969, UpperLower);
   (42997, 42997, 1); (65313, 65338, 32); (66560, 66599, 40); (66736, 66771, 40);
   (66928, 66938, 39); (66940, 66954, 39); (66956, 66962, 39); (66964, 66965, 39);
   (68736, 68786, 64); (71840, 71871, 32); (93760, 93791, 32); (125184, 125217, 34)].

(** The search of [unicode.to] for the lower case: a rune in no range is
    kept; in an alternating range the low bit of the offset is set. *)
Fixpoint to_lower (ranges : list (Z * Z * Z)) (r : Z) : Z :=
  match ranges with
  | [] => r
  | (lo, hi, delta) :: rest =>
      if (lo <=? r) && (r <=? hi) then
        if MaxRune <? delta then lo + Z.lor (r - lo) 1 else r + delta
      else to_lower rest r
  end.

(** [unicode.ToLower] *)
Definition unicode_ToLower (r : Z) : Z :=
  if r <=? 127 then (if (65 <=? r) && (r <=? 90) then r + 32 else r)
  else to_lower CaseRanges r.

(** *** [strings] *)

(** [strings.Map]: the encodings of the mapped runes, one after the
    other (an unchanged well-formed rune is its own encoding, and an
    ill-formed byte comes out as the encoding of [RuneError]). *)
Definition Map (mapping : Z -> Z) (s : string) : string :=
  fold_right (fun r out => encode (mapping r) ++ out) EmptyString (runes s).

(** The ASCII path of [strings.ToLower]: bytes 'A'..'Z' are shifted to
    'a'..'z'. *)
Definition lower_byte (c : ascii) : ascii :=
  let n := N_of_ascii c in
  if (65 <=? n)%N && (n <=? 90)%N then ascii_of_N (n + 32) else c.

Fixpoint lower_bytes (s : string) : string :=
  match s with
  | EmptyString => EmptyString
  | String c s' => String (lower_byte c) (lower_bytes s')
  end.

(** No byte of [s] is [utf8.RuneSelf] or more. *)
Fixpoint isASCII (s : string) : bool :=
  match s with
  | EmptyString => true
  | String c s' => (byte_of c <? 128) && isASCII s'
  end.

(** [strings.ToLower]: ASCII text is folded byte by byte; any other text
    goes through [Map] with [unicode.ToLower]. *)
Definition ToLower (s : string) : string :=
  if isASCII s then lower_bytes s else Map unicode_ToLower s.

Fixpoint HasPrefix (s p : string) : bool :=
  match p with
  | EmptyString => true
  | String c p' =>
      match s with
      | EmptyString => false
      | String d s' => Ascii.eqb c d && HasPrefix s' p'
      end
  end.

(** [strings.Contains(s, substr)] *)
Fixpoint Contains (s substr : string) : bool :=
  HasPrefix s substr ||
  match s with
  | EmptyString => false
  | String _ s' => Contains s' substr
  end.

End strings.

(** [IsTxInMempoolCacheError] *)
Definition IsTxInMempoolCacheError (err : error) : bool :=
  strings.Contains (strings.ToLower err) "tx already exists in cache".

(** [IsWrongSequenceError] *)
Definition IsWrongSequenceError (err : error) : bool :=
  strings.Contains (strings.ToLower err) "incorrect account sequence".

(** [ErrNotFound] and [newErrNotFound]: ["%w: %v"] *)
Definition ErrNotFound : error := "not found".

Definition newErrNotFound (err : error) : error := ErrNotFound ++ ": " ++ err.

(** ** Integers of the machine *)

Definition uint64_max : Z := 2 ^ 64 - 1.

(** Go's conversion [int64(x)] of a [uint64]: the same 64 bits, read as
    two's complement. *)
Definition int64_of_uint64 (x : Z) : Z :=
  if x <? 2 ^ 63 then x else x - 2 ^ 64.

(** ** Decimals and coins of the chain SDK *)

Module sdk.

(** [big.Int.BitLen]: the length of the absolute value in bits. *)
Definition BitLen (x : Z) : Z :=
  if x =? 0 then 0 else Z.log2 (Z.abs x) + 1.

(** [LegacyDec]: a fixed-point decimal with 18 fractional digits, held
    as the integer [value * 10^18]. *)
Record Dec : Type := mkDec { dec_i : Z }.

Definition precisionReuse : Z := 10 ^ 18.
Definition fivePrecision : Z := precisionReuse / 2.
Definition MaxBitLen : Z := 256.
Definition maxDecBitLen : Z := MaxBitLen + 59.

Definition Dec_IsZero (d : Dec) : bool := dec_i d =? 0.

(** [LegacyDec.MulInt64]: the product, with a panic past the decimal
    bit length. *)
Definition MulInt64 (d : Dec) (i : Z) : outcome Dec :=
  let mul := dec_i d * i in
  if maxDecBitLen <? BitLen mul then Panic "Int overflow" else Ret (mkDec mul).

(** [LegacyDec.Ceil]: [big.Int.QuoRem] truncates toward zero. *)
Definition Ceil (d : Dec) : Dec :=
  let quo := Z.quot (dec_i d) precisionReuse in
  let rem := Z.rem (dec_i d) precisionReuse in
  if rem =? 0 then mkDec (quo * precisionReuse)
  else if rem <? 0 then mkDec (quo * precisionReuse)
  else mkDec ((quo + 1) * precisionReuse).

(** [chopPrecisionAndRound] on a non-negative argument: banker's rounding. *)
Definition chopPrecisionAndRound_pos (d : Z) : Z :=
  let quo := Z.quot d precisionReuse in
  let rem := Z.rem d precisionReuse in
  if rem =? 0 then quo
  else match rem ?= fivePrecision with
       | Lt => quo
       | Gt => quo + 1
       | Eq => if Z.even quo then quo else quo + 1
       end.

Definition chopPrecisionAndRound (d : Z) : Z :=
  if d <? 0 then - chopPrecisionAndRound_pos (- d)
  else chopPrecisionAndRound_pos d.

(** [LegacyDec.RoundInt]: [NewIntFromBigInt] panics past 256 bits. *)
Definition RoundInt (d : Dec) : outcome Z :=
  let i := chopPrecisionAndRound (dec_i d) in
  if MaxBitLen <? BitLen i then Panic "NewIntFromBigInt() out of bound"
  else Ret i.

Record DecCoin : Type := mkDecCoin { dc_Denom : string; dc_Amount : Dec }.
Definition DecCoins := list DecCoin.

Record Coin : Type := mkCoin { Denom : string; Amount : Z }.
Definition Coins := list Coin.

(** [DecCoins.IsZero]: every amount is zero (true of the empty list). *)
Definition DecCoins_IsZero (coins : DecCoins) : bool :=
  forallb (fun c => Dec_IsZero (dc_Amount c)) coins.

(** The default denomination pattern [[a-zA-Z][a-zA-Z0-9/:._-]{2,127}]. *)
Definition is_letter (c : ascii) : bool :=
  let n := N_of_ascii c in
  ((65 <=? n) && (n <=? 90) || (97 <=? n) && (n <=? 122))%N.

Definition is_denom_char (c : ascii) : bool :=
  let n := N_of_ascii c in
  (is_letter c || (48 <=? n) && (n <=? 57) ||
   (n =? 47) || (n =? 58) || (n =? 46) || (n =? 95) || (n =? 45))%N.

Fixpoint all_chars (p : ascii -> bool) (s : string) : bool :=
  match s with
  | EmptyString => true
  | String c s' => p c && all_chars p s'
  end.

Definition ValidateDenom (denom : string) : bool :=
  match denom with
  | EmptyString => false
  | String c rest =>
      is_letter c && all_chars is_denom_char rest &&
      (2 <=? String.length rest)%nat && (String.length rest <=? 127)%nat
  end.

(** [NewCoin]: panics on a malformed denomination or a negative amount. *)
Definition NewCoin (denom : string) (amount : Z) : outcome Coin :=
  if negb (ValidateDenom denom) then Panic ("invalid denom: " ++ denom)
  else if amount <? 0 then
    Panic ("negative coin amount: " ++ string_of_Z amount)
  else Ret (mkCoin denom amount).

End sdk.

Import sdk.

(** ** Fee computation *)

(** [calculateFees]: one coin per gas price, in order; the gas limit
    enters the product through [int64(gasLimit)]. *)
Fixpoint calculateFees (gasPrices : DecCoins) (gasLimit : Z) : outcome Coins :=
  match gasPrices with
  | [] => Ret []
  | price :: rest =>
      fee <-! MulInt64 (dc_Amount price) (int64_of_uint64 gasLimit) ;;
      amt <-! RoundInt (Ceil fee) ;;
      coin <-! NewCoin (dc_Denom price) amt ;;
      fees <-! calculateFees rest gasLimit ;;
      Ret (coin :: fees)
  end.

(** ** [float64] *)

Module float64.

(** IEEE 754 binary64, round to nearest even, as [SpecFloat] has it. *)
Definition prec : Z := 53.
Definition emax : Z := 1024.
Definition t := spec_float.

(** [float64(x)] for an unsigned integer [x]. *)
Definition of_uint64 (x : Z) : t := binary_normalize prec emax x 0 false.

Definition mul (x y : t) : t := SFmul prec emax x y.

(** The integer part (fraction discarded) of a finite float. *)
Definition trunc (f : t) : option Z :=
  match f with
  | S754_zero _ => Some 0
  | S754_finite s m e =>
      let a := if 0 <=? e then Z.pos m * 2 ^ e else Z.pos m / 2 ^ (- e) in
      Some (if s then - a else a)
  | S754_infinity _ => None
  | S754_nan => None
  end.

(** [uint64(f)]: truncation toward zero when the integer part fits;
    otherwise the result is implementation-dependent, given by [oob]. *)
Definition to_uint64 (oob : t -> Z) (f : t) : Z :=
  match trunc f with
  | Some z => if (0 <=? z) && (z <=? uint64_max) then z else oob f
  | None => oob f
  end.

End float64.

(** ** Data of the client and of the chain *)

Definition bytes := string.

(** [AccAddress] is a byte slice; the nil address is the empty one. *)
Definition AccAddress := string.

Definition AccAddress_Empty (a : AccAddress) : bool :=
  match a with EmptyString => true | String _ _ => false end.

Definition nil_addr : AccAddress := EmptyString.

(** Messages: module messages are opaque to the client; the authz exec
    message carries its grantee and the wrapped messages.  A message is
    never the nil interface value here. *)
Local Unset Elimination Schemes.
Inductive Msg : Type :=
| DomainMsg (body : string)
| MsgExec (grantee : AccAddress) (msgs : list Msg).
Local Set Elimination Schemes.

(** [authz.NewMsgExec]; packing the wrapped messages is taken to succeed. *)
Definition NewMsgExec (grantee : AccAddress) (msgs : list Msg) : Msg :=
  MsgExec grantee msgs.

(** [MsgExec.GetSigners]: the grantee alone. *)
Definition MsgExec_GetSigners (m : Msg) : list AccAddress :=
  match m with
  | MsgExec grantee _ => [grantee]
  | DomainMsg _ => []
  end.

Definition PubKey := bytes.

Record KeyRecord : Type := mkKeyRecord { rec_Name : string; rec_PubKeyAny : bytes }.

Record Account : Type := mkAccount { acc_AccountNumber : Z; acc_Sequence : Z }.

Inductive SignMode : Type := SIGN_MODE_DIRECT.

Record SingleSignatureData : Type :=
  mkSigData { sd_SignMode : SignMode; sd_Signature : option bytes }.

Record SignatureV2 : Type :=
  mkSignatureV2 { sig_PubKey : PubKey; sig_Data : SingleSignatureData; sig_Sequence : Z }.

Record SignerData : Type :=
  mkSignerData { sgn_ChainID : string; sgn_AccountNumber : Z; sgn_Sequence : Z }.

(** The transaction builder and the transaction it holds. *)
Record TxBuilder : Type := mkTxBuilder {
  tx_Msgs : list Msg;
  tx_FeeAmount : Coins;
  tx_FeeGranter : AccAddress;
  tx_GasLimit : Z;
  tx_Memo : string;
  tx_TimeoutHeight : Z;
  tx_Signatures : list SignatureV2
}.

Definition NewTxBuilder : TxBuilder := mkTxBuilder [] [] nil_addr 0 "" 0 [].

Definition SetFeeAmount (v : Coins) (b : TxBuilder) : TxBuilder :=
  mkTxBuilder (tx_Msgs b) v (tx_FeeGranter b) (tx_GasLimit b) (tx_Memo b)
    (tx_TimeoutHeight b) (tx_Signatures b).
Definition SetFeeGranter (v : AccAddress) (b : TxBuilder) : TxBuilder :=
  mkTxBuilder (tx_Msgs b) (tx_FeeAmount b) v (tx_GasLimit b) (tx_Memo b)
    (tx_TimeoutHeight b) (tx_Signatures b).
Definition SetGasLimit (v : Z) (b : TxBuilder) : TxBuilder :=
  mkTxBuilder (tx_Msgs b) (tx_FeeAmount b) (tx_FeeGranter b) v (tx_Memo b)
    (tx_TimeoutHeight b) (tx_Signatures b).
Definition SetMemo (v : string) (b : TxBuilder) : TxBuilder :=
  mkTxBuilder (tx_Msgs b) (tx_FeeAmount b) (tx_FeeGranter b) (tx_GasLimit b) v
    (tx_TimeoutHeight b) (tx_Signatures b).
Definition SetTimeoutHeight (v : Z) (b : TxBuilder) : TxBuilder :=
  mkTxBuilder (tx_Msgs b) (tx_FeeAmount b) (tx_FeeGranter b) (tx_GasLimit b)
    (tx_Memo b) v (tx_Signatures b).
Definition put_Msgs (v : list Msg) (b : TxBuilder) : TxBuilder :=
  mkTxBuilder v (tx_FeeAmount b) (tx_FeeGranter b) (tx_GasLimit b) (tx_Memo b)
    (tx_TimeoutHeight b) (tx_Signatures b).
Definition put_Signatures (v : list SignatureV2) (b : TxBuilder) : TxBuilder :=
  mkTxBuilder (tx_Msgs b) (tx_FeeAmount b) (tx_FeeGranter b) (tx_GasLimit b)
    (tx_Memo b) (tx_TimeoutHeight b) v.

Definition CodeTypeOK : Z := 0.

Record ResultBroadcastTx : Type := mkResultBroadcastTx {
  rb_Code : Z;
  rb_Codespace : string;
  rb_Log : string;
  rb_Hash : bytes
}.

Record ExecTxResult : Type := mkExecTxResult {
  tr_Code : Z;
  tr_Codespace : string;
  tr_Log : string;
  tr_Events : list string
}.

Definition ExecTxResult_IsOK (r : ExecTxResult) : bool := tr_Code r =? CodeTypeOK.

Record ResultTx : Type := mkResultTx {
  rt_Hash : bytes;
  rt_Height : Z;
  rt_TxResult : ExecTxResult
}.

Record GasInfo : Type := mkGasInfo { gi_GasWanted : Z; gi_GasUsed : Z }.

(** [SimulateResponse.GasInfo] is a pointer and may be nil. *)
Record SimulateResponse : Type := mkSimulateResponse { sr_GasInfo : option GasInfo }.

(** The three shapes of a Go lookup returning [(ptr, err)]:
    a value, [(nil, nil)], or an error. *)
Inductive lookup (A : Type) : Type :=
| Found (a : A)
| Missing
| Failed (e : error).

Arguments Missing {A}.
Arguments Failed {A} e.

(** The fields of [Client] the transaction path reads. *)
Record Client : Type := mkClient {
  queryProve : bool;
  rpcAddr : string;
  rpcChainID : string;
  rpcTimeout : Z;
  txAuthzGranterAddr : AccAddress;
  txBroadcastRetryAttempts : nat;
  txBroadcastRetryDelay : Z;
  txFeeGranterAddr : AccAddress;
  txFees : Coins;
  txFromName : string;
  txGasAdjustment : float64.t;
  txGasPrices : DecCoins;
  txGas : Z;
  txMemo : string;
  txQueryRetryAttempts : nat;
  txQueryRetryDelay : Z;
  txSimulateAndExecute : bool;
  txTimeoutHeight : Z
}.

(** [WithTxAuthzGranterAddr] *)
Definition WithTxAuthzGranterAddr (addr : AccAddress) (c : Client) : Client :=
  mkClient (queryProve c) (rpcAddr c) (rpcChainID c) (rpcTimeout c) addr
    (txBroadcastRetryAttempts c) (txBroadcastRetryDelay c) (txFeeGranterAddr c)
    (txFees c) (txFromName c) (txGasAdjustment c) (txGasPrices c) (txGas c)
    (txMemo c) (txQueryRetryAttempts c) (txQueryRetryDelay c)
    (txSimulateAndExecute c) (txTimeoutHeight c).


(** [WithTxGasPrices] *)
Definition WithTxGasPrices (prices : DecCoins) (c : Client) : Client :=
  mkClient (queryProve c) (rpcAddr c) (rpcChainID c) (rpcTimeout c)
    (txAuthzGranterAddr c) (txBroadcastRetryAttempts c) (txBroadcastRetryDelay c)
    (txFeeGranterAddr c) (txFees c) (txFromName c) (txGasAdjustment c) prices
    (txGas c) (txMemo c) (txQueryRetryAttempts c) (txQueryRetryDelay c)
    (txSimulateAndExecute c) (txTimeoutHeight c).

(** ** The world outside the client *)

(** Calls that leave the process, in the order they are made. *)
Inductive Event : Type :=
| EvKeyringKey (name : string)
| EvKeyringSign (name : string) (buf : bytes)
| EvAccount (addr : AccAddress)
| EvSimulate (buf : bytes)
| EvBroadcast (buf : bytes)
| EvTx (hash : bytes) (prove : bool)
| EvSleep (d : Z).

(** The keyring, the codec and the node, over a world [W] they may read
    and change.  [keyring_Key] returns [Missing] for the keyring's
    key-not-found error; [query_Account] is the client's account query,
    which answers [Missing] for an account the chain does not have;
    [float_to_uint64_oob] is what the platform gives for [uint64(f)] when
    the integer part of [f] does not fit. *)
Record Env (W : Type) : Type := mkEnv {
  keyring_Key : string -> W -> lookup KeyRecord * W;
  keyring_Sign : string -> bytes -> W -> result (bytes * PubKey) * W;
  Record_GetPubKey : KeyRecord -> result PubKey;
  PubKey_Address : PubKey -> AccAddress;
  AccAddress_String : AccAddress -> string;
  Msg_ValidateBasic : Msg -> option error;
  TxBuilder_SetMsgs : list Msg -> option error;
  TxBuilder_SetSignatures : list SignatureV2 -> option error;
  TxEncoder : TxBuilder -> result bytes;
  GetSignBytes : SignMode -> SignerData -> TxBuilder -> result bytes;
  query_Account : AccAddress -> W -> lookup Account * W;
  query_Simulate : bytes -> W -> result SimulateResponse * W;
  http_NewWithTimeout : string -> Z -> option error;
  rpc_BroadcastTxSync : bytes -> W -> result ResultBroadcastTx * W;
  rpc_Tx : bytes -> bool -> W -> result ResultTx * W;
  float_to_uint64_oob : float64.t -> Z
}.

Record St (W : Type) : Type := mkSt { world : W; trace : list Event }.

(** An outside call: logged, then answered by the environment. *)
Definition call {W A} (ev : Event) (f : W -> A * W) : M (St W) A :=
  fun s =>
    let (a, w') := f (world s) in
    Ret (a, mkSt w' (trace s ++ [ev])%list).

(** ** The retry library *)

(** The loop of the retry library's [Do], as the two call sites use it:
    the context is never cancelled, no error is marked unrecoverable, and
    [OnRetry] does nothing. *)
Module retry.

Section Do.
Variable S : Type.

(** The options both call sites set: [Attempts], [Delay] with
    [FixedDelay], [RetryIf], and [LastErrorOnly(true)]; [timer] is
    the library's timer, which blocks for the delay. *)
Record Config : Type := mkConfig {
  attempts : nat;
  delay : Z;
  retryIf : error -> bool;
  timer : Z -> M S unit
}.

Variable cfg : Config.
Variable retryableFunc : M S (option error).

(** The bounded loop, by the attempts that remain.  After a failed
    attempt that [retryIf] accepts, the loop sleeps and goes on,
    unless that attempt was the last one. *)
Fixpoint loop (remaining : nat) : M S (option error) :=
  match remaining with
  | O => ret None
  | Datatypes.S r =>
      e <- retryableFunc ;;
      match e with
      | None => ret None
      | Some err =>
          if negb (retryIf cfg err) then ret (Some err)
          else match r with
               | O => ret (Some err)
               | Datatypes.S _ => timer cfg (delay cfg) ;;; loop r
               end
      end
  end.

(** [Attempts(0)]: retry until success or an error [retryIf] rejects. *)
Fixpoint forever (fuel : nat) : M S (option error) :=
  match fuel with
  | O => fun _ => OutOfFuel
  | Datatypes.S k =>
      e <- retryableFunc ;;
      match e with
      | None => ret None
      | Some err =>
          if negb (retryIf cfg err) then ret (Some err)
          else timer cfg (delay cfg) ;;; forever k
      end
  end.

(** [retry.Do], returning the last error only. *)
Definition Do (fuel : nat) : M S (option error) :=
  match attempts cfg with
  | O => forever fuel
  | Datatypes.S _ => loop (attempts cfg)
  end.

End Do.

End retry.

(** ** The client's transaction path *)

Definition nil_deref : string :=
  "runtime error: invalid memory address or nil pointer dereference".

(** [time.Second] in nanoseconds, and Go's [uint(x)] of a 64-bit integer. *)
Definition time_Second : Z := 10 ^ 9.
Definition uint_of_int64 (x : Z) : Z := x mod 2 ^ 64.

(** The variables a retried closure captures and assigns. *)
Record Locals (A : Type) : Type := mkLocals { l_result : option A; l_err : option error }.

Definition value_of {A} (r : result A) : option A :=
  match r with Ok a => Some a | Err _ => None end.

Definition error_of {A} (r : result A) : option error :=
  match r with Ok _ => None | Err e => Some e end.

Section Core.

Variable W : Type.
Variable env : Env W.

(** A computation on the outer state, run where locals are in scope. *)
Definition lift {L A} (m : M (St W) A) : M (St W * L) A :=
  fun sl =>
    match m (fst sl) with
    | Ret (a, s') => Ret (a, (s', snd sl))
    | Panic msg => Panic msg
    | OutOfFuel => OutOfFuel
    end.

Definition assign {L} (l : L) : M (St W * L) unit :=
  fun sl => Ret (tt, (fst sl, l)).

(** Run a block with fresh locals and hand back their final values. *)
Definition with_locals {L A} (init : L) (m : M (St W * L) A) : M (St W) (A * L) :=
  fun s =>
    match m (s, init) with
    | Ret (a, (s', l)) => Ret ((a, l), s')
    | Panic msg => Panic msg
    | OutOfFuel => OutOfFuel
    end.

Definition sleep (d : Z) : M (St W) unit :=
  call (EvSleep d) (fun w => (tt, w)).

(** *** Keyring access *)

(** [Client.Key] *)
Definition Key (c : Client) (name : string) : M (St W) (lookup KeyRecord) :=
  let name := if String.eqb name "" then txFromName c else name in
  r <- call (EvKeyringKey name) (keyring_Key env name) ;;
  match r with
  | Failed e => ret (Failed (wrap "failed to retrieve key from keyring: " e))
  | Missing => ret Missing
  | Found key => ret (Found key)
  end.

(** [keyring.Record.GetAddress]: the address of the record's public key. *)
Definition Record_GetAddress (key : KeyRecord) : result AccAddress :=
  match Record_GetPubKey env key with
  | Err e => Err e
  | Ok pk => Ok (PubKey_Address env pk)
  end.

(** [Client.KeyAddr] *)
Definition KeyAddr (c : Client) (name : string) : M (St W) (AccAddress * option error) :=
  key <- Key c name ;;
  match key with
  | Failed e => ret (nil_addr, Some (wrap "failed to retrieve key: " e))
  | Missing => ret (nil_addr, None)
  | Found key =>
      match Record_GetAddress key with
      | Err e => ret (nil_addr, Some (wrap "failed to get addr from key: " e))
      | Ok addr => ret (addr, None)
      end
  end.

(** [Client.Sign] *)
Definition Sign (c : Client) (name : string) (buf : bytes)
  : M (St W) (result (bytes * PubKey)) :=
  let name := if String.eqb name "" then txFromName c else name in
  r <- call (EvKeyringSign name buf) (keyring_Sign env name buf) ;;
  match r with
  | Err e => ret (Err (wrap "failed to sign data: " e))
  | Ok sp => ret (Ok sp)
  end.

(** [Client.MsgFromAddr] *)
Definition MsgFromAddr (c : Client) : M (St W) (AccAddress * option error) :=
  if negb (AccAddress_Empty (txAuthzGranterAddr c)) then
    ret (txAuthzGranterAddr c, None)
  else
    r <- KeyAddr c (txFromName c) ;;
    match snd r with
    | Some err => ret (nil_addr, Some (wrap "failed to get key addr for tx_from_name:" err))
    | None => ret (fst r, None)
    end.

(** *** Gas simulation *)

(** [Client.Simulate] *)
Definition Simulate (buf : bytes) : M (St W) (result SimulateResponse) :=
  r <- call (EvSimulate buf) (query_Simulate env buf) ;;
  match r with
  | Err e => ret (Err (wrap "failed to query simulate: " e))
  | Ok resp => ret (Ok resp)
  end.

(** The adjusted gas: [uint64(c.txGasAdjustment * float64(gasUsed))]. *)
Definition adjustedGas (c : Client) (gasUsed : Z) : Z :=
  float64.to_uint64 (float_to_uint64_oob env)
    (float64.mul (txGasAdjustment c) (float64.of_uint64 gasUsed)).

(** [Client.gasSimulateTx] *)
Definition gasSimulateTx (c : Client) (txb : TxBuilder) : M (St W) (result Z) :=
  match TxEncoder env txb with
  | Err e => ret (Err (wrap "failed to encode tx: " e))
  | Ok buf =>
      res <- Simulate buf ;;
      match res with
      | Err e => ret (Err (wrap "failed to simulate tx: " e))
      | Ok res =>
          match sr_GasInfo res with
          | None => panic nil_deref
          | Some gi => ret (Ok (adjustedGas c (gi_GasUsed gi)))
          end
      end
  end.

(** *** Building and signing *)

Definition placeholder (pubKey : PubKey) (acc : Account) : SignatureV2 :=
  mkSignatureV2 pubKey (mkSigData SIGN_MODE_DIRECT None) (acc_Sequence acc).

(** The tail of [prepareTx]: the simulate-and-execute block. *)
Definition prepareTx_simulate (c : Client) (txb : TxBuilder) : M (St W) (result TxBuilder) :=
  if txSimulateAndExecute c then
    g <- gasSimulateTx c txb ;;
    match g with
    | Err e => ret (Err (wrap "failed to simulate tx for gas estimation: " e))
    | Ok gasLimit =>
        let txb := SetGasLimit gasLimit txb in
        if negb (DecCoins_IsZero (txGasPrices c)) then
          fees <- lift_outcome (calculateFees (txGasPrices c) gasLimit) ;;
          ret (Ok (SetFeeAmount fees txb))
        else ret (Ok txb)
    end
  else ret (Ok txb).

(** The static parameters [prepareTx] installs after the messages. *)
Definition set_static (c : Client) (txb : TxBuilder) : TxBuilder :=
  SetTimeoutHeight (txTimeoutHeight c)
    (SetMemo (txMemo c)
       (SetGasLimit (txGas c)
          (SetFeeGranter (txFeeGranterAddr c)
             (SetFeeAmount (txFees c) txb)))).

(** [Client.prepareTx] *)
Definition prepareTx (c : Client) (key : KeyRecord) (acc : Account) (msgs : list Msg)
  : M (St W) (result TxBuilder) :=
  let txb := NewTxBuilder in
  match TxBuilder_SetMsgs env msgs with
  | Some e => ret (Err (wrap "failed to set messages: " e))
  | None =>
      let txb := set_static c (put_Msgs msgs txb) in
      txb <- (if negb (DecCoins_IsZero (txGasPrices c)) then
                fees <- lift_outcome (calculateFees (txGasPrices c) (txGas c)) ;;
                ret (SetFeeAmount fees txb)
              else ret txb) ;;
      match Record_GetPubKey env key with
      | Err e => ret (Err (wrap "failed to get public key from key: " e))
      | Ok pubKey =>
          let signature := placeholder pubKey acc in
          match TxBuilder_SetSignatures env [signature] with
          | Some e => ret (Err (wrap "failed to set initial signatures: " e))
          | None => prepareTx_simulate c (put_Signatures [signature] txb)
          end
      end
  end.

(** [Client.signTx]; the builder is returned in place of Go's mutation. *)
Definition signTx (c : Client) (txb : TxBuilder) (key : KeyRecord) (acc : Account)
  : M (St W) (result TxBuilder) :=
  match Record_GetPubKey env key with
  | Err e => ret (Err (wrap "failed to get public key from key: " e))
  | Ok pubKey =>
      let signature := placeholder pubKey acc in
      match TxBuilder_SetSignatures env [signature] with
      | Some e => ret (Err (wrap "failed to set initial signatures: " e))
      | None =>
          let txb := put_Signatures [signature] txb in
          let signerData :=
            mkSignerData (rpcChainID c) (acc_AccountNumber acc) (acc_Sequence acc) in
          match GetSignBytes env SIGN_MODE_DIRECT signerData txb with
          | Err e => ret (Err (wrap "failed to get tx sign bytes: " e))
          | Ok buf =>
              r <- Sign c (txFromName c) buf ;;
              match r with
              | Err e => ret (Err (wrap "failed to sign tx bytes: " e))
              | Ok (buf, _) =>
                  let signature :=
                    mkSignatureV2 pubKey (mkSigData SIGN_MODE_DIRECT (Some buf))
                      (acc_Sequence acc) in
                  match TxBuilder_SetSignatures env [signature] with
                  | Some e => ret (Err (wrap "failed to set updated signatures: " e))
                  | None => ret (Ok (put_Signatures [signature] txb))
                  end
              end
          end
      end
  end.

(** *** Synchronous broadcast *)

(** [Client.HTTP]: building the RPC client may fail. *)
Definition HTTP (c : Client) : option error :=
  http_NewWithTimeout env (rpcAddr c)
    (uint_of_int64 (Z.quot (rpcTimeout c) time_Second)).

(** The validation loop of [broadcastTxSync]: the first invalid message
    aborts with its index. *)
Fixpoint validate_from (i : nat) (msgs : list Msg) : option error :=
  match msgs with
  | [] => None
  | msg :: rest =>
      match Msg_ValidateBasic env msg with
      | Some e =>
          Some ("failed to validate message at index "
                  ++ string_of_Z (Z.of_nat i) ++ ": " ++ e)
      | None => validate_from (Datatypes.S i) rest
      end
  end.

(** The messages that go on: wrapped for the grantee when a granter is set. *)
Definition wrap_authz (c : Client) (addr : AccAddress) (msgs : list Msg) : list Msg :=
  if negb (AccAddress_Empty (txAuthzGranterAddr c)) then [NewMsgExec addr msgs]
  else msgs.

(** [broadcastTxSync] from the encoding on. *)
Definition submit (c : Client) (txb : TxBuilder) : M (St W) (result ResultBroadcastTx) :=
  match TxEncoder env txb with
  | Err e => ret (Err (wrap "failed to encode tx: " e))
  | Ok buf =>
      match HTTP c with
      | Some e => ret (Err (wrap "failed to create rpc client: " e))
      | None =>
          r <- call (EvBroadcast buf) (rpc_BroadcastTxSync env buf) ;;
          match r with
          | Err e => ret (Err (wrap "failed to sync broadcast tx: " e))
          | Ok res => ret (Ok res)
          end
      end
  end.

(** [broadcastTxSync] from the account lookup on. *)
Definition broadcast_as (c : Client) (key : KeyRecord) (addr : AccAddress)
           (msgs : list Msg) : M (St W) (result ResultBroadcastTx) :=
  acc <- call (EvAccount addr) (query_Account env addr) ;;
  match acc with
  | Failed e => ret (Err (wrap "failed to query account: " e))
  | Missing =>
      ret (Err (newErrNotFound
                  ("acconut " ++ AccAddress_String env addr ++ " does not exist")))
  | Found acc =>
      txb <- prepareTx c key acc msgs ;;
      match txb with
      | Err e => ret (Err (wrap "failed to prepare tx: " e))
      | Ok txb =>
          signed <- signTx c txb key acc ;;
          match signed with
          | Err e => ret (Err (wrap "failed to sign tx: " e))
          | Ok txb => submit c txb
          end
      end
  end.

(** [Client.broadcastTxSync] *)
Definition broadcastTxSync (c : Client) (msgs : list Msg)
  : M (St W) (result ResultBroadcastTx) :=
  key <- Key c (txFromName c) ;;
  match key with
  | Failed e => ret (Err (wrap "failed to get key: " e))
  | Missing =>
      ret (Err (newErrNotFound ("key " ++ txFromName c ++ " does not exist")))
  | Found key =>
      match Record_GetAddress key with
      | Err e => ret (Err (wrap "failed to get addr from key: " e))
      | Ok addr =>
          let msgs := wrap_authz c addr msgs in
          match validate_from 0 msgs with
          | Some e => ret (Err e)
          | None => broadcast_as c key addr msgs
          end
      end
  end.

(** The closure [retryFunc] of [BroadcastTxSync]: it assigns the captured
    [resp] and [err], and turns a mempool-cache error into nil. *)
Definition BroadcastTxSync_retryFunc (c : Client) (msgs : list Msg)
  : M (St W * Locals ResultBroadcastTx) (option error) :=
  r <- lift (broadcastTxSync c msgs) ;;
  assign (mkLocals (value_of r) (error_of r)) ;;;
  match error_of r with
  | Some err =>
      if IsTxInMempoolCacheError err then ret None
      else ret (Some err)
  | None => ret None
  end.

(** The closure [retryIfFunc] of [BroadcastTxSync]. *)
Definition BroadcastTxSync_retryIfFunc (err : error) : bool :=
  if IsWrongSequenceError err then true else false.

Definition broadcast_retry_config (c : Client)
  : retry.Config (St W * Locals ResultBroadcastTx) :=
  retry.mkConfig (txBroadcastRetryAttempts c) (txBroadcastRetryDelay c)
    BroadcastTxSync_retryIfFunc (fun d => lift (sleep d)).

(** [Client.BroadcastTxSync] *)
Definition BroadcastTxSync (fuel : nat) (c : Client) (msgs : list Msg)
  : M (St W) (option ResultBroadcastTx * option error) :=
  r <- with_locals (mkLocals None None)
         (retry.Do (broadcast_retry_config c) (BroadcastTxSync_retryFunc c msgs) fuel) ;;
  match fst r with
  | Some err => ret (None, Some (wrap "tx sync broadcast failed after retries: " err))
  | None => ret (l_result (snd r), None)
  end.

(** *** Inclusion polling *)

(** [Client.tx] *)
Definition tx (c : Client) (hash : bytes) : M (St W) (result ResultTx) :=
  match HTTP c with
  | Some e => ret (Err (wrap "failed to create rpc client: " e))
  | None =>
      r <- call (EvTx hash (queryProve c)) (rpc_Tx env hash (queryProve c)) ;;
      match r with
      | Err e => ret (Err (wrap "failed to query tx: " e))
      | Ok res => ret (Ok res)
      end
  end.

(** The closure [retryFunc] of [Tx]. *)
Definition Tx_retryFunc (c : Client) (hash : bytes)
  : M (St W * Locals ResultTx) (option error) :=
  r <- lift (tx c hash) ;;
  assign (mkLocals (value_of r) (error_of r)) ;;;
  match error_of r with
  | Some err => ret (Some err)
  | None => ret None
  end.

(** The closure [retryIfFunc] of [Tx]. *)
Definition Tx_retryIfFunc (err : error) : bool := true.

Definition query_retry_config (c : Client) : retry.Config (St W * Locals ResultTx) :=
  retry.mkConfig (txQueryRetryAttempts c) (txQueryRetryDelay c)
    Tx_retryIfFunc (fun d => lift (sleep d)).

(** [Client.Tx] *)
Definition Tx (fuel : nat) (c : Client) (hash : bytes)
  : M (St W) (option ResultTx * option error) :=
  r <- with_locals (mkLocals None None)
         (retry.Do (query_retry_config c) (Tx_retryFunc c hash) fuel) ;;
  match fst r with
  | Some err => ret (None, Some (wrap "tx query failed after retries: " err))
  | None => ret (l_result (snd r), None)
  end.

(** *** The orchestrator *)

(** ["code=%d, codespace=%s, log=%s"] *)
Definition code_text (code : Z) (codespace log : string) : string :=
  "code=" ++ string_of_Z code ++ ", codespace=" ++ codespace ++ ", log=" ++ log.

(** What [BroadcastTxBlock] returns: the broadcast response, the
    transaction result, and the error. *)
Definition BlockResult : Type :=
  (option ResultBroadcastTx * option ResultTx * option error)%type.

(** [BroadcastTxBlock] after a broadcast that returned [resp]. *)
Definition confirm (fuel : nat) (c : Client) (resp : ResultBroadcastTx)
  : M (St W) BlockResult :=
  if negb (rb_Code resp =? CodeTypeOK) then
    let err := code_text (rb_Code resp) (rb_Codespace resp) (rb_Log resp) in
    ret (Some resp, None, Some (wrap "tx sync broadcast failed: " err))
  else
    r <- Tx fuel c (rb_Hash resp) ;;
    match snd r with
    | Some err => ret (Some resp, None, Some err)
    | None =>
        match fst r with
        | None => panic nil_deref
        | Some res =>
            if negb (ExecTxResult_IsOK (rt_TxResult res)) then
              let err := code_text (tr_Code (rt_TxResult res))
                           (tr_Codespace (rt_TxResult res)) (tr_Log (rt_TxResult res)) in
              ret (Some resp, Some res, Some (wrap "tx failed: " err))
            else ret (Some resp, Some res, None)
        end
    end.

(** [Client.BroadcastTxBlock]: reading [resp.Code] dereferences [resp]. *)
Definition BroadcastTxBlock (fuel : nat) (c : Client) (msgs : list Msg)
  : M (St W) BlockResult :=
  r <- BroadcastTxSync fuel c msgs ;;
  match snd r with
  | Some err => ret (None, None, Some err)
  | None =>
      match fst r with
      | None => panic nil_deref
      | Some resp => confirm fuel c resp
      end
  end.

End Core.

(** ** A scripted node for concrete runs *)

Module Scenario.

(** The node answers broadcasts and queries from two scripts; the keyring
    holds the key "main" when [stored_key] is set. *)
Record World : Type := mkWorld {
  pending_broadcasts : list (result ResultBroadcastTx);
  pending_queries : list (result ResultTx);
  ledger_sequence : Z;
  stored_key : bool
}.

Definition main_key : KeyRecord := mkKeyRecord "main" "pk-main".

Definition answer_broadcast (w : World) : result ResultBroadcastTx * World :=
  match pending_broadcasts w with
  | [] => (Err "connection refused", w)
  | r :: rest =>
      (r, mkWorld rest (pending_queries w) (ledger_sequence w + 1) (stored_key w))
  end.

Definition answer_query (w : World) : result ResultTx * World :=
  match pending_queries w with
  | [] => (Err "tx not found", w)
  | r :: rest =>
      (r, mkWorld (pending_broadcasts w) rest (ledger_sequence w) (stored_key w))
  end.

Definition env : Env World := {|
  keyring_Key := fun name w =>
    (if stored_key w && String.eqb name "main" then Found main_key else Missing, w);
  keyring_Sign := fun name buf w => (Ok ("sig:" ++ buf, "pk-main"), w);
  Record_GetPubKey := fun key => Ok (rec_PubKeyAny key);
  PubKey_Address := fun pk => "addr:" ++ pk;
  AccAddress_String := fun a => a;
  Msg_ValidateBasic := fun _ => None;
  TxBuilder_SetMsgs := fun _ => None;
  TxBuilder_SetSignatures := fun _ => None;
  TxEncoder := fun txb => Ok ("tx:" ++ string_of_Z (tx_GasLimit txb));
  GetSignBytes := fun _ sd _ => Ok ("sign:" ++ string_of_Z (sgn_Sequence sd));
  query_Account := fun _ w => (Found (mkAccount 7 (ledger_sequence w)), w);
  query_Simulate := fun _ w =>
    (Ok (mkSimulateResponse (Some (mkGasInfo 0 120000))), w);
  http_NewWithTimeout := fun _ _ => None;
  rpc_BroadcastTxSync := fun _ w => answer_broadcast w;
  rpc_Tx := fun _ _ w => answer_query w;
  float_to_uint64_oob := fun _ => 2 ^ 63
|}.

(** [1.0 + 1.0/6], the default gas adjustment, as a [float64]. *)
Definition default_adjustment : float64.t :=
  SFdiv float64.prec float64.emax (float64.of_uint64 7) (float64.of_uint64 6).

Definition tics (amount : Z) : DecCoin := mkDecCoin "tics" (mkDec amount).

Definition client : Client := {|
  queryProve := false;
  rpcAddr := "https://rpc.example:443";
  rpcChainID := "chain-1";
  rpcTimeout := 15 * time_Second;
  txAuthzGranterAddr := nil_addr;
  txBroadcastRetryAttempts := 3;
  txBroadcastRetryDelay := 5 * time_Second;
  txFeeGranterAddr := nil_addr;
  txFees := [];
  txFromName := "main";
  txGasAdjustment := default_adjustment;
  txGasPrices := [tics (10 ^ 17)];
  txGas := 200000;
  txMemo := "";
  txQueryRetryAttempts := 2;
  txQueryRetryDelay := 1 * time_Second;
  txSimulateAndExecute := true;
  txTimeoutHeight := 0
|}.

Definition start (bs : list (result ResultBroadcastTx)) (qs : list (result ResultTx))
  : St World :=
  mkSt (mkWorld bs qs 5 true) [].

Definition accepted : ResultBroadcastTx := mkResultBroadcastTx 0 "" "" "HASH".

Definition included (code : Z) : ResultTx :=
  mkResultTx "HASH" 10 (mkExecTxResult code "sdk" "log" []).

Definition msgs : list Msg := [DomainMsg "start-session"].

Definition is_account_lookup (ev : Event) : bool :=
  match ev with EvAccount _ => true | _ => false end.

Definition is_query (ev : Event) : bool :=
  match ev with EvTx _ _ => true | _ => false end.

(** Node replies used in the concrete runs, and a client acting for a
    granter. *)
Definition sequence_error : result ResultBroadcastTx :=
  Err "account sequence mismatch, expected 6, got 5: incorrect account sequence".

Definition cache_error : result ResultBroadcastTx := Err "tx already exists in cache".

Definition grantee_client : Client := WithTxAuthzGranterAddr "granter" client.


(** The letter U+0130 (capital I with a dot above) in UTF-8, which
    [strings.ToLower] turns into "i", and a cache error spelled with it. *)
Definition capital_dotted_I : string :=
  String (ascii_of_N 196) (String (ascii_of_N 176) EmptyString).

Definition dotted_cache_error : result ResultBroadcastTx :=
  Err ("incorrect account sequence: tx already ex" ++ capital_dotted_I ++ "sts in cache").

End Scenario.

(** ** Runs of the retry loops *)

(** The state a fixed delay leaves behind. *)
Definition state_after_sleep {W} (d : Z) (s : St W) : St W :=
  mkSt (world s) (trace s ++ [EvSleep d])%list.

Module retry_runs.

Section Generic.
Variable S : Type.
Variable cfg : retry.Config S.
Variable retryableFunc : M S (option error).

(** The state before attempt [n + 1], when each of the first [n]
    attempts returned an error that [retryIf] accepts and was
    followed by the delay. *)
Fixpoint after_retries (n : nat) (s : S) : option S :=
  match n with
  | O => Some s
  | Datatypes.S k =>
      match retryableFunc s with
      | Ret (Some err, s1) =>
          if retry.retryIf cfg err then
            match retry.timer cfg (retry.delay cfg) s1 with
            | Ret (_, s2) => after_retries k s2
            | _ => None
            end
          else None
      | _ => None
      end
  end.

(** Attempt [n + 1] is made: it is within the attempt count, or the
    count is zero (no bound) and the fuel of the model reaches it. *)
Definition within_budget (fuel n : nat) : Prop :=
  (n < retry.attempts cfg)%nat \/ (retry.attempts cfg = O /\ (n < fuel)%nat).
End Generic.

End retry_runs.

(** [WithTxBroadcastRetryAttempts] and [WithTxQueryRetryAttempts] *)
Definition WithTxBroadcastRetryAttempts (n : nat) (c : Client) : Client :=
  mkClient (queryProve c) (rpcAddr c) (rpcChainID c) (rpcTimeout c)
    (txAuthzGranterAddr c) n (txBroadcastRetryDelay c) (txFeeGranterAddr c)
    (txFees c) (txFromName c) (txGasAdjustment c) (txGasPrices c) (txGas c)
    (txMemo c) (txQueryRetryAttempts c) (txQueryRetryDelay c)
    (txSimulateAndExecute c) (txTimeoutHeight c).

Definition WithTxQueryRetryAttempts (n : nat) (c : Client) : Client :=
  mkClient (queryProve c) (rpcAddr c) (rpcChainID c) (rpcTimeout c)
    (txAuthzGranterAddr c) (txBroadcastRetryAttempts c) (txBroadcastRetryDelay c)
    (txFeeGranterAddr c) (txFees c) (txFromName c) (txGasAdjustment c)
    (txGasPrices c) (txGas c) (txMemo c) n (txQueryRetryDelay c)
    (txSimulateAndExecute c) (txTimeoutHeight c).

Section Runs.

Variable W : Type.
Variable env : Env W.

(** The state before broadcast attempt [n + 1], when each of the first
    [n] attempts failed with a sequence error that is not a mempool-cache
    error and was followed by the broadcast delay. *)
Fixpoint after_sequence_retries (c : Client) (msgs : list Msg) (n : nat) (s : St W)
  : option (St W) :=
  match n with
  | O => Some s
  | Datatypes.S k =>
      match broadcastTxSync env c msgs s with
      | Ret (Err e, s1) =>
          if negb (IsTxInMempoolCacheError e) && IsWrongSequenceError e then
            after_sequence_retries c msgs k
              (state_after_sleep (txBroadcastRetryDelay c) s1)
          else None
      | _ => None
      end
  end.

(** The state before query attempt [n + 1], when each of the first [n]
    queries failed, with whatever error, and was followed by the query
    delay. *)
Fixpoint after_query_retries (c : Client) (hash : bytes) (n : nat) (s : St W)
  : option (St W) :=
  match n with
  | O => Some s
  | Datatypes.S k =>
      match tx env c hash s with
      | Ret (Err _, s1) =>
          after_query_retries c hash k (state_after_sleep (txQueryRetryDelay c) s1)
      | _ => None
      end
  end.

End Runs.

(** ** Fee arithmetic *)

(** [ceil(a / b)] for a positive [b]. *)
Definition ceil_div (a b : Z) : Z := - ((- a) / b).

(** The fee entry of one gas price: [ceil(price * gasLimit)]. *)
Definition fee_entry (gasLimit : Z) (price : DecCoin) : Coin :=
  mkCoin (dc_Denom price) (ceil_div (dec_i (dc_Amount price) * gasLimit) precisionReuse).

(** A gas price the fee computation accepts for every gas limit below
    [2^63]: a well-formed denom and a non-negative amount far from the
    overflow guards of the decimal library. *)
Definition price_ok (price : DecCoin) : Prop :=
  ValidateDenom (dc_Denom price) = true /\ 0 <= dec_i (dc_Amount price) < 2 ^ 250.

(** ** What a run leaves in the trace *)

Section Observations.

Variable W : Type.
Variable env : Env W.

(** The state after the keyring was asked for the key named [name]. *)
Definition after_key_lookup (name : string) (w : W) (s : St W) : St W :=
  mkSt w (trace s ++ [EvKeyringKey name])%list.

(** The state after the node was asked to simulate [buf]. *)
Definition after_simulate (buf : bytes) (w : W) (s : St W) : St W :=
  mkSt w (trace s ++ [EvSimulate buf])%list.

(** [traced P Q m]: whenever [m] returns, it has appended to the trace
    only events that satisfy [P], and its value satisfies [Q]. *)
Definition traced {A} (P : Event -> Prop) (Q : A -> Prop) (m : M (St W) A) : Prop :=
  forall s a s',
    m s = Ret (a, s') ->
    (exists evs, trace s' = (trace s ++ evs)%list /\ Forall P evs) /\ Q a.

Variable addr : AccAddress.
Variable wrapped : list Msg.

(** What the node may see of a submission that signs as [addr] and
    carries [wrapped]: account lookups of [addr] only, and simulated or
    broadcast bytes that encode a transaction with exactly [wrapped]. *)
Definition submission_event (ev : Event) : Prop :=
  match ev with
  | EvAccount a => a = addr
  | EvSimulate buf | EvBroadcast buf =>
      exists txb, tx_Msgs txb = wrapped /\ TxEncoder env txb = Ok buf
  | _ => True
  end.

Definition carries (r : result TxBuilder) : Prop :=
  forall txb, r = Ok txb -> tx_Msgs txb = wrapped.

End Observations.

Arguments traced W {A} P Q m.

(** ** More of [core/error.go] *)

(** [IsCodeNotFound]: nil for a gRPC not-found error, the error otherwise.
    The match is on the text as it is, without lowering the case. *)
Definition IsCodeNotFound (err : error) : option error :=
  if strings.Contains err "rpc error: code = NotFound" then None else Some err.

(** ** Events of a transaction result ([utils]) *)

Module strconv.

(** The two errors of [ParseUint], and the text of a [NumError]. *)
Inductive NumErr : Type := ErrSyntax | ErrRange.

Definition NumErr_text (e : NumErr) : string :=
  match e with
  | ErrSyntax => "invalid syntax"
  | ErrRange => "value out of range"
  end.

Definition maxUint64 : Z := 2 ^ 64 - 1.

(** The smallest number whose tenfold exceeds [maxUint64]. *)
Definition cutoff : Z := maxUint64 / 10 + 1.

(** The value of a decimal digit; every other byte is a syntax error in
    base 10. *)
Definition digit (c : ascii) : option Z :=
  let n := Z.of_N (N_of_ascii c) in
  if (48 <=? n) && (n <=? 57) then Some (n - 48) else None.

(** The loop of [ParseUint(s, 10, 64)] over the bytes of [s], with the
    64-bit accumulator [n] and its wrap-around written out. *)
Fixpoint parse_loop (s : string) (n : Z) : NumErr + Z :=
  match s with
  | EmptyString => inr n
  | String c rest =>
      match digit c with
      | None => inl ErrSyntax
      | Some d =>
          if cutoff <=? n then inl ErrRange
          else
            let n := (n * 10) mod 2 ^ 64 in
            let n1 := (n + d) mod 2 ^ 64 in
            if (n1 <? n) || (maxUint64 <? n1) then inl ErrRange
            else parse_loop rest n1
      end
  end.

Section ParseUint.

(** [strconv.Quote], which the error text applies to the input. *)
Variable Quote : string -> string.

Definition NumError (s : string) (e : NumErr) : error :=
  "strconv.ParseUint: parsing " ++ Quote s ++ ": " ++ NumErr_text e.

(** [strconv.ParseUint(s, 10, 64)] *)
Definition ParseUint (s : string) : result Z :=
  match s with
  | EmptyString => Err (NumError s ErrSyntax)
  | String _ _ =>
      match parse_loop s 0 with
      | inl e => Err (NumError s e)
      | inr n => Ok n
      end
  end.

End ParseUint.

End strconv.

Module utils.

Record EventAttribute : Type := mkAttribute { attr_Key : string; attr_Value : string }.

Record AbciEvent : Type :=
  mkAbciEvent { ev_Type : string; ev_Attributes : list EventAttribute }.

(** What a caller names an event by: a string, a proto message (known by
    its message name), or a value of another Go type. *)
Inductive EventRef : Type :=
| RefString (name : string)
| RefProto (messageName : string)
| RefOther (goType : string).

(** [getEventName] *)
Definition getEventName (t : EventRef) : result string :=
  match t with
  | RefString v => Ok v
  | RefProto messageName => Ok messageName
  | RefOther goType => Err ("unsupported type " ++ goType)
  end.

(** The search loop of [EventFromEvents]. *)
Fixpoint first_event (name : string) (items : list AbciEvent) : option AbciEvent :=
  match items with
  | [] => None
  | item :: rest =>
      if String.eqb (ev_Type item) name then Some item else first_event name rest
  end.

(** [EventFromEvents] *)
Definition EventFromEvents (items : list AbciEvent) (t : EventRef) : result AbciEvent :=
  match getEventName t with
  | Err e => Err (wrap "failed to get event name: " e)
  | Ok name =>
      match first_event name items with
      | Some item => Ok item
      | None => Err "event not found"
      end
  end.

(** The search loop of [AttributeValueFromEvent]. *)
Fixpoint first_attribute (key : string) (attributes : list EventAttribute) : option string :=
  match attributes with
  | [] => None
  | attribute :: rest =>
      if String.eqb (attr_Key attribute) key then Some (attr_Value attribute)
      else first_attribute key rest
  end.

(** [AttributeValueFromEvent] *)
Definition AttributeValueFromEvent (item : AbciEvent) (key : string) : result string :=
  match first_attribute key (ev_Attributes item) with
  | Some value => Ok value
  | None => Err "attribute not found"
  end.

(** [AttributeValueFromEvents] *)
Definition AttributeValueFromEvents (items : list AbciEvent) (t : EventRef) (key : string)
  : result string :=
  match EventFromEvents items t with
  | Err e => Err (wrap "failed to get event from events: " e)
  | Ok event =>
      match AttributeValueFromEvent event key with
      | Err e => Err (wrap "failed to get attribute from event: " e)
      | Ok value => Ok value
      end
  end.

(** [strings.Trim(s, cutset)] for a cutset of one ASCII byte: the byte is
    stripped from the right end, then from the left end. *)
Fixpoint TrimLeftByte (s : string) (c : ascii) : string :=
  match s with
  | EmptyString => EmptyString
  | String d rest => if Ascii.eqb d c then TrimLeftByte rest c else s
  end.

Fixpoint TrimRightByte (s : string) (c : ascii) : string :=
  match s with
  | EmptyString => EmptyString
  | String d rest =>
      match TrimRightByte rest c with
      | EmptyString => if Ascii.eqb d c then EmptyString else String d EmptyString
      | String _ _ as kept => String d kept
      end
  end.

Definition Trim (s : string) (c : ascii) : string :=
  TrimLeftByte (TrimRightByte s c) c.

(** The double quote. *)
Definition quote_byte : ascii := ascii_of_N 34.

Section IDFromEvents.

Variable Quote : string -> string.

(** [IDFromEvents] *)
Definition IDFromEvents (items : list AbciEvent) (t : EventRef) : result Z :=
  match AttributeValueFromEvents items t "id" with
  | Err e => Err (wrap "failed to get id from events: " e)
  | Ok value =>
      let value := Trim value quote_byte in
      match strconv.ParseUint Quote value with
      | Err e => Err (wrap "failed to parse id from value: " e)
      | Ok id => Ok id
      end
  end.

End IDFromEvents.

End utils.

(** ** Callers of the transaction path *)

Section Sessions.

Variable W : Type.
Variable env : Env W.

(** [Client.HasKey] *)
Definition HasKey (c : Client) (name : string) : M (St W) (bool * option error) :=
  key <- Key env c name ;;
  match key with
  | Failed e => ret (false, Some (wrap "failed to retrieve key: " e))
  | Missing => ret (false, None)
  | Found _ => ret (true, None)
  end.

(** The chain's message constructors and the name of its session event;
    [event_of] reads one of the events the transaction path carries
    unopened; [Quote] is [strconv.Quote]. *)
Variable NewMsgStartSessionRequest_node : AccAddress -> bytes -> Z -> Z -> string -> Msg.
Variable NewMsgStartSessionRequest_subscription : AccAddress -> Z -> bytes -> Msg.
Variable EventCreateSession : string.
Variable event_of : string -> utils.AbciEvent.
Variable Quote : string -> string.

(** [res.TxResult.GetEvents()] *)
Definition GetEvents (r : ExecTxResult) : list utils.AbciEvent :=
  map event_of (tr_Events r).

(** [NodeStartSession] and [SubscriptionStartSession] after the message
    is built: broadcast, wait for inclusion, read the session id. *)
Definition start_session (fuel : nat) (c : Client) (failed : string) (msgs : list Msg)
  : M (St W) (Z * option error) :=
  b <- BroadcastTxBlock env fuel c msgs ;;
  match snd b with
  | Some err => ret (0, Some (wrap failed err))
  | None =>
      match snd (fst b) with
      | None => panic nil_deref
      | Some res =>
          match utils.IDFromEvents Quote (GetEvents (rt_TxResult res))
                  (utils.RefProto EventCreateSession) with
          | Err e => ret (0, Some (wrap "failed to get id from events: " e))
          | Ok id => ret (id, None)
          end
      end
  end.

(** [Client.NodeStartSession] *)
Definition NodeStartSession (fuel : nat) (c : Client) (nodeAddr : bytes)
           (gigabytes hours : Z) (denom : string) : M (St W) (Z * option error) :=
  r <- MsgFromAddr env c ;;
  match snd r with
  | Some err => ret (0, Some (wrap "failed to get message from addr: " err))
  | None =>
      let msgs := [NewMsgStartSessionRequest_node (fst r) nodeAddr gigabytes hours denom] in
      start_session fuel c "node start session tx failed: " msgs
  end.

(** [Client.SubscriptionStartSession] *)
Definition SubscriptionStartSession (fuel : nat) (c : Client) (id : Z) (nodeAddr : bytes)
  : M (St W) (Z * option error) :=
  r <- MsgFromAddr env c ;;
  match snd r with
  | Some err => ret (0, Some (wrap "failed to get message from addr: " err))
  | None =>
      let msgs := [NewMsgStartSessionRequest_subscription (fst r) id nodeAddr] in
      start_session fuel c "subscription start session tx failed: " msgs
  end.

End Sessions.

(** ** The transaction section of the configuration ([config/tx.go]) *)

Module config.

Record TxConfig : Type := mkTxConfig {
  AuthzGranterAddr : string;
  BroadcastRetryAttempts : nat;
  BroadcastRetryDelay : string;
  FeeGranterAddr : string;
  FromName : string;
  GasAdjustment : float64.t;
  GasPrices : string;
  Gas : Z;
  QueryRetryAttempts : nat;
  QueryRetryDelay : string;
  SimulateAndExecute : bool
}.

Record QueryConfig : Type := mkQueryConfig {
  Prove : bool;
  RetryAttempts : nat;
  RetryDelay : string
}.

(** [RPCConfig] *)
Record RPCConfig : Type := mkRPCConfig {
  Addrs : list string;
  ChainID : string;
  Timeout : string
}.

Section Parsers.

(** [time.ParseDuration], [types.AccAddressFromBech32] and
    [types.ParseDecCoins]. *)
Variable ParseDuration : string -> result Z.
Variable AccAddressFromBech32 : string -> result AccAddress.
Variable ParseDecCoins : string -> result DecCoins.

Definition is_empty (s : string) : bool :=
  match s with EmptyString => true | String _ _ => false end.

(** [TxConfig.GetAuthzGranterAddr] *)
Definition GetAuthzGranterAddr (c : TxConfig) : outcome AccAddress :=
  if is_empty (AuthzGranterAddr c) then Ret nil_addr
  else match AccAddressFromBech32 (AuthzGranterAddr c) with
       | Err e => Panic e
       | Ok addr => Ret addr
       end.

(** [TxConfig.GetBroadcastRetryAttempts] *)
Definition GetBroadcastRetryAttempts (c : TxConfig) : nat := BroadcastRetryAttempts c.

(** [TxConfig.GetBroadcastRetryDelay] *)
Definition GetBroadcastRetryDelay (c : TxConfig) : outcome Z :=
  match ParseDuration (BroadcastRetryDelay c) with
  | Err e => Panic e
  | Ok v => Ret v
  end.

(** [TxConfig.GetFeeGranterAddr] *)
Definition GetFeeGranterAddr (c : TxConfig) : outcome AccAddress :=
  if is_empty (FeeGranterAddr c) then Ret nil_addr
  else match AccAddressFromBech32 (FeeGranterAddr c) with
       | Err e => Panic e
       | Ok addr => Ret addr
       end.

(** [TxConfig.GetGasPrices] *)
Definition GetGasPrices (c : TxConfig) : outcome DecCoins :=
  match ParseDecCoins (GasPrices c) with
  | Err e => Panic e
  | Ok coins => Ret coins
  end.

(** [TxConfig.GetQueryRetryAttempts] *)
Definition GetQueryRetryAttempts (c : TxConfig) : nat := QueryRetryAttempts c.

(** [TxConfig.GetQueryRetryDelay] *)
Definition GetQueryRetryDelay (c : TxConfig) : outcome Z :=
  match ParseDuration (QueryRetryDelay c) with
  | Err e => Panic e
  | Ok v => Ret v
  end.

(** [c.GasAdjustment < 0] *)
Definition negative (f : float64.t) : bool := SFltb f (S754_zero false).

(** [TxConfig.Validate] *)
Definition Validate (c : TxConfig) : option error :=
  match (if is_empty (AuthzGranterAddr c) then None
         else error_of (AccAddressFromBech32 (AuthzGranterAddr c))) with
  | Some err => Some (wrap "invalid authz_granter_addr: " err)
  | None =>
      if Nat.eqb (BroadcastRetryAttempts c) 0 then
        Some "broadcast_retry_attempts cannot be zero"
      else
        match (if is_empty (FeeGranterAddr c) then None
               else error_of (AccAddressFromBech32 (FeeGranterAddr c))) with
        | Some err => Some (wrap "invalid fee_granter_addr: " err)
        | None =>
            if is_empty (FromName c) then Some "from_name cannot be empty"
            else if negative (GasAdjustment c) then
              Some "gas_adjustment cannot be negative"
            else
              match (if is_empty (GasPrices c) then None
                     else error_of (ParseDecCoins (GasPrices c))) with
              | Some err => Some (wrap "invalid gas_prices: " err)
              | None =>
                  if Nat.eqb (QueryRetryAttempts c) 0 then
                    Some "query_retry_attempts cannot be zero"
                  else None
              end
        end
  end.

(** [QueryConfig.GetRetryDelay] *)
Definition Query_GetRetryDelay (c : QueryConfig) : outcome Z :=
  match ParseDuration (RetryDelay c) with
  | Err e => Panic e
  | Ok v => Ret v
  end.

(** [QueryConfig.Validate] *)
Definition Query_Validate (c : QueryConfig) : option error :=
  if Nat.eqb (RetryAttempts c) 0 then Some "retry_attempts cannot be zero"
  else match ParseDuration (RetryDelay c) with
       | Err err => Some (wrap "invalid retry_delay: " err)
       | Ok _ => None
       end.

(** [RPCConfig.GetTimeout] *)
Definition RPC_GetTimeout (c : RPCConfig) : outcome Z :=
  match ParseDuration (Timeout c) with
  | Err e => Panic e
  | Ok v => Ret v
  end.

(** [validateURL], which rests on [url.Parse]. *)
Variable validateURL : string -> option error.

(** The loop of [RPCConfig.Validate] over the addresses. *)
Fixpoint first_invalid (addrs : list string) : option error :=
  match addrs with
  | [] => None
  | addr :: rest =>
      match validateURL addr with
      | Some err => Some err
      | None => first_invalid rest
      end
  end.

(** [RPCConfig.Validate] *)
Definition RPC_Validate (c : RPCConfig) : option error :=
  match Addrs c with
  | [] => Some "addrs cannot be empty"
  | _ :: _ =>
      if is_empty (ChainID c) then Some "chain_id cannot be empty"
      else
        match first_invalid (Addrs c) with
        | Some err => Some (wrap "invalid addr: " err)
        | None =>
            match ParseDuration (Timeout c) with
            | Err err => Some (wrap "invalid timeout: " err)
            | Ok _ => None
            end
        end
  end.

(** [Config.Validate], given what the keyring and the log sections
    answer. *)
Variable Keyring_Validate : option error.
Variable Log_Validate : option error.

Definition Config_Validate (q : QueryConfig) (r : RPCConfig) (t : TxConfig)
  : option error :=
  match Keyring_Validate with
  | Some err => Some (wrap "invalid keyring: " err)
  | None =>
      match Log_Validate with
      | Some err => Some (wrap "invalid log: " err)
      | None =>
          match Query_Validate q with
          | Some err => Some (wrap "invalid query: " err)
          | None =>
              match RPC_Validate r with
              | Some err => Some (wrap "invalid rpc: " err)
              | None =>
                  match Validate t with
                  | Some err => Some (wrap "invalid tx: " err)
                  | None => None
                  end
              end
          end
      end
  end.

End Parsers.

(** [DefaultTxConfig] *)
Definition DefaultTxConfig : TxConfig := {|
  AuthzGranterAddr := "";
  BroadcastRetryAttempts := 1;
  BroadcastRetryDelay := "5s";
  FeeGranterAddr := "";
  FromName := "main";
  Gas := 200000;
  GasAdjustment := Scenario.default_adjustment;
  GasPrices := "0.1tics";
  QueryRetryAttempts := 30;
  QueryRetryDelay := "1s";
  SimulateAndExecute := true
|}.

(** [DefaultRPCConfig] *)
Definition DefaultRPCConfig : RPCConfig := {|
  Addrs := ["https://rpc.qubetics.co:443"];
  ChainID := "qubetics-2";
  Timeout := "5s"
|}.

(** [DefaultQueryConfig] *)
Definition DefaultQueryConfig : QueryConfig := {|
  Prove := false;
  RetryAttempts := 5;
  RetryDelay := "1s"
|}.

End config.

(** ** The shape of a trace *)

Definition is_key_lookup (ev : Event) : bool :=
  match ev with EvKeyringKey _ => true | _ => false end.

Definition is_sleep (ev : Event) : bool :=
  match ev with EvSleep _ => true | _ => false end.

Definition is_tx_query (ev : Event) : bool :=
  match ev with EvTx _ _ => true | _ => false end.

Definition is_broadcast (ev : Event) : bool :=
  match ev with EvBroadcast _ => true | _ => false end.

Definition count (p : Event -> bool) (evs : list Event) : nat :=
  List.length (filter p evs).

(** The calls of one broadcast attempt, in their order: the key lookup,
    the account lookup, the simulation when it is enabled, the signing,
    the broadcast.  An attempt that fails stops somewhere along it. *)
Definition after_signing (evs : list Event) : bool :=
  match evs with
  | [] => true
  | [EvBroadcast _] => true
  | _ => false
  end.

Definition after_simulation (evs : list Event) : bool :=
  match evs with
  | [] => true
  | EvKeyringSign _ _ :: rest => after_signing rest
  | _ => false
  end.

Definition after_account (simulate : bool) (evs : list Event) : bool :=
  if simulate then
    match evs with
    | [] => true
    | EvSimulate _ :: rest => after_simulation rest
    | _ => false
    end
  else after_simulation evs.

Definition attempt_shape (simulate : bool) (evs : list Event) : bool :=
  match evs with
  | [EvKeyringKey _] => true
  | EvKeyringKey _ :: EvAccount _ :: rest => after_account simulate rest
  | _ => false
  end.

(** The events a run has added to the trace it started from. *)
Definition added {W} (s s' : St W) (evs : list Event) : Prop :=
  trace s' = (trace s ++ evs)%list.

(** The entry the fee loop writes for one price, read through the
    [int64] conversion of the gas limit. *)
Definition fee_entry_int64 (gasLimit : Z) (price : DecCoin) : Coin :=
  fee_entry (int64_of_uint64 gasLimit) price.


(** The number a decimal numeral denotes, continuing from [acc]. *)
Fixpoint decimal_value (d : Decimal.uint) (acc : Z) : Z :=
  match d with
  | Decimal.Nil => acc
  | Decimal.D0 l => decimal_value l (10 * acc)
  | Decimal.D1 l => decimal_value l (10 * acc + 1)
  | Decimal.D2 l => decimal_value l (10 * acc + 2)
  | Decimal.D3 l => decimal_value l (10 * acc + 3)
  | Decimal.D4 l => decimal_value l (10 * acc + 4)
  | Decimal.D5 l => decimal_value l (10 * acc + 5)
  | Decimal.D6 l => decimal_value l (10 * acc + 6)
  | Decimal.D7 l => decimal_value l (10 * acc + 7)
  | Decimal.D8 l => decimal_value l (10 * acc + 8)
  | Decimal.D9 l => decimal_value l (10 * acc + 9)
  end.

(** A text in double quotes. *)
Definition quoted (s : string) : string :=
  String utils.quote_byte (s ++ String utils.quote_byte EmptyString).

(** No double quote among the bytes of [s]. *)
Definition unquoted (s : string) : bool :=
  sdk.all_chars (fun c => negb (Ascii.eqb c utils.quote_byte)) s.


(** The events of [n] failed queries, each followed by the delay. *)
Fixpoint polling (hash : bytes) (prove : bool) (d : Z) (n : nat) : list Event :=
  match n with
  | O => []
  | Datatypes.S k => EvTx hash prove :: EvSleep d :: polling hash prove d k
  end.

(** Whether a computation has panicked. *)
Definition panics {A} (o : outcome A) : bool :=
  match o with Panic _ => true | _ => false end.

(** Whether the model has run out of fuel. *)
Definition out_of_fuel {A} (o : outcome A) : bool :=
  match o with OutOfFuel => true | _ => false end.

(** ** A client from a configuration *)

Section FromConfig.

Variable ParseDuration : string -> result Z.
Variable AccAddressFromBech32 : string -> result AccAddress.
Variable ParseDecCoins : string -> result DecCoins.

(** What [SetupKeyring] answers for the keyring section. *)
Variable SetupKeyring : option error.

(** [c.RPC.GetAddrs()[0]] *)
Definition first_addr (addrs : list string) : outcome string :=
  match addrs with
  | [] => Panic "runtime error: index out of range [0] with length 0"
  | addr :: _ => Ret addr
  end.

(** [NewClientFromConfig], as far as the fields of [Client] above go:
    the getters are called in the order of the chain, and the first one
    that panics ends it. *)
Definition NewClientFromConfig (q : config.QueryConfig) (r : config.RPCConfig)
           (t : config.TxConfig) : outcome (result Client) :=
  _ <-! config.Query_GetRetryDelay ParseDuration q ;;
  addr <-! first_addr (config.Addrs r) ;;
  timeout <-! config.RPC_GetTimeout ParseDuration r ;;
  granter <-! config.GetAuthzGranterAddr AccAddressFromBech32 t ;;
  broadcastDelay <-! config.GetBroadcastRetryDelay ParseDuration t ;;
  feeGranter <-! config.GetFeeGranterAddr AccAddressFromBech32 t ;;
  prices <-! config.GetGasPrices ParseDecCoins t ;;
  queryDelay <-! config.GetQueryRetryDelay ParseDuration t ;;
  let v := {|
    queryProve := config.Prove q;
    rpcAddr := addr;
    rpcChainID := config.ChainID r;
    rpcTimeout := timeout;
    txAuthzGranterAddr := granter;
    txBroadcastRetryAttempts := config.GetBroadcastRetryAttempts t;
    txBroadcastRetryDelay := broadcastDelay;
    txFeeGranterAddr := feeGranter;
    txFees := [];
    txFromName := config.FromName t;
    txGasAdjustment := config.GasAdjustment t;
    txGasPrices := prices;
    txGas := config.Gas t;
    txMemo := "";
    txQueryRetryAttempts := config.GetQueryRetryAttempts t;
    txQueryRetryDelay := queryDelay;
    txSimulateAndExecute := config.SimulateAndExecute t;
    txTimeoutHeight := 0
  |} in
  match SetupKeyring with
  | Some err => Ret (Err (wrap "failed to setup keyring: " err))
  | None => Ret (Ok v)
  end.

End FromConfig.

(** ** Fixtures for concrete runs of the callers and the configuration *)

Module SessionScenario.

Import Scenario.

Definition EventCreateSession : string := "EventCreateSession".

(** The node reports one event per entry of the result; an entry is the
    id the event carries, which the node puts in double quotes. *)
Definition event_of (entry : string) : utils.AbciEvent :=
  utils.mkAbciEvent EventCreateSession
    [utils.mkAttribute "node" "node-1"; utils.mkAttribute "id" (quoted entry)].

Definition Quote (s : string) : string := quoted s.

Definition NewMsgStartSessionRequest_node
           (from : AccAddress) (nodeAddr : bytes) (gigabytes hours : Z) (denom : string)
  : Msg :=
  DomainMsg ("start-session from=" ++ from ++ " node=" ++ nodeAddr).

Definition NewMsgStartSessionRequest_subscription
           (from : AccAddress) (id : Z) (nodeAddr : bytes) : Msg :=
  DomainMsg ("start-session from=" ++ from ++ " subscription=" ++ string_of_Z id).

(** A transaction result that carries the session event with id 42. *)
Definition session_included : ResultTx :=
  mkResultTx "HASH" 10 (mkExecTxResult 0 "" "" ["42"]).

(** Events as a result lists them: a transfer, then two session events. *)
Definition transfer : utils.AbciEvent :=
  utils.mkAbciEvent "transfer" [utils.mkAttribute "amount" "5tics"].

Definition session_events : list utils.AbciEvent :=
  [transfer; event_of "42"; event_of "43"].

Definition session_without_id : utils.AbciEvent :=
  utils.mkAbciEvent EventCreateSession [utils.mkAttribute "node" "node-1"].

(** A keyring without the key, and a node that has nothing to answer. *)
Definition no_key : St World := mkSt (mkWorld [] [] 5 false) [].

(** An environment whose messages must not be the text "bad". *)
Definition strict_env : Env World := {|
  keyring_Key := keyring_Key env;
  keyring_Sign := keyring_Sign env;
  Record_GetPubKey := Record_GetPubKey env;
  PubKey_Address := PubKey_Address env;
  AccAddress_String := AccAddress_String env;
  Msg_ValidateBasic := fun m =>
    match m with
    | DomainMsg body => if String.eqb body "bad" then Some "empty node address" else None
    | MsgExec _ _ => None
    end;
  TxBuilder_SetMsgs := TxBuilder_SetMsgs env;
  TxBuilder_SetSignatures := TxBuilder_SetSignatures env;
  TxEncoder := TxEncoder env;
  GetSignBytes := GetSignBytes env;
  query_Account := query_Account env;
  query_Simulate := query_Simulate env;
  http_NewWithTimeout := http_NewWithTimeout env;
  rpc_BroadcastTxSync := rpc_BroadcastTxSync env;
  rpc_Tx := rpc_Tx env;
  float_to_uint64_oob := float_to_uint64_oob env
|}.

(** A client whose gas price has a denom the coin constructor refuses. *)
Definition bad_denom_client : Client :=
  WithTxGasPrices [mkDecCoin "x" (mkDec (10 ^ 17))] client.

End SessionScenario.

Module ConfigScenario.

(** Stand-ins for the parsers, enough for the default configuration. *)
Definition ParseDuration (s : string) : result Z :=
  if String.eqb s "5s" then Ok (5 * time_Second)
  else if String.eqb s "1s" then Ok time_Second
  else Err ("time: invalid duration " ++ quoted s).

Definition AccAddressFromBech32 (s : string) : result AccAddress :=
  if strings.HasPrefix s "qubetics1" then Ok s
  else Err "decoding bech32 failed".

Definition ParseDecCoins (s : string) : result DecCoins :=
  if String.eqb s "" then Ok []
  else if String.eqb s "0.1tics" then Ok [Scenario.tics (10 ^ 17)]
  else Err "invalid decimal coin expression".

Definition validateURL (s : string) : option error :=
  if strings.HasPrefix s "https://" then None
  else Some "url must have a valid scheme".

(** The default transaction section with a delay that is no duration. *)
Definition tx_bad_delay : config.TxConfig := {|
  config.AuthzGranterAddr := "";
  config.BroadcastRetryAttempts := 1;
  config.BroadcastRetryDelay := "soon";
  config.FeeGranterAddr := "";
  config.FromName := "main";
  config.Gas := 200000;
  config.GasAdjustment := Scenario.default_adjustment;
  config.GasPrices := "0.1tics";
  config.QueryRetryAttempts := 30;
  config.QueryRetryDelay := "1s";
  config.SimulateAndExecute := true
|}.

End ConfigScenario.

(** ** Symbolic execution of an attempt *)

(** Case analysis on every call and test of an unfolded computation. *)
Ltac run_cases H :=
  repeat first
    [ discriminate H
    | match type of H with
      | context [match ?x with _ => _ end] =>
          lazymatch x with
          | context [match _ with _ => _ end] => fail
          | _ => let E := fresh "E" in destruct x eqn:E
          end
      end ].

(** The events appended to [base] in the trace [T]. *)
Ltac events_of T base :=
  lazymatch T with
  | base => constr:(@nil Event)
  | (?T' ++ [?e])%list =>
      let r := events_of T' base in constr:((r ++ [e])%list)
  end.

Ltac give_events :=
  lazymatch goal with
  | |- exists evs, added ?s ?s' evs /\ _ =>
      let T := eval cbn [trace] in (trace s') in
      let evs := events_of T (trace s) in
      let evs' := eval cbn [app] in evs in
      exists evs'; split;
      [ unfold added; cbn [trace]; rewrite <- ?app_assoc; cbn [app];
        try rewrite app_nil_r; reflexivity | ]
  end.

Ltac unfold_attempt H :=
  unfold broadcastTxSync, broadcast_as, submit, signTx, Sign, prepareTx,
    prepareTx_simulate, gasSimulateTx, Simulate, Key, HTTP, wrap_authz,
    bind, call, ret, panic, lift_outcome in H;
  cbv beta in H.

Ltac unfold_pipeline H :=
  unfold broadcastTxSync, broadcast_as, submit, signTx, Sign, prepareTx,
    prepareTx_simulate, gasSimulateTx, Simulate, Key, HTTP,
    bind, call, ret, panic, lift_outcome in H;
  cbv beta in H.

(** * Properties *)

Unset Implicit Arguments.

(** ** Fees *)

Section FeeFacts.

Lemma BitLen_le (x n : Z) : 0 <= n -> 0 <= x < 2 ^ n -> BitLen x <= n.
Proof.
  intros Hn [Hx0 Hx]. unfold BitLen.
  destruct (Z.eqb_spec x 0) as [->|Hne]; [lia|].
  rewrite Z.abs_eq by lia.
  assert (Z.log2 x < n) by (apply Z.log2_lt_pow2; lia).
  lia.
Qed.

Lemma precisionReuse_pos : 0 < precisionReuse.
Proof. reflexivity. Qed.

Lemma ceil_div_nonneg (a : Z) :
  0 <= a ->
  ceil_div a precisionReuse =
    if a mod precisionReuse =? 0 then a / precisionReuse else a / precisionReuse + 1.
Proof.
  intros Ha. unfold ceil_div.
  pose proof precisionReuse_pos as HP.
  pose proof (Z.div_mod a precisionReuse ltac:(lia)) as Hdm.
  pose proof (Z.mod_pos_bound a precisionReuse HP) as Hm.
  destruct (Z.eqb_spec (a mod precisionReuse) 0) as [E|E].
  - assert (- a = precisionReuse * (- (a / precisionReuse))) as -> by lia.
    rewrite Z.mul_comm, Z.div_mul by lia. lia.
  - assert (- a / precisionReuse = - (a / precisionReuse + 1)) as ->; [|lia].
    symmetry.
    apply Z.div_unique with (r := precisionReuse - a mod precisionReuse); lia.
Qed.

(** Rounding the ceiling of a non-negative decimal gives [ceil]. *)
Lemma round_ceil_nonneg (i : Z) :
  0 <= i ->
  chopPrecisionAndRound (dec_i (Ceil (mkDec i))) = ceil_div i precisionReuse.
Proof.
  intros Hi. pose proof precisionReuse_pos as HP.
  rewrite ceil_div_nonneg by assumption.
  unfold Ceil; cbn [dec_i].
  rewrite Z.quot_div_nonneg, Z.rem_mod_nonneg by lia.
  pose proof (Z.mod_pos_bound i precisionReuse HP) as Hm.
  pose proof (Z.div_pos i precisionReuse Hi HP) as Hq.
  assert (Hchop : forall k, 0 <= k -> chopPrecisionAndRound (k * precisionReuse) = k).
  { intros k Hk. unfold chopPrecisionAndRound.
    assert (0 <= k * precisionReuse) by lia.
    destruct (Z.ltb_spec (k * precisionReuse) 0); [lia|].
    unfold chopPrecisionAndRound_pos.
    rewrite Z.rem_mod_nonneg, Z.quot_div_nonneg by lia.
    rewrite Z.mod_mul, Z.div_mul by lia. reflexivity. }
  destruct (Z.eqb_spec (i mod precisionReuse) 0) as [E|E]; cbn [dec_i].
  - apply Hchop; lia.
  - destruct (Z.ltb_spec (i mod precisionReuse) 0); [lia|]. cbn [dec_i].
    apply Hchop; lia.
Qed.

Lemma ceil_div_bounds (a : Z) :
  0 <= a -> 0 <= ceil_div a precisionReuse <= a.
Proof.
  intros Ha. rewrite ceil_div_nonneg by assumption.
  pose proof precisionReuse_pos as HP.
  pose proof (Z.div_mod a precisionReuse ltac:(lia)) as Hdm.
  pose proof (Z.mod_pos_bound a precisionReuse HP) as Hm.
  pose proof (Z.div_pos a precisionReuse Ha HP) as Hq.
  assert (1 <= precisionReuse) by lia.
  destruct (Z.eqb_spec (a mod precisionReuse) 0); nia.
Qed.

Lemma ceil_div_mono (a b : Z) :
  a <= b -> ceil_div a precisionReuse <= ceil_div b precisionReuse.
Proof.
  intros Hab. unfold ceil_div.
  pose proof precisionReuse_pos.
  assert (- b / precisionReuse <= - a / precisionReuse)
    by (apply Z.div_le_mono; lia).
  lia.
Qed.

(** One round of the fee loop, below the wrap of [int64] and away from
    the overflow guards. *)
Lemma fee_entry_computed (price : DecCoin) (gasLimit : Z) :
  price_ok price -> 0 <= gasLimit < 2 ^ 63 ->
  (fee <-! MulInt64 (dc_Amount price) (int64_of_uint64 gasLimit) ;;
   amt <-! RoundInt (Ceil fee) ;;
   NewCoin (dc_Denom price) amt) = Ret (fee_entry gasLimit price).
Proof.
  intros [Hd [Hp0 Hp]] [Hg0 Hg].
  unfold int64_of_uint64.
  destruct (Z.ltb_spec gasLimit (2 ^ 63)); [|lia].
  set (i := dec_i (dc_Amount price)) in *.
  assert (Hmul : 0 <= i * gasLimit < 2 ^ 313).
  { split; [nia|].
    change (2 ^ 313) with (2 ^ 250 * 2 ^ 63).
    assert (i * gasLimit <= (2 ^ 250 - 1) * (2 ^ 63 - 1)); [|lia].
    apply Z.mul_le_mono_nonneg; lia. }
  unfold MulInt64. fold i.
  assert (BitLen (i * gasLimit) <= 313) by (apply BitLen_le; lia).
  destruct (Z.ltb_spec maxDecBitLen (BitLen (i * gasLimit))) as [Hb|Hb];
    [change maxDecBitLen with 315 in Hb; lia|].
  cbn [obind]. unfold RoundInt.
  rewrite round_ceil_nonneg by lia.
  pose proof (ceil_div_bounds (i * gasLimit) ltac:(lia)) as Hc.
  assert (BitLen (ceil_div (i * gasLimit) precisionReuse) <= 313)
    by (apply BitLen_le; lia).
  destruct (Z.ltb_spec MaxBitLen (BitLen (ceil_div (i * gasLimit) precisionReuse)))
    as [Hb'|Hb'].
  2:{ cbn [obind]. unfold NewCoin. rewrite Hd. cbn [negb].
      destruct (Z.ltb_spec (ceil_div (i * gasLimit) precisionReuse) 0); [lia|].
      reflexivity. }
  exfalso. change MaxBitLen with 256 in Hb'.
  assert (Hlt : ceil_div (i * gasLimit) precisionReuse < 2 ^ 256).
  { rewrite ceil_div_nonneg by lia.
    assert (i * gasLimit / precisionReuse < 2 ^ 255).
    { apply Z.div_lt_upper_bound; [reflexivity|].
      assert (2 ^ 313 <= precisionReuse * 2 ^ 255) by (vm_compute; discriminate).
      lia. }
    destruct (_ =? 0); lia. }
  assert (BitLen (ceil_div (i * gasLimit) precisionReuse) <= 256)
    by (apply BitLen_le; lia).
  lia.
Qed.

Lemma calculateFees_computed (gasPrices : DecCoins) (gasLimit : Z) :
  Forall price_ok gasPrices -> 0 <= gasLimit < 2 ^ 63 ->
  calculateFees gasPrices gasLimit = Ret (map (fee_entry gasLimit) gasPrices).
Proof.
  intros Hall Hg. induction Hall as [|price rest Hp _ IH]; [reflexivity|].
  cbn [calculateFees map].
  pose proof (fee_entry_computed price gasLimit Hp Hg) as Hstep.
  destruct (MulInt64 (dc_Amount price) (int64_of_uint64 gasLimit)) as [fee| |];
    cbn [obind] in *; try discriminate.
  destruct (RoundInt (Ceil fee)) as [amt| |]; cbn [obind] in *; try discriminate.
  rewrite Hstep. cbn [obind]. rewrite IH. reflexivity.
Qed.

End FeeFacts.

(** ** The retry library *)

Section RetryFacts.

Variable S : Type.
Variable cfg : retry.Config S.
Variable f : M S (option error).

Lemma loop_nil (r : nat) (s s1 : S) :
  f s = Ret (None, s1) -> retry.loop cfg f (Datatypes.S r) s = Ret (None, s1).
Proof. intros Hf. cbn [retry.loop]. unfold bind. rewrite Hf. reflexivity. Qed.

Lemma loop_rejected (r : nat) (s s1 : S) (e : error) :
  f s = Ret (Some e, s1) -> retry.retryIf cfg e = false ->
  retry.loop cfg f (Datatypes.S r) s = Ret (Some e, s1).
Proof.
  intros Hf Hr. cbn [retry.loop]. unfold bind. rewrite Hf, Hr. reflexivity.
Qed.

Lemma loop_last (s s1 : S) (e : error) :
  f s = Ret (Some e, s1) -> retry.loop cfg f 1 s = Ret (Some e, s1).
Proof.
  intros Hf. cbn [retry.loop]. unfold bind. rewrite Hf.
  destruct (retry.retryIf cfg e); reflexivity.
Qed.

Lemma loop_retried (r : nat) (s s1 s2 : S) (e : error) (u : unit) :
  f s = Ret (Some e, s1) -> retry.retryIf cfg e = true ->
  retry.timer cfg (retry.delay cfg) s1 = Ret (u, s2) ->
  retry.loop cfg f (Datatypes.S (Datatypes.S r)) s
  = retry.loop cfg f (Datatypes.S r) s2.
Proof.
  intros Hf Hr Ht.
  change (retry.loop cfg f (Datatypes.S (Datatypes.S r)) s)
    with (bind f (fun e0 =>
            match e0 with
            | None => ret None
            | Some err =>
                if negb (retry.retryIf cfg err) then ret (Some err)
                else bind (retry.timer cfg (retry.delay cfg))
                       (fun _ => retry.loop cfg f (Datatypes.S r))
            end) s).
  unfold bind at 1. rewrite Hf, Hr. cbn [negb].
  unfold bind at 1. rewrite Ht. reflexivity.
Qed.

(** Retried attempts consume the budget one by one. *)
Lemma loop_after_retries (n r : nat) (s s' : S) :
  retry_runs.after_retries cfg f n s = Some s' ->
  retry.loop cfg f (n + Datatypes.S r) s = retry.loop cfg f (Datatypes.S r) s'.
Proof.
  revert s. induction n as [|n IH]; intros s Hrun.
  - cbn in Hrun. injection Hrun as ->. reflexivity.
  - cbn [retry_runs.after_retries] in Hrun.
    destruct (f s) as [[[err|] s1]| |] eqn:Hf; try discriminate.
    destruct (retry.retryIf cfg err) eqn:Hr; try discriminate.
    destruct (retry.timer cfg (retry.delay cfg) s1) as [[u s2]| |] eqn:Ht;
      try discriminate.
    rewrite Nat.add_succ_l, Nat.add_succ_r.
    rewrite (loop_retried (n + r) s s1 s2 err u Hf Hr Ht).
    rewrite <- Nat.add_succ_r. apply IH, Hrun.
Qed.

Lemma forever_nil (k : nat) (s s1 : S) :
  f s = Ret (None, s1) -> retry.forever cfg f (Datatypes.S k) s = Ret (None, s1).
Proof. intros Hf. cbn [retry.forever]. unfold bind. rewrite Hf. reflexivity. Qed.

Lemma forever_rejected (k : nat) (s s1 : S) (e : error) :
  f s = Ret (Some e, s1) -> retry.retryIf cfg e = false ->
  retry.forever cfg f (Datatypes.S k) s = Ret (Some e, s1).
Proof.
  intros Hf Hr. cbn [retry.forever]. unfold bind. rewrite Hf, Hr. reflexivity.
Qed.

Lemma forever_after_retries (n k : nat) (s s' : S) :
  retry_runs.after_retries cfg f n s = Some s' ->
  retry.forever cfg f (n + k) s = retry.forever cfg f k s'.
Proof.
  revert s. induction n as [|n IH]; intros s Hrun.
  - cbn in Hrun. injection Hrun as ->. reflexivity.
  - cbn [retry_runs.after_retries] in Hrun.
    destruct (f s) as [[[err|] s1]| |] eqn:Hf; try discriminate.
    destruct (retry.retryIf cfg err) eqn:Hr; try discriminate.
    destruct (retry.timer cfg (retry.delay cfg) s1) as [[u s2]| |] eqn:Ht;
      try discriminate.
    rewrite Nat.add_succ_l. cbn [retry.forever].
    unfold bind at 1. rewrite Hf, Hr. cbn [negb].
    unfold bind at 1. rewrite Ht. apply IH, Hrun.
Qed.

Lemma Do_reaches (fuel n : nat) (s s' : S) :
  retry_runs.within_budget cfg fuel n ->
  retry_runs.after_retries cfg f n s = Some s' ->
  exists r, retry.Do cfg f fuel s =
              match retry.attempts cfg with
              | O => retry.forever cfg f (Datatypes.S r) s'
              | Datatypes.S _ => retry.loop cfg f (Datatypes.S r) s'
              end
            /\ (retry.attempts cfg <> O -> (n + Datatypes.S r = retry.attempts cfg)%nat).
Proof.
  intros Hb Hrun. unfold retry.Do.
  destruct Hb as [Hlt|[Hz Hlt]].
  - destruct (retry.attempts cfg) as [|a] eqn:Ha; [lia|].
    exists (a - n)%nat. split; [|intros _; lia].
    replace (Datatypes.S a) with (n + Datatypes.S (a - n))%nat by lia.
    apply loop_after_retries, Hrun.
  - rewrite Hz. exists (fuel - n - 1)%nat. split; [|congruence].
    replace fuel with (n + Datatypes.S (fuel - n - 1))%nat at 1 by lia.
    apply forever_after_retries, Hrun.
Qed.

Lemma Do_stops_nil (fuel n : nat) (s s' s1 : S) :
  retry_runs.within_budget cfg fuel n ->
  retry_runs.after_retries cfg f n s = Some s' ->
  f s' = Ret (None, s1) ->
  retry.Do cfg f fuel s = Ret (None, s1).
Proof.
  intros Hb Hrun Hf.
  destruct (Do_reaches fuel n s s' Hb Hrun) as [r [-> _]].
  destruct (retry.attempts cfg); [apply forever_nil|apply loop_nil]; exact Hf.
Qed.

Lemma Do_stops_rejected (fuel n : nat) (s s' s1 : S) (e : error) :
  retry_runs.within_budget cfg fuel n ->
  retry_runs.after_retries cfg f n s = Some s' ->
  f s' = Ret (Some e, s1) -> retry.retryIf cfg e = false ->
  retry.Do cfg f fuel s = Ret (Some e, s1).
Proof.
  intros Hb Hrun Hf Hr.
  destruct (Do_reaches fuel n s s' Hb Hrun) as [r [-> _]].
  destruct (retry.attempts cfg);
    [apply forever_rejected|apply loop_rejected]; assumption.
Qed.

Lemma Do_exhausted (fuel n : nat) (s s' s1 : S) (e : error) :
  retry.attempts cfg = Datatypes.S n ->
  retry_runs.after_retries cfg f n s = Some s' ->
  f s' = Ret (Some e, s1) ->
  retry.Do cfg f fuel s = Ret (Some e, s1).
Proof.
  intros Ha Hrun Hf. unfold retry.Do. rewrite Ha.
  replace (Datatypes.S n) with (n + 1)%nat by lia.
  rewrite (loop_after_retries n 0 s s' Hrun). apply loop_last, Hf.
Qed.

(** The first attempt decides how a run begins. *)
Lemma loop_first (r : nat) (s s' : S) :
  f s = f s' ->
  retry.loop cfg f (Datatypes.S r) s = retry.loop cfg f (Datatypes.S r) s'.
Proof. intros Hf. cbn [retry.loop]. unfold bind. rewrite Hf. reflexivity. Qed.

(** The bounded loop reads the delay, the predicate and the timer of its
    configuration, not the attempt count. *)
Lemma loop_config (cfg' : retry.Config S) :
  retry.delay cfg' = retry.delay cfg ->
  retry.retryIf cfg' = retry.retryIf cfg ->
  retry.timer cfg' = retry.timer cfg ->
  forall (r : nat) (s : S), retry.loop cfg' f r s = retry.loop cfg f r s.
Proof.
  intros Hd Hr Ht. induction r as [|r IH]; intros s; [reflexivity|].
  cbn [retry.loop]. unfold bind. rewrite Hd, Hr, Ht.
  destruct (f s) as [[[err|] s1]| |]; try reflexivity.
  destruct (retry.retryIf cfg err); cbn [negb]; try reflexivity.
  destruct r as [|r]; try reflexivity.
  destruct (retry.timer cfg (retry.delay cfg) s1) as [[u s2]| |]; try reflexivity.
  apply IH.
Qed.

End RetryFacts.

(** ** Synchronous broadcast with retry *)

Section BroadcastFacts.

Variable W : Type.
Variable env : Env W.

Lemma sleep_state (d : Z) (s : St W) : sleep d s = Ret (tt, state_after_sleep d s).
Proof. reflexivity. Qed.

Lemma lift_sleep_state (L : Type) (d : Z) (s : St W) (l : L) :
  lift (sleep d) (s, l) = Ret (tt, (state_after_sleep d s, l)).
Proof. reflexivity. Qed.

(** One call of the retried closure, whatever the captured variables held. *)
Lemma BroadcastTxSync_retryFunc_run (c : Client) (msgs : list Msg)
      (s : St W) (l : Locals ResultBroadcastTx) :
  BroadcastTxSync_retryFunc env c msgs (s, l) =
    match broadcastTxSync env c msgs s with
    | Ret (Ok res, s1) => Ret (None, (s1, mkLocals (Some res) None))
    | Ret (Err e, s1) =>
        Ret (if IsTxInMempoolCacheError e then None else Some e,
             (s1, mkLocals None (Some e)))
    | Panic msg => Panic msg
    | OutOfFuel => OutOfFuel
    end.
Proof.
  unfold BroadcastTxSync_retryFunc, bind, lift, assign. cbn [fst snd].
  destruct (broadcastTxSync env c msgs s) as [[[res|e] s1]| |]; cbn; try reflexivity.
  destruct (IsTxInMempoolCacheError e); reflexivity.
Qed.

Lemma after_sequence_retries_run (c : Client) (msgs : list Msg) (n : nat) :
  forall (s s' : St W) (l : Locals ResultBroadcastTx),
    after_sequence_retries env c msgs n s = Some s' ->
    exists l',
      retry_runs.after_retries (broadcast_retry_config W c)
        (BroadcastTxSync_retryFunc env c msgs) n (s, l) = Some (s', l').
Proof.
  induction n as [|n IH]; intros s s' l Hrun.
  - cbn in Hrun. injection Hrun as ->. exists l. reflexivity.
  - cbn [after_sequence_retries] in Hrun.
    cbn [retry_runs.after_retries].
    rewrite BroadcastTxSync_retryFunc_run.
    destruct (broadcastTxSync env c msgs s) as [[[res|e] s1]| |];
      try discriminate.
    destruct (IsTxInMempoolCacheError e); cbn [negb andb] in Hrun;
      try discriminate.
    cbn [broadcast_retry_config retry.retryIf retry.timer retry.delay].
    unfold BroadcastTxSync_retryIfFunc.
    destruct (IsWrongSequenceError e); try discriminate.
    rewrite lift_sleep_state. apply IH, Hrun.
Qed.

Lemma BroadcastTxSync_unfold (fuel : nat) (c : Client) (msgs : list Msg) (s : St W) :
  BroadcastTxSync env fuel c msgs s =
    match retry.Do (broadcast_retry_config W c)
            (BroadcastTxSync_retryFunc env c msgs) fuel (s, mkLocals None None) with
    | Ret (Some err, (s', _)) =>
        Ret ((None, Some (wrap "tx sync broadcast failed after retries: " err)), s')
    | Ret (None, (s', l)) => Ret ((l_result l, None), s')
    | Panic msg => Panic msg
    | OutOfFuel => OutOfFuel
    end.
Proof.
  unfold BroadcastTxSync, bind, with_locals.
  destruct (retry.Do _ _ _ _) as [[[err|] [s' l]]| |]; reflexivity.
Qed.

(** A mempool-cache error ends the loop with neither response nor error. *)
Lemma BroadcastTxSync_mempool_cache (fuel : nat) (c : Client) (msgs : list Msg)
      (n : nat) (s s_n s' : St W) (e : error) :
  retry_runs.within_budget (broadcast_retry_config W c) fuel n ->
  after_sequence_retries env c msgs n s = Some s_n ->
  broadcastTxSync env c msgs s_n = Ret (Err e, s') ->
  IsTxInMempoolCacheError e = true ->
  BroadcastTxSync env fuel c msgs s = Ret ((None, None), s').
Proof.
  intros Hb Hrun Hatt Hm.
  destruct (after_sequence_retries_run c msgs n s s_n (mkLocals None None) Hrun)
    as [l' Hgen].
  rewrite BroadcastTxSync_unfold.
  rewrite (Do_stops_nil _ (broadcast_retry_config W c) _ fuel n _ _ (s', mkLocals None (Some e)) Hb Hgen).
  - reflexivity.
  - rewrite BroadcastTxSync_retryFunc_run, Hatt, Hm. reflexivity.
Qed.

(** An accepted submission ends the loop with the node's response. *)
Lemma BroadcastTxSync_accepted (fuel : nat) (c : Client) (msgs : list Msg)
      (n : nat) (s s_n s' : St W) (res : ResultBroadcastTx) :
  retry_runs.within_budget (broadcast_retry_config W c) fuel n ->
  after_sequence_retries env c msgs n s = Some s_n ->
  broadcastTxSync env c msgs s_n = Ret (Ok res, s') ->
  BroadcastTxSync env fuel c msgs s = Ret ((Some res, None), s').
Proof.
  intros Hb Hrun Hatt.
  destruct (after_sequence_retries_run c msgs n s s_n (mkLocals None None) Hrun)
    as [l' Hgen].
  rewrite BroadcastTxSync_unfold.
  rewrite (Do_stops_nil _ (broadcast_retry_config W c) _ fuel n _ _ (s', mkLocals (Some res) None) Hb Hgen).
  - reflexivity.
  - rewrite BroadcastTxSync_retryFunc_run, Hatt. reflexivity.
Qed.

(** An error that is neither kind ends the loop and is returned. *)
Lemma BroadcastTxSync_fatal (fuel : nat) (c : Client) (msgs : list Msg)
      (n : nat) (s s_n s' : St W) (e : error) :
  retry_runs.within_budget (broadcast_retry_config W c) fuel n ->
  after_sequence_retries env c msgs n s = Some s_n ->
  broadcastTxSync env c msgs s_n = Ret (Err e, s') ->
  IsTxInMempoolCacheError e = false ->
  IsWrongSequenceError e = false ->
  BroadcastTxSync env fuel c msgs s
  = Ret ((None, Some (wrap "tx sync broadcast failed after retries: " e)), s').
Proof.
  intros Hb Hrun Hatt Hm Hq.
  destruct (after_sequence_retries_run c msgs n s s_n (mkLocals None None) Hrun)
    as [l' Hgen].
  rewrite BroadcastTxSync_unfold.
  rewrite (Do_stops_rejected _ (broadcast_retry_config W c) _ fuel n _ _ (s', mkLocals None (Some e)) e Hb Hgen).
  - reflexivity.
  - rewrite BroadcastTxSync_retryFunc_run, Hatt, Hm. reflexivity.
  - cbn. unfold BroadcastTxSync_retryIfFunc. rewrite Hq. reflexivity.
Qed.

(** A sequence error on the last attempt of the budget is returned. *)
Lemma BroadcastTxSync_exhausted (fuel : nat) (c : Client) (msgs : list Msg)
      (n : nat) (s s_n s' : St W) (e : error) :
  txBroadcastRetryAttempts c = Datatypes.S n ->
  after_sequence_retries env c msgs n s = Some s_n ->
  broadcastTxSync env c msgs s_n = Ret (Err e, s') ->
  IsTxInMempoolCacheError e = false ->
  BroadcastTxSync env fuel c msgs s
  = Ret ((None, Some (wrap "tx sync broadcast failed after retries: " e)), s').
Proof.
  intros Ha Hrun Hatt Hm.
  destruct (after_sequence_retries_run c msgs n s s_n (mkLocals None None) Hrun)
    as [l' Hgen].
  rewrite BroadcastTxSync_unfold.
  rewrite (Do_exhausted _ (broadcast_retry_config W c) _ fuel n _ _ (s', mkLocals None (Some e)) e Ha Hgen).
  - reflexivity.
  - rewrite BroadcastTxSync_retryFunc_run, Hatt, Hm. reflexivity.
Qed.

(** The attempt itself does not read the attempt count. *)
Lemma broadcastTxSync_attempts (k : nat) (c : Client) (msgs : list Msg) :
  broadcastTxSync env (WithTxBroadcastRetryAttempts k c) msgs
  = broadcastTxSync env c msgs.
Proof. reflexivity. Qed.

(** After [n] retried attempts the run goes on as a fresh run with the
    attempts that remain. *)
Lemma BroadcastTxSync_retried (fuel : nat) (c : Client) (msgs : list Msg)
      (n : nat) (s s_n : St W) :
  (n < txBroadcastRetryAttempts c)%nat ->
  after_sequence_retries env c msgs n s = Some s_n ->
  BroadcastTxSync env fuel c msgs s
  = BroadcastTxSync env fuel
      (WithTxBroadcastRetryAttempts (txBroadcastRetryAttempts c - n) c) msgs s_n.
Proof.
  intros Hlt Hrun.
  destruct (after_sequence_retries_run c msgs n s s_n (mkLocals None None) Hrun)
    as [l' Hgen].
  rewrite !BroadcastTxSync_unfold. unfold retry.Do.
  cbn [broadcast_retry_config retry.attempts WithTxBroadcastRetryAttempts
         txBroadcastRetryAttempts].
  destruct (txBroadcastRetryAttempts c) as [|a] eqn:Ha; [lia|].
  replace (Datatypes.S a - n)%nat with (Datatypes.S (a - n)) by lia.
  replace (Datatypes.S a) with (n + Datatypes.S (a - n))%nat at 1 by lia.
  rewrite (loop_after_retries _ _ _ n (a - n) _ _ Hgen).
  rewrite (loop_first _ _ _ (a - n) (s_n, l') (s_n, mkLocals None None))
    by (rewrite !BroadcastTxSync_retryFunc_run; reflexivity).
  rewrite <- (loop_config _ (broadcast_retry_config W c) _
                (broadcast_retry_config W
                   (WithTxBroadcastRetryAttempts (Datatypes.S (a - n)) c)))
    by reflexivity.
  reflexivity.
Qed.

Lemma after_sequence_retries_next (c : Client) (msgs : list Msg) (n : nat) :
  forall (s s_n s' : St W) (e : error),
    after_sequence_retries env c msgs n s = Some s_n ->
    broadcastTxSync env c msgs s_n = Ret (Err e, s') ->
    IsTxInMempoolCacheError e = false ->
    IsWrongSequenceError e = true ->
    after_sequence_retries env c msgs (Datatypes.S n) s
    = Some (state_after_sleep (txBroadcastRetryDelay c) s').
Proof.
  induction n as [|n IH]; intros s s_n s' e Hrun Hatt Hm Hq.
  - cbn in Hrun. injection Hrun as ->.
    cbn [after_sequence_retries]. rewrite Hatt, Hm, Hq. reflexivity.
  - change (after_sequence_retries env c msgs (Datatypes.S n) s)
      with (match broadcastTxSync env c msgs s with
            | Ret (Err e0, s1) =>
                if negb (IsTxInMempoolCacheError e0) && IsWrongSequenceError e0
                then after_sequence_retries env c msgs n
                       (state_after_sleep (txBroadcastRetryDelay c) s1)
                else None
            | _ => None
            end) in Hrun.
    change (after_sequence_retries env c msgs (Datatypes.S (Datatypes.S n)) s)
      with (match broadcastTxSync env c msgs s with
            | Ret (Err e0, s1) =>
                if negb (IsTxInMempoolCacheError e0) && IsWrongSequenceError e0
                then after_sequence_retries env c msgs (Datatypes.S n)
                       (state_after_sleep (txBroadcastRetryDelay c) s1)
                else None
            | _ => None
            end).
    destruct (broadcastTxSync env c msgs s) as [[[res|e0] s1]| |];
      try discriminate.
    destruct (negb (IsTxInMempoolCacheError e0) && IsWrongSequenceError e0);
      try discriminate.
    eapply IH; eassumption.
Qed.

(** C1. When a synchronous broadcast attempt fails with an error whose
    text says the transaction is already in the mempool cache,
    [BroadcastTxSync] returns with no error (and no response), in the
    very state that attempt left: no delay and no further attempt
    follow it.  The matching attempt may be the first one or come after
    [n] retried ones. *)
Theorem BroadcastTxSync_mempool_cache_stops
        (fuel : nat) (c : Client) (msgs : list Msg)
        (n : nat) (s s_n s' : St W) (e : error) :
  ((n < txBroadcastRetryAttempts c)%nat \/
   (txBroadcastRetryAttempts c = O /\ (n < fuel)%nat)) ->
  after_sequence_retries env c msgs n s = Some s_n ->
  broadcastTxSync env c msgs s_n = Ret (Err e, s') ->
  IsTxInMempoolCacheError e = true ->
  BroadcastTxSync env fuel c msgs s = Ret ((None, None), s').
Proof.
  intros Hb Hrun Hatt Hm.
  exact (BroadcastTxSync_mempool_cache fuel c msgs n s s_n s' e Hb Hrun Hatt Hm).
Qed.

(** C2. On the mempool-cache path [BroadcastTxSync] returns a nil
    response together with a nil error, and [BroadcastTxBlock], seeing
    no error, reads [resp.Code] through the nil pointer and panics. *)
Theorem BroadcastTxBlock_mempool_cache_nil_deref
        (fuel : nat) (c : Client) (msgs : list Msg)
        (n : nat) (s s_n s' : St W) (e : error) :
  ((n < txBroadcastRetryAttempts c)%nat \/
   (txBroadcastRetryAttempts c = O /\ (n < fuel)%nat)) ->
  after_sequence_retries env c msgs n s = Some s_n ->
  broadcastTxSync env c msgs s_n = Ret (Err e, s') ->
  IsTxInMempoolCacheError e = true ->
  BroadcastTxSync env fuel c msgs s = Ret ((None, None), s') /\
  BroadcastTxBlock env fuel c msgs s = Panic nil_deref.
Proof.
  intros Hb Hrun Hatt Hm.
  pose proof (BroadcastTxSync_mempool_cache fuel c msgs n s s_n s' e Hb Hrun Hatt Hm)
    as Hsync.
  split; [exact Hsync|].
  unfold BroadcastTxBlock, bind. rewrite Hsync. reflexivity.
Qed.

(** C3, in the form that holds of the code.  When a broadcast attempt within the attempt count fails
    with an error that is not a mempool-cache error, then: if its text
    says the account sequence is incorrect and attempts remain, the
    client waits the fixed broadcast delay and runs the whole
    [broadcastTxSync] pipeline again with the attempts that remain; if it
    was the last attempt, the error is returned; and if the error is of
    any other kind, the loop stops at once and the error is returned,
    in the state that attempt left. *)
Theorem BroadcastTxSync_sequence_retry_policy
        (fuel : nat) (c : Client) (msgs : list Msg)
        (n : nat) (s s_n s' : St W) (e : error) :
  (n < txBroadcastRetryAttempts c)%nat ->
  after_sequence_retries env c msgs n s = Some s_n ->
  broadcastTxSync env c msgs s_n = Ret (Err e, s') ->
  IsTxInMempoolCacheError e = false ->
  if IsWrongSequenceError e then
    if (Datatypes.S n <? txBroadcastRetryAttempts c)%nat then
      after_sequence_retries env c msgs (Datatypes.S n) s
      = Some (state_after_sleep (txBroadcastRetryDelay c) s') /\
      BroadcastTxSync env fuel c msgs s
      = BroadcastTxSync env fuel
          (WithTxBroadcastRetryAttempts
             (txBroadcastRetryAttempts c - Datatypes.S n) c)
          msgs (state_after_sleep (txBroadcastRetryDelay c) s')
    else
      BroadcastTxSync env fuel c msgs s
      = Ret ((None, Some (wrap "tx sync broadcast failed after retries: " e)), s')
  else
    BroadcastTxSync env fuel c msgs s
    = Ret ((None, Some (wrap "tx sync broadcast failed after retries: " e)), s').
Proof.
  intros Hlt Hrun Hatt Hm.
  destruct (IsWrongSequenceError e) eqn:Hq.
  - destruct (Nat.ltb_spec (Datatypes.S n) (txBroadcastRetryAttempts c)) as [Hmore|Hlast].
    + pose proof (after_sequence_retries_next c msgs n s s_n s' e Hrun Hatt Hm Hq)
        as Hnext.
      split; [exact Hnext|].
      apply BroadcastTxSync_retried; assumption.
    + apply (BroadcastTxSync_exhausted fuel c msgs n s s_n s' e); try assumption.
      lia.
  - apply (BroadcastTxSync_fatal fuel c msgs n s s_n s' e); try assumption.
    left. exact Hlt.
Qed.

End BroadcastFacts.

(** ** Inclusion polling with retry *)

Section QueryFacts.

Variable W : Type.
Variable env : Env W.

(** One call of the retried closure of [Tx]. *)
Lemma Tx_retryFunc_run (c : Client) (hash : bytes) (s : St W) (l : Locals ResultTx) :
  Tx_retryFunc env c hash (s, l) =
    match tx env c hash s with
    | Ret (Ok res, s1) => Ret (None, (s1, mkLocals (Some res) None))
    | Ret (Err e, s1) => Ret (Some e, (s1, mkLocals None (Some e)))
    | Panic msg => Panic msg
    | OutOfFuel => OutOfFuel
    end.
Proof.
  unfold Tx_retryFunc, bind, lift, assign. cbn [fst snd].
  destruct (tx env c hash s) as [[[res|e] s1]| |]; reflexivity.
Qed.

(** A single query always returns: with the result or with an error. *)
Lemma tx_returns (c : Client) (hash : bytes) (s : St W) :
  exists r s1, tx env c hash s = Ret (r, s1).
Proof.
  unfold tx. destruct (HTTP env c); [eexists; eexists; reflexivity|].
  unfold bind, call.
  destruct (rpc_Tx env hash (queryProve c) (world s)) as [[res|e] w'];
    eexists; eexists; reflexivity.
Qed.

Lemma after_query_retries_run (c : Client) (hash : bytes) (n : nat) :
  forall (s s' : St W) (l : Locals ResultTx),
    after_query_retries env c hash n s = Some s' ->
    exists l',
      retry_runs.after_retries (query_retry_config W c)
        (Tx_retryFunc env c hash) n (s, l) = Some (s', l').
Proof.
  induction n as [|n IH]; intros s s' l Hrun.
  - cbn in Hrun. injection Hrun as ->. exists l. reflexivity.
  - cbn [after_query_retries] in Hrun.
    cbn [retry_runs.after_retries].
    rewrite Tx_retryFunc_run.
    destruct (tx env c hash s) as [[[res|e] s1]| |]; try discriminate.
    cbn [query_retry_config retry.retryIf retry.timer retry.delay Tx_retryIfFunc].
    rewrite lift_sleep_state. apply IH, Hrun.
Qed.

Lemma after_query_retries_next (c : Client) (hash : bytes) (n : nat) :
  forall (s s_n s' : St W) (e : error),
    after_query_retries env c hash n s = Some s_n ->
    tx env c hash s_n = Ret (Err e, s') ->
    after_query_retries env c hash (Datatypes.S n) s
    = Some (state_after_sleep (txQueryRetryDelay c) s').
Proof.
  induction n as [|n IH]; intros s s_n s' e Hrun Hatt.
  - cbn in Hrun. injection Hrun as ->.
    cbn [after_query_retries]. rewrite Hatt. reflexivity.
  - change (after_query_retries env c hash (Datatypes.S n) s)
      with (match tx env c hash s with
            | Ret (Err _, s1) =>
                after_query_retries env c hash n
                  (state_after_sleep (txQueryRetryDelay c) s1)
            | _ => None
            end) in Hrun.
    change (after_query_retries env c hash (Datatypes.S (Datatypes.S n)) s)
      with (match tx env c hash s with
            | Ret (Err _, s1) =>
                after_query_retries env c hash (Datatypes.S n)
                  (state_after_sleep (txQueryRetryDelay c) s1)
            | _ => None
            end).
    destruct (tx env c hash s) as [[[res|e0] s1]| |]; try discriminate.
    eapply IH; eassumption.
Qed.

Lemma Tx_unfold (fuel : nat) (c : Client) (hash : bytes) (s : St W) :
  Tx env fuel c hash s =
    match retry.Do (query_retry_config W c) (Tx_retryFunc env c hash) fuel
            (s, mkLocals None None) with
    | Ret (Some err, (s', _)) =>
        Ret ((None, Some (wrap "tx query failed after retries: " err)), s')
    | Ret (None, (s', l)) => Ret ((l_result l, None), s')
    | Panic msg => Panic msg
    | OutOfFuel => OutOfFuel
    end.
Proof.
  unfold Tx, bind, with_locals.
  destruct (retry.Do _ _ _ _) as [[[err|] [s' l]]| |]; reflexivity.
Qed.

(** A query that finds the transaction ends the polling. *)
Lemma Tx_found (fuel : nat) (c : Client) (hash : bytes)
      (n : nat) (s s_n s' : St W) (res : ResultTx) :
  retry_runs.within_budget (query_retry_config W c) fuel n ->
  after_query_retries env c hash n s = Some s_n ->
  tx env c hash s_n = Ret (Ok res, s') ->
  Tx env fuel c hash s = Ret ((Some res, None), s').
Proof.
  intros Hb Hrun Hatt.
  destruct (after_query_retries_run c hash n s s_n (mkLocals None None) Hrun)
    as [l' Hgen].
  rewrite Tx_unfold.
  rewrite (Do_stops_nil _ (query_retry_config W c) _ fuel n _ _
             (s', mkLocals (Some res) None) Hb Hgen).
  - reflexivity.
  - rewrite Tx_retryFunc_run, Hatt. reflexivity.
Qed.

Lemma Tx_exhausted (fuel : nat) (c : Client) (hash : bytes)
      (n : nat) (s s_n s' : St W) (e : error) :
  txQueryRetryAttempts c = Datatypes.S n ->
  after_query_retries env c hash n s = Some s_n ->
  tx env c hash s_n = Ret (Err e, s') ->
  Tx env fuel c hash s
  = Ret ((None, Some (wrap "tx query failed after retries: " e)), s').
Proof.
  intros Ha Hrun Hatt.
  destruct (after_query_retries_run c hash n s s_n (mkLocals None None) Hrun)
    as [l' Hgen].
  rewrite Tx_unfold.
  rewrite (Do_exhausted _ (query_retry_config W c) _ fuel n _ _
             (s', mkLocals None (Some e)) e Ha Hgen).
  - reflexivity.
  - rewrite Tx_retryFunc_run, Hatt. reflexivity.
Qed.

Lemma Tx_retried (fuel : nat) (c : Client) (hash : bytes) (n : nat) (s s_n : St W) :
  (n < txQueryRetryAttempts c)%nat ->
  after_query_retries env c hash n s = Some s_n ->
  Tx env fuel c hash s
  = Tx env fuel (WithTxQueryRetryAttempts (txQueryRetryAttempts c - n) c) hash s_n.
Proof.
  intros Hlt Hrun.
  destruct (after_query_retries_run c hash n s s_n (mkLocals None None) Hrun)
    as [l' Hgen].
  rewrite !Tx_unfold. unfold retry.Do.
  cbn [query_retry_config retry.attempts WithTxQueryRetryAttempts txQueryRetryAttempts].
  destruct (txQueryRetryAttempts c) as [|a] eqn:Ha; [lia|].
  replace (Datatypes.S a - n)%nat with (Datatypes.S (a - n)) by lia.
  replace (Datatypes.S a) with (n + Datatypes.S (a - n))%nat at 1 by lia.
  rewrite (loop_after_retries _ _ _ n (a - n) _ _ Hgen).
  rewrite (loop_first _ _ _ (a - n) (s_n, l') (s_n, mkLocals None None))
    by (rewrite !Tx_retryFunc_run; reflexivity).
  rewrite <- (loop_config _ (query_retry_config W c) _
                (query_retry_config W
                   (WithTxQueryRetryAttempts (Datatypes.S (a - n)) c)))
    by reflexivity.
  reflexivity.
Qed.

(** C6. Whatever error a single transaction-by-hash query returns, the
    watcher retries: while attempts of its own budget remain it waits
    the fixed query delay and polls again with the attempts that remain,
    and when the failed query was the last of the budget, that last
    error is returned.  No condition is put on the error text. *)
Theorem Tx_retries_every_error
        (fuel : nat) (c : Client) (hash : bytes)
        (n : nat) (s s_n s' : St W) (e : error) :
  (n < txQueryRetryAttempts c)%nat ->
  after_query_retries env c hash n s = Some s_n ->
  tx env c hash s_n = Ret (Err e, s') ->
  if (Datatypes.S n <? txQueryRetryAttempts c)%nat then
    after_query_retries env c hash (Datatypes.S n) s
    = Some (state_after_sleep (txQueryRetryDelay c) s') /\
    Tx env fuel c hash s
    = Tx env fuel
        (WithTxQueryRetryAttempts (txQueryRetryAttempts c - Datatypes.S n) c)
        hash (state_after_sleep (txQueryRetryDelay c) s')
  else
    Tx env fuel c hash s
    = Ret ((None, Some (wrap "tx query failed after retries: " e)), s').
Proof.
  intros Hlt Hrun Hatt.
  destruct (Nat.ltb_spec (Datatypes.S n) (txQueryRetryAttempts c)) as [Hmore|Hlast].
  - pose proof (after_query_retries_next c hash n s s_n s' e Hrun Hatt) as Hnext.
    split; [exact Hnext|].
    apply Tx_retried; assumption.
  - apply (Tx_exhausted fuel c hash n s s_n s' e); try assumption. lia.
Qed.

End QueryFacts.

(** ** The orchestrator *)

Section OrchestratorFacts.

Variable W : Type.
Variable env : Env W.

(** C4. The outcomes of [BroadcastTxBlock], all six of them.  If the
    broadcast returns an error, the result is (nil, nil, error) in the
    state the broadcast left, so no inclusion query is made.  If the
    broadcast response carries a mempool code other than OK, the result
    is the response, no transaction result, and an error, again without
    any query.  Otherwise the transaction is polled by its hash: a failed
    polling gives the response, no transaction result, and the polling
    error; an execution code other than OK gives both results and an
    error spelling out code, codespace and log; and a transaction
    executed with code OK gives both results with no error.  These are
    the five returns.  The sixth outcome is no return: when the broadcast
    gives neither response nor error (the mempool-cache path), the read
    of [resp.Code] goes through a nil pointer and [BroadcastTxBlock]
    panics. *)
Theorem BroadcastTxBlock_case_analysis
        (fuel : nat) (c : Client) (msgs : list Msg) (s : St W) :
  match BroadcastTxSync env fuel c msgs s with
  | Ret ((_, Some err), s1) =>
      BroadcastTxBlock env fuel c msgs s = Ret ((None, None, Some err), s1)
  | Ret ((Some resp, None), s1) =>
      if negb (rb_Code resp =? CodeTypeOK) then
        BroadcastTxBlock env fuel c msgs s
        = Ret ((Some resp, None,
                Some ("tx sync broadcast failed: "
                        ++ code_text (rb_Code resp) (rb_Codespace resp) (rb_Log resp))),
               s1)
      else
        match Tx env fuel c (rb_Hash resp) s1 with
        | Ret ((_, Some err), s2) =>
            BroadcastTxBlock env fuel c msgs s = Ret ((Some resp, None, Some err), s2)
        | Ret ((Some res, None), s2) =>
            if negb (tr_Code (rt_TxResult res) =? CodeTypeOK) then
              BroadcastTxBlock env fuel c msgs s
              = Ret ((Some resp, Some res,
                      Some ("tx failed: "
                              ++ code_text (tr_Code (rt_TxResult res))
                                   (tr_Codespace (rt_TxResult res))
                                   (tr_Log (rt_TxResult res)))),
                     s2)
            else
              BroadcastTxBlock env fuel c msgs s = Ret ((Some resp, Some res, None), s2)
        | Ret ((None, None), _) =>
            BroadcastTxBlock env fuel c msgs s = Panic nil_deref
        | Panic msg => BroadcastTxBlock env fuel c msgs s = Panic msg
        | OutOfFuel => BroadcastTxBlock env fuel c msgs s = OutOfFuel
        end
  | Ret ((None, None), _) => BroadcastTxBlock env fuel c msgs s = Panic nil_deref
  | Panic msg => BroadcastTxBlock env fuel c msgs s = Panic msg
  | OutOfFuel => BroadcastTxBlock env fuel c msgs s = OutOfFuel
  end.
Proof.
  unfold BroadcastTxBlock, bind.
  destruct (BroadcastTxSync env fuel c msgs s) as [[[resp err] s1]| |];
    try reflexivity.
  destruct err as [err|]; [destruct resp; reflexivity|].
  destruct resp as [resp|]; [|reflexivity].
  cbn [fst snd]. unfold confirm.
  destruct (negb (rb_Code resp =? CodeTypeOK)); [reflexivity|].
  unfold bind.
  destruct (Tx env fuel c (rb_Hash resp) s1) as [[[res qerr] s2]| |];
    try reflexivity.
  destruct qerr as [qerr|]; [destruct res; reflexivity|].
  destruct res as [res|]; [|reflexivity].
  cbn [fst snd]. unfold ExecTxResult_IsOK.
  destruct (negb (tr_Code (rt_TxResult res) =? CodeTypeOK)); reflexivity.
Qed.

End OrchestratorFacts.

(** ** Signer-address resolution *)

Section SignerFacts.

Variable W : Type.
Variable env : Env W.

(** [Client.Key] asked for the configured name. *)
Lemma Key_txFromName (c : Client) (s : St W) :
  Key env c (txFromName c) s =
    match keyring_Key env (txFromName c) (world s) with
    | (Found key, w) => Ret (Found key, after_key_lookup (txFromName c) w s)
    | (Missing, w) => Ret (Missing, after_key_lookup (txFromName c) w s)
    | (Failed e, w) =>
        Ret (Failed ("failed to retrieve key from keyring: " ++ e),
             after_key_lookup (txFromName c) w s)
    end.
Proof.
  unfold Key, bind, call, after_key_lookup.
  destruct (String.eqb (txFromName c) "");
    destruct (keyring_Key env (txFromName c) (world s)) as [[key| |e] w];
    reflexivity.
Qed.

(** C5, in the form that holds of the code.  [MsgFromAddr] returns the authorization granter when
    one is configured.  Otherwise it asks the keyring for the configured
    key name: a key found gives its address; a keyring failure, or a key
    whose address cannot be derived, gives an error; and a key that is
    absent under that name gives a nil address together with a nil
    error.  The broadcast attempt is where the absent key is reported,
    as a not-found error. *)
Theorem MsgFromAddr_resolution (c : Client) (s : St W) :
  if negb (AccAddress_Empty (txAuthzGranterAddr c)) then
    MsgFromAddr env c s = Ret ((txAuthzGranterAddr c, None), s)
  else
    match keyring_Key env (txFromName c) (world s) with
    | (Found key, w) =>
        match Record_GetAddress env key with
        | Ok addr =>
            MsgFromAddr env c s
            = Ret ((addr, None), after_key_lookup (txFromName c) w s)
        | Err e =>
            MsgFromAddr env c s
            = Ret ((nil_addr,
                    Some ("failed to get key addr for tx_from_name:"
                            ++ "failed to get addr from key: " ++ e)),
                   after_key_lookup (txFromName c) w s)
        end
    | (Missing, w) =>
        MsgFromAddr env c s
        = Ret ((nil_addr, None), after_key_lookup (txFromName c) w s) /\
        forall msgs,
          broadcastTxSync env c msgs s
          = Ret (Err ("not found: key " ++ txFromName c ++ " does not exist"),
                 after_key_lookup (txFromName c) w s)
    | (Failed e, w) =>
        MsgFromAddr env c s
        = Ret ((nil_addr,
                Some ("failed to get key addr for tx_from_name:"
                        ++ "failed to retrieve key: "
                        ++ "failed to retrieve key from keyring: " ++ e)),
               after_key_lookup (txFromName c) w s)
    end.
Proof.
  unfold MsgFromAddr.
  destruct (negb (AccAddress_Empty (txAuthzGranterAddr c))); [reflexivity|].
  unfold broadcastTxSync, KeyAddr, bind. rewrite Key_txFromName.
  destruct (keyring_Key env (txFromName c) (world s)) as [[key| |e] w].
  - destruct (Record_GetAddress env key); reflexivity.
  - split; [reflexivity|]. intros msgs. reflexivity.
  - reflexivity.
Qed.

End SignerFacts.

(** ** Gas simulation *)

Section SimulationFacts.

Variable W : Type.
Variable env : Env W.

(** The integer part of a finite float is its value rounded toward zero:
    the quotient, truncated as [Z.quot] does, of the signed mantissa
    scaled by the exponent. *)
Lemma trunc_toward_zero (sign : bool) (m : positive) (e : Z) :
  float64.trunc (S754_finite sign m e)
  = Some (Z.quot ((if sign then - Z.pos m else Z.pos m) * 2 ^ Z.max e 0)
                 (2 ^ Z.max (- e) 0)).
Proof.
  unfold float64.trunc. f_equal.
  destruct (Z.leb_spec 0 e) as [He|He].
  - rewrite (Z.max_l e 0), (Z.max_r (- e) 0) by lia.
    change (2 ^ 0) with 1. rewrite Z.quot_1_r.
    destruct sign; lia.
  - rewrite (Z.max_r e 0), (Z.max_l (- e) 0) by lia.
    change (2 ^ 0) with 1. rewrite Z.mul_1_r.
    assert (0 < 2 ^ (- e)) by (apply Z.pow_pos_nonneg; lia).
    destruct sign.
    + rewrite Z.quot_opp_l by lia.
      rewrite Z.quot_div_nonneg by lia. reflexivity.
    + rewrite Z.quot_div_nonneg by lia. reflexivity.
Qed.



(** Signing changes the signatures only: messages, gas limit and fee
    reach the encoder as [prepareTx] left them. *)
Lemma signTx_keeps_body (c : Client) (txb txb' : TxBuilder) (key : KeyRecord)
      (acc : Account) (s s' : St W) :
  signTx env c txb key acc s = Ret (Ok txb', s') ->
  tx_Msgs txb' = tx_Msgs txb /\
  tx_GasLimit txb' = tx_GasLimit txb /\
  tx_FeeAmount txb' = tx_FeeAmount txb.
Proof.
  unfold signTx.
  destruct (Record_GetPubKey env key) as [pubKey|e]; [|discriminate].
  destruct (TxBuilder_SetSignatures env _); [discriminate|].
  destruct (GetSignBytes env _ _ _) as [buf|e]; [|discriminate].
  unfold bind.
  destruct (Sign env c (txFromName c) buf s) as [[[[sig pk]|e] s1]| |];
    try discriminate.
  destruct (TxBuilder_SetSignatures env _); [discriminate|].
  intros H. injection H as <- <-. repeat split.
Qed.

(** An error of [prepareTx] is the error of the attempt. *)
Lemma broadcast_as_prepare_error (c : Client) (key : KeyRecord) (addr : AccAddress)
      (msgs : list Msg) (acc : Account) (w : W) (s s' : St W) (e : error) :
  query_Account env addr (world s) = (Found acc, w) ->
  prepareTx env c key acc msgs (mkSt w (trace s ++ [EvAccount addr])%list)
  = Ret (Err e, s') ->
  broadcast_as env c key addr msgs s = Ret (Err ("failed to prepare tx: " ++ e), s').
Proof.
  intros Hacc Hprep. unfold broadcast_as, bind, call.
  rewrite Hacc, Hprep. reflexivity.
Qed.

End SimulationFacts.

(** ** Authorization wrapping *)

Section AuthzFacts.

Variable W : Type.
Variable env : Env W.

Lemma traced_ret {A} (P : Event -> Prop) (Q : A -> Prop) (a : A) :
  Q a -> traced W P Q (ret a).
Proof.
  intros HQ s a' s' H. injection H as <- <-. split; [|exact HQ].
  exists []. rewrite app_nil_r. split; [reflexivity|constructor].
Qed.

Lemma traced_bind {A B} (P : Event -> Prop) (Q : A -> Prop) (R : B -> Prop)
      (m : M (St W) A) (k : A -> M (St W) B) :
  traced W P Q m -> (forall a, Q a -> traced W P R (k a)) -> traced W P R (bind m k).
Proof.
  intros Hm Hk s b s' H. unfold bind in H.
  destruct (m s) as [[a s1]| |] eqn:Em; try discriminate.
  destruct (Hm s a s1 Em) as [[evs1 [Ht1 Hf1]] HQ].
  destruct (Hk a HQ s1 b s' H) as [[evs2 [Ht2 Hf2]] HR].
  split; [|exact HR].
  exists (evs1 ++ evs2)%list. split.
  - rewrite Ht2, Ht1, app_assoc. reflexivity.
  - apply Forall_app. split; assumption.
Qed.

Lemma traced_call {A} (P : Event -> Prop) (ev : Event) (f : W -> A * W) :
  P ev -> traced W P (fun _ => True) (call ev f).
Proof.
  intros HP s a s' H. unfold call in H.
  destruct (f (world s)) as [a0 w']. injection H as <- <-.
  split; [|exact I]. exists [ev]. split; [reflexivity|].
  constructor; [exact HP|constructor].
Qed.

Lemma traced_lift_outcome {A} (P : Event -> Prop) (o : outcome A) :
  traced W P (fun _ => True) (lift_outcome o).
Proof.
  intros s a s' H. unfold lift_outcome in H.
  destruct o; try discriminate. injection H as <- <-.
  split; [|exact I]. exists []. rewrite app_nil_r. split; [reflexivity|constructor].
Qed.

Lemma traced_panic {A} (P : Event -> Prop) (Q : A -> Prop) (msg : string) :
  traced W P Q (panic msg).
Proof. intros s a s' H. discriminate. Qed.

Variable addr : AccAddress.
Variable wrapped : list Msg.

Lemma carries_Err (e : error) : carries wrapped (Err e).
Proof. intros txb H. discriminate. Qed.

Lemma carries_Ok (txb : TxBuilder) : tx_Msgs txb = wrapped -> carries wrapped (Ok txb).
Proof. intros H txb' E. injection E as <-. exact H. Qed.

Hint Resolve carries_Err carries_Ok : core.

Lemma gasSimulateTx_traced (c : Client) (txb : TxBuilder) :
  tx_Msgs txb = wrapped ->
  traced W (submission_event env addr wrapped) (fun _ => True) (gasSimulateTx env c txb).
Proof.
  intros Hm. unfold gasSimulateTx.
  destruct (TxEncoder env txb) as [buf|e] eqn:Eenc; [|apply traced_ret; exact I].
  eapply traced_bind with (Q := fun _ => True).
  - unfold Simulate. eapply traced_bind with (Q := fun _ => True).
    + apply traced_call. exists txb. split; assumption.
    + intros [resp|e] _; apply traced_ret; exact I.
  - intros [resp|e] _; [|apply traced_ret; exact I].
    destruct (sr_GasInfo resp); [apply traced_ret; exact I|apply traced_panic].
Qed.

Lemma prepareTx_simulate_traced (c : Client) (txb : TxBuilder) :
  tx_Msgs txb = wrapped ->
  traced W (submission_event env addr wrapped) (carries wrapped) (prepareTx_simulate env c txb).
Proof.
  intros Hm. unfold prepareTx_simulate.
  destruct (txSimulateAndExecute c); [|apply traced_ret; auto].
  eapply traced_bind with (Q := fun _ => True); [apply gasSimulateTx_traced; exact Hm|].
  intros [gasLimit|e] _; [|apply traced_ret; auto].
  destruct (negb (DecCoins_IsZero (txGasPrices c))); [|apply traced_ret; auto].
  eapply traced_bind with (Q := fun _ => True); [apply traced_lift_outcome|].
  intros fees _. apply traced_ret; auto.
Qed.

Lemma prepareTx_traced (c : Client) (key : KeyRecord) (acc : Account) :
  traced W (submission_event env addr wrapped) (carries wrapped) (prepareTx env c key acc wrapped).
Proof.
  unfold prepareTx.
  destruct (TxBuilder_SetMsgs env wrapped); [apply traced_ret; auto|].
  eapply traced_bind with (Q := fun txb => tx_Msgs txb = wrapped).
  - destruct (negb (DecCoins_IsZero (txGasPrices c))).
    + eapply traced_bind with (Q := fun _ => True); [apply traced_lift_outcome|].
      intros fees _. apply traced_ret. reflexivity.
    + apply traced_ret. reflexivity.
  - intros txb Htxb.
    destruct (Record_GetPubKey env key) as [pubKey|e]; [|apply traced_ret; auto].
    destruct (TxBuilder_SetSignatures env _); [apply traced_ret; auto|].
    apply prepareTx_simulate_traced. exact Htxb.
Qed.

Lemma signTx_traced (c : Client) (txb : TxBuilder) (key : KeyRecord) (acc : Account) :
  tx_Msgs txb = wrapped ->
  traced W (submission_event env addr wrapped) (carries wrapped) (signTx env c txb key acc).
Proof.
  intros Hm. unfold signTx.
  destruct (Record_GetPubKey env key) as [pubKey|e]; [|apply traced_ret; auto].
  destruct (TxBuilder_SetSignatures env _); [apply traced_ret; auto|].
  destruct (GetSignBytes env _ _ _) as [buf|e]; [|apply traced_ret; auto].
  eapply traced_bind with (Q := fun _ => True).
  - unfold Sign. eapply traced_bind with (Q := fun _ => True); [apply traced_call; exact I|].
    intros [sp|e] _; apply traced_ret; exact I.
  - intros [[sig pk]|e] _; [|apply traced_ret; auto].
    destruct (TxBuilder_SetSignatures env _); apply traced_ret; auto.
Qed.

Lemma submit_traced (c : Client) (txb : TxBuilder) :
  tx_Msgs txb = wrapped ->
  traced W (submission_event env addr wrapped) (fun _ => True) (submit env c txb).
Proof.
  intros Hm. unfold submit.
  destruct (TxEncoder env txb) as [buf|e] eqn:Eenc; [|apply traced_ret; exact I].
  destruct (HTTP env c); [apply traced_ret; exact I|].
  eapply traced_bind with (Q := fun _ => True).
  - apply traced_call. exists txb. split; assumption.
  - intros [res|e] _; apply traced_ret; exact I.
Qed.

Lemma broadcast_as_traced (c : Client) (key : KeyRecord) :
  traced W (submission_event env addr wrapped) (fun _ => True) (broadcast_as env c key addr wrapped).
Proof.
  unfold broadcast_as.
  eapply traced_bind with (Q := fun _ => True); [apply traced_call; reflexivity|].
  intros [acc| |e] _; try (apply traced_ret; exact I).
  eapply traced_bind with (Q := carries wrapped); [apply prepareTx_traced|].
  intros [txb|e] Htxb; [|apply traced_ret; exact I].
  eapply traced_bind with (Q := carries wrapped); [apply signTx_traced; apply Htxb; reflexivity|].
  intros [txb'|e] Htxb'; [|apply traced_ret; exact I].
  apply submit_traced. apply Htxb'. reflexivity.
Qed.

End AuthzFacts.

Section AuthzWrapping.

Variable W : Type.
Variable env : Env W.

(** C7. With an authorization granter configured, the attempt replaces
    the caller's messages by the single exec message whose signer is the
    address of the local signing key, before it validates anything: the
    validation loop, the builder, and so the simulated and the broadcast
    bytes, see that one message only; and every account lookup of the
    attempt is for the signing address. *)
Theorem broadcastTxSync_authz_wrapping
        (c : Client) (msgs : list Msg) (s : St W)
        (key : KeyRecord) (w : W) (addr : AccAddress) :
  AccAddress_Empty (txAuthzGranterAddr c) = false ->
  keyring_Key env (txFromName c) (world s) = (Found key, w) ->
  Record_GetAddress env key = Ok addr ->
  let wrapped := [NewMsgExec addr msgs] in
  let s1 := after_key_lookup (txFromName c) w s in
  MsgExec_GetSigners (NewMsgExec addr msgs) = [addr] /\
  broadcastTxSync env c msgs s
  = match validate_from env 0 wrapped with
    | Some e => Ret (Err e, s1)
    | None => broadcast_as env c key addr wrapped s1
    end /\
  forall r s',
    broadcastTxSync env c msgs s = Ret (r, s') ->
    exists evs,
      trace s' = (trace s1 ++ evs)%list /\
      Forall (submission_event env addr wrapped) evs.
Proof.
  intros Hg Hkey Haddr wrapped s1.
  assert (Hrun : broadcastTxSync env c msgs s
                 = match validate_from env 0 wrapped with
                   | Some e => Ret (Err e, s1)
                   | None => broadcast_as env c key addr wrapped s1
                   end).
  { unfold broadcastTxSync, bind. rewrite Key_txFromName, Hkey, Haddr.
    unfold wrap_authz. rewrite Hg. cbn [negb].
    fold wrapped. fold s1.
    destruct (validate_from env 0 wrapped); reflexivity. }
  split; [reflexivity|]. split; [exact Hrun|].
  intros r s' Hret. rewrite Hrun in Hret.
  destruct (validate_from env 0 wrapped) as [e|].
  - injection Hret as <- <-. exists []. rewrite app_nil_r.
    split; [reflexivity|constructor].
  - destruct (broadcast_as_traced W env addr wrapped c key s1 r s' Hret)
      as [Hevs _].
    exact Hevs.
Qed.

End AuthzWrapping.

(** ** Claims about the fee computation *)

Section FeeClaims.

(** C8, in the form that holds of the code.  For gas prices with well-formed denoms and
    non-negative amounts, and a gas limit below [2^63], the fee
    computation returns one coin per configured price, in order, with
    amount [ceil(price * gasLimit)].  So the denoms of the fee are
    exactly the configured ones: a denom that is not configured is
    absent, and a denom configured with price zero is present, with
    amount zero. *)
Theorem calculateFees_entry_per_denom (gasPrices : DecCoins) (gasLimit : Z) :
  Forall price_ok gasPrices -> 0 <= gasLimit < 2 ^ 63 ->
  exists fees,
    calculateFees gasPrices gasLimit = Ret fees /\
    fees = map (fee_entry gasLimit) gasPrices /\
    map Denom fees = map dc_Denom gasPrices /\
    (forall denom, ~ In denom (map dc_Denom gasPrices) -> ~ In denom (map Denom fees)) /\
    (forall price, In price gasPrices -> dec_i (dc_Amount price) = 0 ->
                   In (mkCoin (dc_Denom price) 0) fees).
Proof.
  intros Hok Hg. exists (map (fee_entry gasLimit) gasPrices).
  assert (Hd : map Denom (map (fee_entry gasLimit) gasPrices) = map dc_Denom gasPrices).
  { rewrite map_map. apply map_ext. intros price. reflexivity. }
  split; [apply calculateFees_computed; assumption|].
  split; [reflexivity|]. split; [exact Hd|]. split.
  - intros denom Hno. rewrite Hd. exact Hno.
  - intros price Hin Hz.
    replace (mkCoin (dc_Denom price) 0) with (fee_entry gasLimit price).
    + apply in_map, Hin.
    + unfold fee_entry. rewrite Hz. reflexivity.
Qed.

(** Below the wrap of [int64] the fee grows with the gas limit. *)
Lemma fee_entry_monotone (price : DecCoin) (g1 g2 : Z) :
  0 <= dec_i (dc_Amount price) -> g1 <= g2 ->
  Amount (fee_entry g1 price) <= Amount (fee_entry g2 price).
Proof.
  intros Hp Hg. cbn [fee_entry Amount]. apply ceil_div_mono. nia.
Qed.

Lemma calculateFees_monotone_below_wrap (gasPrices : DecCoins) (g1 g2 : Z) :
  Forall price_ok gasPrices -> 0 <= g1 -> g1 <= g2 -> g2 < 2 ^ 63 ->
  exists fees1 fees2,
    calculateFees gasPrices g1 = Ret fees1 /\
    calculateFees gasPrices g2 = Ret fees2 /\
    Forall2 (fun c1 c2 => Denom c1 = Denom c2 /\ Amount c1 <= Amount c2) fees1 fees2.
Proof.
  intros Hok H1 H12 H2.
  exists (map (fee_entry g1) gasPrices), (map (fee_entry g2) gasPrices).
  split; [apply calculateFees_computed; [assumption|lia]|].
  split; [apply calculateFees_computed; [assumption|lia]|].
  induction Hok as [|price rest [_ [Hp _]] _ IH]; cbn [map]; constructor.
  - split; [reflexivity|]. apply fee_entry_monotone; assumption.
  - exact IH.
Qed.

(** C9, evaluated on the code.  The gas limit enters the product as
    [int64(gasLimit)]: at the price 0.1 the fee for the gas limit 10 is
    1, while for the larger gas limit [2^64 - 1] (read as -1) it is 0,
    and for [2^63] (read as [-2^63]) the computation panics on a
    negative amount. *)
Theorem calculateFees_int64_wrap :
  calculateFees [Scenario.tics (10 ^ 17)] 10 = Ret [mkCoin "tics" 1] /\
  calculateFees [Scenario.tics (10 ^ 17)] (2 ^ 64 - 1) = Ret [mkCoin "tics" 0] /\
  calculateFees [Scenario.tics (10 ^ 17)] (2 ^ 63)
  = Panic "negative coin amount: -922337203685477580".
Proof. repeat split; vm_compute; reflexivity. Qed.

End FeeClaims.

(** ** Concrete runs *)

Module Checks.

Import Scenario.

Lemma BroadcastTxSync_mempool_cache_stops_witness :
  let s := start [sequence_error; cache_error] [] in
  exists s_1 e s',
    after_sequence_retries env client msgs 1 s = Some s_1 /\
    broadcastTxSync env client msgs s_1 = Ret (Err e, s') /\
    IsTxInMempoolCacheError e = true /\
    BroadcastTxSync env 0 client msgs s = Ret ((None, None), s').
Proof.
  intros s. eexists; eexists; eexists.
  match goal with
  | |- ?A /\ ?B /\ ?C /\ _ =>
      assert (H1 : A) by (vm_compute; reflexivity);
      assert (H2 : B) by (vm_compute; reflexivity);
      assert (H3 : C) by (vm_compute; reflexivity)
  end.
  refine (conj H1 (conj H2 (conj H3 _))).
  refine (BroadcastTxSync_mempool_cache_stops World env 0 client msgs 1 s _ _ _
            (or_introl _) H1 H2 H3).
  vm_compute. lia.
Defined.

Lemma BroadcastTxBlock_mempool_cache_nil_deref_witness :
  let s := start [cache_error] [] in
  exists e s',
    after_sequence_retries env client msgs 0 s = Some s /\
    broadcastTxSync env client msgs s = Ret (Err e, s') /\
    IsTxInMempoolCacheError e = true /\
    BroadcastTxSync env 0 client msgs s = Ret ((None, None), s') /\
    BroadcastTxBlock env 0 client msgs s = Panic nil_deref.
Proof.
  intros s. eexists; eexists.
  match goal with
  | |- ?A /\ ?B /\ ?C /\ _ =>
      assert (H1 : A) by reflexivity;
      assert (H2 : B) by (vm_compute; reflexivity);
      assert (H3 : C) by (vm_compute; reflexivity)
  end.
  refine (conj H1 (conj H2 (conj H3 _))).
  refine (BroadcastTxBlock_mempool_cache_nil_deref World env 0 client msgs 0 s _ _ _
            (or_introl _) H1 H2 H3).
  vm_compute. lia.
Defined.

(** An error text that names both conditions is taken for a mempool-cache
    error: the claim that every sequence error is retried fails on it. *)
Lemma sequence_error_in_cache_not_retried :
  ~ (forall (W : Type) (env : Env W) (fuel : nat) (c : Client) (msgs : list Msg)
            (s s' : St W) (e : error),
        (1 < txBroadcastRetryAttempts c)%nat ->
        broadcastTxSync env c msgs s = Ret (Err e, s') ->
        IsWrongSequenceError e = true ->
        BroadcastTxSync env fuel c msgs s
        = BroadcastTxSync env fuel
            (WithTxBroadcastRetryAttempts (txBroadcastRetryAttempts c - 1) c)
            msgs (state_after_sleep (txBroadcastRetryDelay c) s')).
Proof.
  intros claim.
  pose (s := start [Err "incorrect account sequence: tx already exists in cache";
                    Ok accepted] []).
  assert (Hatt : exists e s', broadcastTxSync env client msgs s = Ret (Err e, s') /\
                              IsWrongSequenceError e = true).
  { eexists; eexists. split; [vm_compute; reflexivity|]. vm_compute. reflexivity. }
  destruct Hatt as [e [s' [Hatt Hq]]].
  assert (Hbudget : (1 < txBroadcastRetryAttempts client)%nat) by (vm_compute; lia).
  pose proof (claim World env 0%nat client msgs s s' e Hbudget Hatt Hq) as Hclaim.
  assert (Hs' : s' = mkSt (mkWorld [Ok accepted] [] 6 true)
                       [EvKeyringKey "main"; EvAccount "addr:pk-main";
                        EvSimulate "tx:200000"; EvKeyringSign "main" "sign:5";
                        EvBroadcast "tx:140000"]).
  { vm_compute in Hatt. injection Hatt as _ <-. reflexivity. }
  subst s'. vm_compute in Hclaim. discriminate Hclaim.
Qed.

Lemma BroadcastTxSync_sequence_retry_policy_witness :
  let s := start [sequence_error; Ok accepted] [] in
  exists e s',
    (0 < txBroadcastRetryAttempts client)%nat /\
    after_sequence_retries env client msgs 0 s = Some s /\
    broadcastTxSync env client msgs s = Ret (Err e, s') /\
    IsTxInMempoolCacheError e = false /\
    IsWrongSequenceError e = true /\
    BroadcastTxSync env 0 client msgs s
    = BroadcastTxSync env 0 (WithTxBroadcastRetryAttempts 2 client) msgs
        (state_after_sleep (txBroadcastRetryDelay client) s').
Proof.
  intros s. eexists; eexists.
  match goal with
  | |- ?A /\ ?B /\ ?C /\ ?D /\ ?E /\ _ =>
      assert (H0 : A) by (vm_compute; lia);
      assert (H1 : B) by reflexivity;
      assert (H2 : C) by (vm_compute; reflexivity);
      assert (H3 : D) by (vm_compute; reflexivity);
      assert (H4 : E) by (vm_compute; reflexivity)
  end.
  refine (conj H0 (conj H1 (conj H2 (conj H3 (conj H4 _))))).
  pose proof (BroadcastTxSync_sequence_retry_policy World env 0 client msgs 0 s
                _ _ _ H0 H1 H2 H3) as Hpolicy.
  rewrite H4 in Hpolicy.
  change (1 <? txBroadcastRetryAttempts client)%nat with true in Hpolicy.
  exact (proj2 Hpolicy).
Defined.

(** With no key stored under the configured name, [MsgFromAddr] returns
    no error. *)
Lemma MsgFromAddr_missing_key_no_error :
  ~ (forall (W : Type) (env : Env W) (c : Client) (s : St W) (w : W),
        AccAddress_Empty (txAuthzGranterAddr c) = true ->
        keyring_Key env (txFromName c) (world s) = (Missing, w) ->
        exists addr e s', MsgFromAddr env c s = Ret ((addr, Some e), s')).
Proof.
  intros claim.
  pose (s := mkSt (mkWorld [] [] 5 false) []).
  destruct (claim World env client s (world s) eq_refl eq_refl)
    as [addr [e [s' Hret]]].
  vm_compute in Hret. discriminate Hret.
Qed.

Lemma Tx_retries_every_error_witness :
  let s := start [] [Err "connection refused"] in
  exists s_1 e s',
    (1 < txQueryRetryAttempts client)%nat /\
    after_query_retries env client "HASH" 1 s = Some s_1 /\
    tx env client "HASH" s_1 = Ret (Err e, s') /\
    Tx env 0 client "HASH" s
    = Ret ((None,
            Some ("tx query failed after retries: failed to query tx: tx not found")),
           s').
Proof.
  intros s. eexists; eexists; eexists.
  match goal with
  | |- ?A /\ ?B /\ ?C /\ _ =>
      assert (H0 : A) by (vm_compute; lia);
      assert (H1 : B) by (vm_compute; reflexivity);
      assert (H2 : C) by (vm_compute; reflexivity)
  end.
  refine (conj H0 (conj H1 (conj H2 _))).
  exact (Tx_retries_every_error World env 0 client "HASH" 1 s _ _ _ H0 H1 H2).
Defined.

Lemma broadcastTxSync_authz_wrapping_witness :
  let s := start [Ok accepted] [] in
  let wrapped := [NewMsgExec "addr:pk-main" msgs] in
  AccAddress_Empty (txAuthzGranterAddr grantee_client) = false /\
  keyring_Key env (txFromName grantee_client) (world s) = (Found main_key, world s) /\
  Record_GetAddress env main_key = Ok "addr:pk-main" /\
  MsgExec_GetSigners (NewMsgExec "addr:pk-main" msgs) = ["addr:pk-main"] /\
  forall r s',
    broadcastTxSync env grantee_client msgs s = Ret (r, s') ->
    exists evs,
      trace s' = (trace (after_key_lookup "main" (world s) s) ++ evs)%list /\
      Forall (submission_event env "addr:pk-main" wrapped) evs.
Proof.
  intros s wrapped.
  assert (H1 : AccAddress_Empty (txAuthzGranterAddr grantee_client) = false)
    by reflexivity.
  assert (H2 : keyring_Key env (txFromName grantee_client) (world s)
               = (Found main_key, world s)) by reflexivity.
  assert (H3 : Record_GetAddress env main_key = Ok "addr:pk-main") by reflexivity.
  refine (conj H1 (conj H2 (conj H3 _))).
  destruct (broadcastTxSync_authz_wrapping World env grantee_client msgs s
              main_key (world s) "addr:pk-main" H1 H2 H3) as [Hs [_ Ht]].
  exact (conj Hs Ht).
Defined.

(** A denom configured with price zero has an entry in the fee. *)
Lemma calculateFees_zero_price_present :
  ~ (forall (gasPrices : DecCoins) (gasLimit : Z) (fees : Coins) (price : DecCoin),
        In price gasPrices -> dec_i (dc_Amount price) = 0 ->
        calculateFees gasPrices gasLimit = Ret fees ->
        ~ In (dc_Denom price) (map Denom fees)).
Proof.
  intros claim.
  apply (claim [mkDecCoin "stake" (mkDec 0); tics (10 ^ 17)] 200000
               [mkCoin "stake" 0; mkCoin "tics" 20000]
               (mkDecCoin "stake" (mkDec 0))).
  - left. reflexivity.
  - reflexivity.
  - vm_compute. reflexivity.
  - left. reflexivity.
Qed.

Lemma calculateFees_entry_per_denom_witness :
  let gasPrices := [mkDecCoin "stake" (mkDec 0); tics (10 ^ 17)] in
  Forall price_ok gasPrices /\ 0 <= 200000 < 2 ^ 63 /\
  exists fees,
    calculateFees gasPrices 200000 = Ret fees /\
    fees = [mkCoin "stake" 0; mkCoin "tics" 20000] /\
    In (mkCoin "stake" 0) fees.
Proof.
  intros gasPrices.
  assert (H1 : Forall price_ok gasPrices).
  { repeat constructor; cbn; lia. }
  assert (H2 : 0 <= 200000 < 2 ^ 63) by lia.
  refine (conj H1 (conj H2 _)).
  destruct (calculateFees_entry_per_denom gasPrices 200000 H1 H2)
    as [fees [Hret [Hmap [_ [_ Hzero]]]]].
  exists fees. split; [exact Hret|]. split.
  - rewrite Hmap. vm_compute. reflexivity.
  - apply (Hzero (mkDecCoin "stake" (mkDec 0))); [left|]; reflexivity.
Defined.



(** A cache error spelled with the letter U+0130 is a cache error to
    [strings.ToLower], also when the text names a sequence error too: the
    loop stops after one attempt with neither response nor error. *)
Example scenario_dotted_cache_error :
  exists s',
    BroadcastTxSync env 0 client msgs (start [dotted_cache_error; Ok accepted] [])
    = Ret ((None, None), s') /\
    List.length (filter is_account_lookup (trace s')) = 1%nat.
Proof. eexists. split; [vm_compute; reflexivity|]. vm_compute. reflexivity. Qed.

(** The four end-to-end scenarios: success on the first poll; a sequence
    error followed by success, with two account lookups; an inclusion
    query that never finds the hash; and an execution code other than OK. *)
Example scenario_success :
  exists s',
    BroadcastTxBlock env 0 client msgs (start [Ok accepted] [Ok (included 0)])
    = Ret ((Some accepted, Some (included 0), None), s') /\
    In (EvKeyringSign "main" "sign:5") (trace s').
Proof. eexists. split; [vm_compute; reflexivity|]. vm_compute. tauto. Qed.

Example scenario_sequence_retry :
  exists s',
    BroadcastTxBlock env 0 client msgs
      (start [sequence_error; Ok accepted] [Ok (included 0)])
    = Ret ((Some accepted, Some (included 0), None), s') /\
    List.length (filter is_account_lookup (trace s')) = 2%nat.
Proof. eexists. split; vm_compute; reflexivity. Qed.

Example scenario_query_exhausted :
  exists s',
    BroadcastTxBlock env 0 client msgs (start [Ok accepted] [])
    = Ret ((Some accepted, None,
            Some "tx query failed after retries: failed to query tx: tx not found"),
           s') /\
    List.length (filter is_query (trace s')) = txQueryRetryAttempts client.
Proof. eexists. split; vm_compute; reflexivity. Qed.

Example scenario_execution_failed :
  exists s',
    BroadcastTxBlock env 0 client msgs (start [Ok accepted] [Ok (included 5)])
    = Ret ((Some accepted, Some (included 5),
            Some "tx failed: code=5, codespace=sdk, log=log"), s').
Proof. eexists. vm_compute. reflexivity. Qed.

End Checks.

(** * Further properties *)

(** ** Error classification *)

Section ClassificationFacts.






Lemma HasPrefix_app (s t p : string) :
  strings.HasPrefix s p = true -> strings.HasPrefix (s ++ t) p = true.
Proof.
  revert s. induction p as [|c p IH]; intros s H; [destruct (s ++ t); reflexivity|].
  destruct s as [|d s]; cbn in *; [discriminate|].
  apply andb_true_iff in H. destruct H as [Hc Hp].
  rewrite Hc. cbn. apply IH, Hp.
Qed.

Lemma Contains_unfold (s p : string) :
  strings.Contains s p =
    strings.HasPrefix s p ||
    match s with
    | EmptyString => false
    | String _ s' => strings.Contains s' p
    end.
Proof. destruct s; reflexivity. Qed.

Lemma Contains_app_r (s t p : string) :
  strings.Contains s p = true -> strings.Contains (s ++ t) p = true.
Proof.
  induction s as [|c s IH]; intros H.
  - rewrite Contains_unfold in H. rewrite orb_false_r in H.
    rewrite Contains_unfold. rewrite (HasPrefix_app "" t p H). reflexivity.
  - rewrite Contains_unfold in H. apply orb_true_iff in H.
    change (String c s ++ t) with (String c (s ++ t)).
    rewrite Contains_unfold. apply orb_true_iff. destruct H as [H|H].
    + left. apply (HasPrefix_app (String c s) t p H).
    + right. apply IH, H.
Qed.

Lemma Contains_app_l (s t p : string) :
  strings.Contains s p = true -> strings.Contains (t ++ s) p = true.
Proof.
  intros H. induction t as [|c t IH]; [exact H|].
  change (String c t ++ s) with (String c (t ++ s)).
  rewrite Contains_unfold, IH. apply orb_true_r.
Qed.

Lemma Contains_wrapped (prefix s suffix p : string) :
  strings.Contains s p = true ->
  strings.Contains (prefix ++ s ++ suffix) p = true.
Proof. intros H. apply Contains_app_l, Contains_app_r, H. Qed.


(** X2. A gRPC not-found error is recognised through any wrapping: when
    [IsCodeNotFound] gives nil for a text, it gives nil for every text
    that contains it. *)
Theorem IsCodeNotFound_survives_wrapping (prefix err suffix : string) :
  IsCodeNotFound err = None ->
  IsCodeNotFound (prefix ++ err ++ suffix) = None.
Proof.
  unfold IsCodeNotFound. intros H.
  destruct (strings.Contains err "rpc error: code = NotFound") eqn:E;
    [|discriminate].
  rewrite (Contains_wrapped prefix err suffix _ E). reflexivity.
Qed.

End ClassificationFacts.

(** ** The fee computation, whatever the input *)

Section FeeInvariants.

(** Rounding the ceiling of any decimal gives [ceil]. *)
Lemma round_ceil (i : Z) :
  chopPrecisionAndRound (dec_i (Ceil (mkDec i))) = ceil_div i precisionReuse.
Proof.
  destruct (Z.le_gt_cases 0 i) as [Hi|Hi]; [apply round_ceil_nonneg, Hi|].
  pose proof precisionReuse_pos as HP.
  unfold ceil_div, Ceil. cbn [dec_i].
  assert (Hq : Z.quot i precisionReuse = - (- i / precisionReuse)).
  { rewrite <- (Z.opp_involutive i) at 1.
    rewrite Z.quot_opp_l by lia. rewrite Z.quot_div_nonneg by lia. reflexivity. }
  assert (Hr : Z.rem i precisionReuse = - (- i mod precisionReuse)).
  { rewrite <- (Z.opp_involutive i) at 1.
    rewrite Z.rem_opp_l by lia. rewrite Z.rem_mod_nonneg by lia. reflexivity. }
  pose proof (Z.mod_pos_bound (- i) precisionReuse HP) as Hm.
  pose proof (Z.div_pos (- i) precisionReuse ltac:(lia) HP) as Hd.
  assert (Hceil : (if Z.rem i precisionReuse =? 0
                   then mkDec (Z.quot i precisionReuse * precisionReuse)
                   else if Z.rem i precisionReuse <? 0
                        then mkDec (Z.quot i precisionReuse * precisionReuse)
                        else mkDec ((Z.quot i precisionReuse + 1) * precisionReuse))
                  = mkDec (Z.quot i precisionReuse * precisionReuse)).
  { destruct (Z.eqb_spec (Z.rem i precisionReuse) 0); [reflexivity|].
    destruct (Z.ltb_spec (Z.rem i precisionReuse) 0); [reflexivity|lia]. }
  rewrite Hceil. cbn [dec_i]. rewrite Hq.
  set (k := - i / precisionReuse) in *.
  unfold chopPrecisionAndRound.
  assert (Hpos : chopPrecisionAndRound_pos (k * precisionReuse) = k).
  { unfold chopPrecisionAndRound_pos.
    rewrite Z.rem_mod_nonneg, Z.quot_div_nonneg by nia.
    rewrite Z.mod_mul, Z.div_mul by lia. reflexivity. }
  destruct (Z.ltb_spec (- k * precisionReuse) 0) as [Hneg|Hzero].
  - replace (- (- k * precisionReuse)) with (k * precisionReuse) by lia.
    rewrite Hpos. reflexivity.
  - assert (k = 0) by nia. subst k. rewrite H. reflexivity.
Qed.

(** X3. Whenever the fee computation returns, the fee has exactly one coin
    per configured price, in order, with amount
    [ceil(price * int64(gasLimit))]; every amount is non-negative and
    every denom well-formed.  A negative amount is never returned: the
    computation panics instead. *)
Theorem calculateFees_exact (gasPrices : DecCoins) (gasLimit : Z) (fees : Coins) :
  calculateFees gasPrices gasLimit = Ret fees ->
  fees = map (fee_entry_int64 gasLimit) gasPrices /\
  Forall (fun coin => 0 <= Amount coin /\ ValidateDenom (Denom coin) = true) fees.
Proof.
  revert fees. induction gasPrices as [|price rest IH]; intros fees H.
  - cbn in H. injection H as <-. split; [reflexivity|constructor].
  - cbn [calculateFees] in H. unfold MulInt64 in H.
    destruct (maxDecBitLen <? _); [discriminate|]. cbn [obind] in H.
    unfold RoundInt in H. rewrite round_ceil in H.
    destruct (MaxBitLen <? _); [discriminate|]. cbn [obind] in H.
    unfold NewCoin in H.
    destruct (ValidateDenom (dc_Denom price)) eqn:Hd; [|discriminate].
    cbn [negb] in H.
    destruct (Z.ltb_spec
                (ceil_div (dec_i (dc_Amount price) * int64_of_uint64 gasLimit)
                   precisionReuse) 0) as [Hneg|Hpos]; [discriminate|].
    cbn [obind] in H.
    destruct (calculateFees rest gasLimit) as [fees'| |]; try discriminate.
    cbn [obind] in H. injection H as <-.
    destruct (IH fees' eq_refl) as [-> Hall].
    split; [reflexivity|].
    constructor; [|exact Hall].
    cbn [fee_entry_int64 fee_entry Amount Denom]. split; assumption.
Qed.

End FeeInvariants.

(** ** Reading a session id from the events *)

Section EventFacts.

Import utils.

Lemma first_event_spec (name : string) (items : list AbciEvent) :
  match first_event name items with
  | Some item =>
      exists before after,
        items = (before ++ item :: after)%list /\
        ev_Type item = name /\
        Forall (fun e => ev_Type e <> name) before
  | None => Forall (fun e => ev_Type e <> name) items
  end.
Proof.
  induction items as [|item rest IH]; cbn; [constructor|].
  destruct (String.eqb_spec (ev_Type item) name) as [E|E].
  - exists [], rest. repeat split; [exact E|constructor].
  - destruct (first_event name rest) as [found|].
    + destruct IH as [before [after [-> [Ht Hb]]]].
      exists (item :: before), after. repeat split; [exact Ht|].
      constructor; assumption.
    + constructor; assumption.
Qed.

Lemma first_event_found (name : string) (before after : list AbciEvent) (item : AbciEvent) :
  Forall (fun e => ev_Type e <> name) before ->
  ev_Type item = name ->
  first_event name (before ++ item :: after) = Some item.
Proof.
  intros Hb Ht. induction Hb as [|e before He _ IH]; cbn.
  - rewrite Ht, String.eqb_refl. reflexivity.
  - destruct (String.eqb_spec (ev_Type e) name); [contradiction|exact IH].
Qed.

Lemma first_attribute_found (key value : string) (before after : list EventAttribute) :
  Forall (fun a => attr_Key a <> key) before ->
  first_attribute key (before ++ mkAttribute key value :: after) = Some value.
Proof.
  intros Hb. induction Hb as [|a before Ha _ IH]; cbn.
  - rewrite String.eqb_refl. reflexivity.
  - destruct (String.eqb_spec (attr_Key a) key); [contradiction|exact IH].
Qed.

(** X4. [EventFromEvents] returns the first event of the named type: the
    events before it are of other types; and it fails with "event not
    found" exactly when no event has that type. *)
Theorem EventFromEvents_first (items : list AbciEvent) (t : EventRef) (name : string) :
  getEventName t = Ok name ->
  match EventFromEvents items t with
  | Ok item =>
      exists before after,
        items = (before ++ item :: after)%list /\
        ev_Type item = name /\
        Forall (fun e => ev_Type e <> name) before
  | Err e =>
      e = "event not found" /\ Forall (fun e => ev_Type e <> name) items
  end.
Proof.
  intros Hname. unfold EventFromEvents. rewrite Hname.
  pose proof (first_event_spec name items) as Hspec.
  destruct (first_event name items) as [item|]; [exact Hspec|].
  split; [reflexivity|exact Hspec].
Qed.

End EventFacts.

(** ** Parsing the id *)

Section ParseFacts.

Import utils.

Lemma decimal_value_ge (d : Decimal.uint) :
  forall acc, 0 <= acc -> acc <= decimal_value d acc.
Proof.
  induction d as [|l IH|l IH|l IH|l IH|l IH|l IH|l IH|l IH|l IH|l IH];
    intros acc Hacc; cbn [decimal_value]; [lia|..];
    (etransitivity; [|apply IH; lia]); lia.
Qed.

(** One round of the loop of [ParseUint] on a digit. *)
Lemma parse_loop_digit (c : ascii) (k : Z) (rest : string) (acc : Z) :
  strconv.digit c = Some k -> 0 <= k <= 9 ->
  0 <= acc <= strconv.maxUint64 ->
  strconv.parse_loop (String c rest) acc
  = if 10 * acc + k <=? strconv.maxUint64
    then strconv.parse_loop rest (10 * acc + k)
    else inl strconv.ErrRange.
Proof.
  intros Hd Hk Hacc.
  change (strconv.parse_loop (String c rest) acc)
    with (match strconv.digit c with
          | None => inl strconv.ErrSyntax
          | Some d =>
              if strconv.cutoff <=? acc then inl strconv.ErrRange
              else
                let n := (acc * 10) mod 2 ^ 64 in
                let n1 := (n + d) mod 2 ^ 64 in
                if (n1 <? n) || (strconv.maxUint64 <? n1) then inl strconv.ErrRange
                else strconv.parse_loop rest n1
          end).
  rewrite Hd. cbv zeta.
  assert (Hmax : strconv.maxUint64 = 18446744073709551615) by reflexivity.
  assert (Hcut : strconv.cutoff = 1844674407370955162) by reflexivity.
  assert (H64 : 2 ^ 64 = 18446744073709551616) by reflexivity.
  destruct (Z.leb_spec strconv.cutoff acc) as [Hc|Hc].
  - destruct (Z.leb_spec (10 * acc + k) strconv.maxUint64); [lia|reflexivity].
  - rewrite (Z.mod_small (acc * 10)) by lia.
    destruct (Z.leb_spec (10 * acc + k) strconv.maxUint64) as [Hfit|Hover].
    + rewrite (Z.mod_small (acc * 10 + k)) by lia.
      destruct (Z.ltb_spec (acc * 10 + k) (acc * 10)); [lia|].
      destruct (Z.ltb_spec strconv.maxUint64 (acc * 10 + k)); [lia|].
      cbn [orb]. f_equal. lia.
    + assert (Hwrap : (acc * 10 + k) mod 2 ^ 64 = acc * 10 + k - 2 ^ 64)
        by (symmetry; apply Z.mod_unique with (q := 1); lia).
      rewrite Hwrap.
      destruct (Z.ltb_spec (acc * 10 + k - 2 ^ 64) (acc * 10)); [|lia].
      reflexivity.
Qed.

(** The loop of [ParseUint] on a numeral: its value, or a range error
    when the value does not fit 64 bits. *)
Lemma parse_loop_numeral (d : Decimal.uint) :
  forall acc,
    0 <= acc <= strconv.maxUint64 ->
    strconv.parse_loop (NilEmpty.string_of_uint d) acc
    = if decimal_value d acc <=? strconv.maxUint64
      then inr (decimal_value d acc) else inl strconv.ErrRange.
Proof.
  induction d as [|l IH|l IH|l IH|l IH|l IH|l IH|l IH|l IH|l IH|l IH];
    intros acc Hacc;
    cbn [NilEmpty.string_of_uint decimal_value].
  1: { cbn [strconv.parse_loop].
       destruct (Z.leb_spec acc strconv.maxUint64); [reflexivity|lia]. }
  all: match goal with
       | |- strconv.parse_loop (String ?c _) ?a = if decimal_value _ (10 * ?a + ?k) <=? _ then _ else _ =>
           rewrite (parse_loop_digit c k) by (first [reflexivity|lia|assumption]);
           pose proof (decimal_value_ge l (10 * a + k) ltac:(lia)) as Hge;
           destruct (Z.leb_spec (10 * a + k) strconv.maxUint64) as [Hfit|Hover];
           [ apply IH; lia
           | destruct (Z.leb_spec (decimal_value l (10 * a + k)) strconv.maxUint64);
             [lia|reflexivity] ]
       | |- strconv.parse_loop (String ?c _) ?a = if decimal_value _ (10 * ?a) <=? _ then _ else _ =>
           rewrite (parse_loop_digit c 0) by (first [reflexivity|lia|assumption]);
           rewrite Z.add_0_r;
           pose proof (decimal_value_ge l (10 * a) ltac:(lia)) as Hge;
           destruct (Z.leb_spec (10 * a) strconv.maxUint64) as [Hfit|Hover];
           [ apply IH; lia
           | destruct (Z.leb_spec (decimal_value l (10 * a)) strconv.maxUint64);
             [lia|reflexivity] ]
       end.
Qed.

Lemma decimal_value_pos (d : Decimal.uint) :
  forall p, decimal_value d (Z.pos p) = Z.pos (Pos.of_uint_acc d p).
Proof.
  induction d as [|l IH|l IH|l IH|l IH|l IH|l IH|l IH|l IH|l IH|l IH];
    intros p; cbn [decimal_value Pos.of_uint_acc]; [reflexivity|..];
    match goal with
    | |- decimal_value l ?v = Z.pos (Pos.of_uint_acc l ?q) =>
        replace v with (Z.pos q) by lia; apply IH
    end.
Qed.

Lemma decimal_value_of_uint (d : Decimal.uint) :
  decimal_value d 0 = Z.of_N (Pos.of_uint d).
Proof.
  induction d as [|l IH|l IH|l IH|l IH|l IH|l IH|l IH|l IH|l IH|l IH];
    cbn [decimal_value Pos.of_uint]; [reflexivity|exact IH|..];
    cbn [Z.mul Z.add Z.of_N]; apply decimal_value_pos.
Qed.

(** Parsing the decimal text of a number past 64 bits is a range error. *)
Lemma parse_loop_string_of_Z_over (n : Z) :
  strconv.maxUint64 < n ->
  strconv.parse_loop (string_of_Z n) 0 = inl strconv.ErrRange.
Proof.
  intros Hn. unfold string_of_Z.
  destruct n as [|p|p]; [discriminate Hn| |discriminate Hn].
  cbn [Z.to_int NilZero.string_of_int].
  unfold NilZero.string_of_uint.
  pose proof (DecimalPos.Unsigned.to_uint_nonnil p) as Hnil.
  destruct (Pos.to_uint p) as [|l|l|l|l|l|l|l|l|l|l] eqn:E; [contradiction|..];
    rewrite <- E;
    (rewrite parse_loop_numeral by (unfold strconv.maxUint64; lia));
    rewrite decimal_value_of_uint, DecimalPos.Unsigned.of_to; cbn [Z.of_N];
    (destruct (Z.leb_spec (Z.pos p) strconv.maxUint64); [lia|reflexivity]).
Qed.

(** Parsing the decimal text of a 64-bit number gives the number back. *)
Lemma parse_loop_string_of_Z (n : Z) :
  0 <= n <= strconv.maxUint64 ->
  strconv.parse_loop (string_of_Z n) 0 = inr n.
Proof.
  intros Hn. unfold string_of_Z.
  destruct n as [|p|p]; [reflexivity| |lia].
  cbn [Z.to_int NilZero.string_of_int].
  unfold NilZero.string_of_uint.
  pose proof (DecimalPos.Unsigned.to_uint_nonnil p) as Hnil.
  destruct (Pos.to_uint p) as [|l|l|l|l|l|l|l|l|l|l] eqn:E; [contradiction|..];
    rewrite <- E;
    (rewrite parse_loop_numeral by (unfold strconv.maxUint64; lia));
    rewrite decimal_value_of_uint, DecimalPos.Unsigned.of_to; cbn [Z.of_N];
    (destruct (Z.leb_spec (Z.pos p) strconv.maxUint64); [reflexivity|lia]).
Qed.

End ParseFacts.

Section IdFacts.

Import utils.

Variable Quote : string -> string.

Lemma TrimRightByte_unquoted (s : string) :
  unquoted s = true -> TrimRightByte s quote_byte = s.
Proof.
  induction s as [|d rest IH]; intros H; [reflexivity|].
  unfold unquoted in H; cbn [all_chars] in H. apply andb_true_iff in H. destruct H as [Hd Hrest].
  cbn [TrimRightByte]. rewrite (IH Hrest).
  destruct rest; [|reflexivity].
  apply negb_true_iff in Hd. rewrite Hd. reflexivity.
Qed.

Lemma TrimRightByte_snoc (s : string) (c : ascii) :
  TrimRightByte (s ++ String c EmptyString) c = TrimRightByte s c.
Proof.
  induction s as [|d rest IH].
  - cbn. rewrite Ascii.eqb_refl. reflexivity.
  - change (String d rest ++ String c EmptyString)
      with (String d (rest ++ String c EmptyString)).
    cbn [TrimRightByte]. rewrite IH. reflexivity.
Qed.

Lemma Trim_unquoted (s : string) :
  unquoted s = true -> Trim s quote_byte = s.
Proof.
  intros H. unfold Trim. rewrite (TrimRightByte_unquoted s H).
  destruct s as [|d rest]; [reflexivity|].
  unfold unquoted in H; cbn [all_chars] in H. apply andb_true_iff in H. destruct H as [Hd _].
  apply negb_true_iff in Hd. cbn [TrimLeftByte]. rewrite Hd. reflexivity.
Qed.

Lemma Trim_quoted (s : string) :
  unquoted s = true -> Trim (quoted s) quote_byte = s.
Proof.
  intros H. unfold Trim, quoted.
  change (String quote_byte (s ++ String quote_byte EmptyString))
    with (String quote_byte s ++ String quote_byte EmptyString).
  rewrite TrimRightByte_snoc.
  cbn [TrimRightByte]. rewrite (TrimRightByte_unquoted s H).
  destruct s as [|d rest].
  - rewrite Ascii.eqb_refl. reflexivity.
  - cbn [TrimLeftByte]. rewrite Ascii.eqb_refl.
    unfold unquoted in H; cbn [all_chars] in H. apply andb_true_iff in H. destruct H as [Hd _].
    apply negb_true_iff in Hd. cbn [TrimLeftByte]. rewrite Hd. reflexivity.
Qed.

Lemma numeral_unquoted (d : Decimal.uint) :
  unquoted (NilEmpty.string_of_uint d) = true.
Proof.
  induction d as [|l IH|l IH|l IH|l IH|l IH|l IH|l IH|l IH|l IH|l IH];
    [reflexivity|..]; cbn [NilEmpty.string_of_uint]; unfold unquoted;
    cbn [all_chars]; apply andb_true_iff; (split; [reflexivity|exact IH]).
Qed.

Lemma string_of_Z_unquoted (n : Z) : 0 <= n -> unquoted (string_of_Z n) = true.
Proof.
  intros Hn. unfold string_of_Z.
  destruct n as [|p|p]; [reflexivity| |lia].
  cbn [Z.to_int NilZero.string_of_int]. unfold NilZero.string_of_uint.
  destruct (Pos.to_uint p); [reflexivity|..]; apply numeral_unquoted.
Qed.

Lemma string_of_Z_nonempty (n : Z) : 0 <= n -> string_of_Z n <> EmptyString.
Proof.
  intros Hn. unfold string_of_Z.
  destruct n as [|p|p]; [discriminate| |lia].
  cbn [Z.to_int NilZero.string_of_int]. unfold NilZero.string_of_uint.
  destruct (Pos.to_uint p); discriminate.
Qed.

Lemma ParseUint_string_of_Z (n : Z) :
  0 <= n <= strconv.maxUint64 ->
  strconv.ParseUint Quote (string_of_Z n) = Ok n.
Proof.
  intros Hn. unfold strconv.ParseUint.
  pose proof (string_of_Z_nonempty n ltac:(lia)) as Hne.
  pose proof (parse_loop_string_of_Z n Hn) as Hparse.
  destruct (string_of_Z n); [contradiction|].
  rewrite Hparse. reflexivity.
Qed.

(** X5. Round trip of a session id.  When the first event of the named
    type carries, as its first "id" attribute, the decimal text of a
    64-bit number, bare or in double quotes, [IDFromEvents] returns that
    number, whatever events and attributes follow. *)
Theorem IDFromEvents_round_trip
        (before after : list AbciEvent) (event : AbciEvent)
        (abefore aafter : list EventAttribute)
        (t : EventRef) (name value : string) (id : Z) :
  getEventName t = Ok name ->
  Forall (fun e => ev_Type e <> name) before ->
  ev_Type event = name ->
  ev_Attributes event = (abefore ++ mkAttribute "id" value :: aafter)%list ->
  Forall (fun a => attr_Key a <> "id") abefore ->
  value = string_of_Z id \/ value = quoted (string_of_Z id) ->
  0 <= id <= strconv.maxUint64 ->
  IDFromEvents Quote (before ++ event :: after) t = Ok id.
Proof.
  intros Hname Hbefore Htype Hattrs Habefore Hvalue Hid.
  unfold IDFromEvents, AttributeValueFromEvents, EventFromEvents.
  rewrite Hname, (first_event_found name before after event Hbefore Htype).
  unfold AttributeValueFromEvent.
  rewrite Hattrs, (first_attribute_found "id" value abefore aafter Habefore).
  assert (Htrim : Trim value quote_byte = string_of_Z id).
  { pose proof (string_of_Z_unquoted id ltac:(lia)) as Hu.
    destruct Hvalue as [->| ->]; [apply Trim_unquoted|apply Trim_quoted]; exact Hu. }
  rewrite Htrim, (ParseUint_string_of_Z id Hid). reflexivity.
Qed.

Lemma parse_loop_range (s : string) :
  forall acc n,
    0 <= acc <= strconv.maxUint64 ->
    strconv.parse_loop s acc = inr n ->
    0 <= n <= strconv.maxUint64.
Proof.
  induction s as [|c rest IH]; intros acc n Hacc H.
  - cbn in H. injection H as <-. exact Hacc.
  - cbn [strconv.parse_loop] in H.
    destruct (strconv.digit c) as [d|]; [|discriminate].
    destruct (strconv.cutoff <=? acc); [discriminate|]. cbv zeta in H.
    set (n0 := (acc * 10) mod 2 ^ 64) in *.
    set (n1 := (n0 + d) mod 2 ^ 64) in *.
    destruct (Z.ltb_spec n1 n0); [discriminate|].
    destruct (Z.ltb_spec strconv.maxUint64 n1); [discriminate|].
    cbn [orb] in H. apply (IH n1 n); [|exact H].
    split; [|assumption].
    apply Z.mod_pos_bound. reflexivity.
Qed.

(** An id read from events is within [uint64]. *)
Lemma IDFromEvents_bounds (items : list AbciEvent) (t : EventRef) (id : Z) :
  IDFromEvents Quote items t = Ok id -> 0 <= id <= strconv.maxUint64.
Proof.
  unfold IDFromEvents. intros H.
  destruct (AttributeValueFromEvents items t "id") as [value|e]; [|discriminate].
  unfold strconv.ParseUint in H.
  destruct (Trim value quote_byte) as [|c rest] eqn:E; [discriminate|].
  destruct (strconv.parse_loop (String c rest) 0) as [e|n] eqn:Hparse;
    [discriminate|].
  injection H as <-.
  apply (parse_loop_range (String c rest) 0 n); [|exact Hparse].
  unfold strconv.maxUint64. lia.
Qed.

(** X6. An id past 64 bits is an error, never a truncated id.  When
    the first event of the named type carries, as its first "id"
    attribute, the decimal text of a number greater than [2^64 - 1], bare
    or in double quotes, [IDFromEvents] fails with the range error of
    [ParseUint] for that text; no id is returned. *)
Theorem IDFromEvents_out_of_range
        (before after : list AbciEvent) (event : AbciEvent)
        (abefore aafter : list EventAttribute)
        (t : EventRef) (name value : string) (n : Z) :
  getEventName t = Ok name ->
  Forall (fun e => ev_Type e <> name) before ->
  ev_Type event = name ->
  ev_Attributes event = (abefore ++ mkAttribute "id" value :: aafter)%list ->
  Forall (fun a => attr_Key a <> "id") abefore ->
  value = string_of_Z n \/ value = quoted (string_of_Z n) ->
  strconv.maxUint64 < n ->
  IDFromEvents Quote (before ++ event :: after) t
  = Err ("failed to parse id from value: "
           ++ strconv.NumError Quote (string_of_Z n) strconv.ErrRange).
Proof.
  intros Hname Hbefore Htype Hattrs Habefore Hvalue Hn.
  assert (H0 : 0 <= n) by (unfold strconv.maxUint64 in Hn; lia).
  unfold IDFromEvents, AttributeValueFromEvents, EventFromEvents.
  rewrite Hname, (first_event_found name before after event Hbefore Htype).
  unfold AttributeValueFromEvent.
  rewrite Hattrs, (first_attribute_found "id" value abefore aafter Habefore).
  assert (Htrim : Trim value quote_byte = string_of_Z n).
  { pose proof (string_of_Z_unquoted n H0) as Hu.
    destruct Hvalue as [->| ->]; [apply Trim_unquoted|apply Trim_quoted]; exact Hu. }
  rewrite Htrim. unfold strconv.ParseUint.
  pose proof (string_of_Z_nonempty n H0) as Hne.
  pose proof (parse_loop_string_of_Z_over n Hn) as Hparse.
  destruct (string_of_Z n) eqn:E; [contradiction|].
  rewrite Hparse. reflexivity.
Qed.

(** X7. Only the first event of the named type is read: when it has no
    "id" attribute, [IDFromEvents] fails, whatever later events of that
    type carry. *)
Theorem IDFromEvents_first_event_only
        (before after : list AbciEvent) (event : AbciEvent)
        (t : EventRef) (name : string) :
  getEventName t = Ok name ->
  Forall (fun e => ev_Type e <> name) before ->
  ev_Type event = name ->
  Forall (fun a => attr_Key a <> "id") (ev_Attributes event) ->
  IDFromEvents Quote (before ++ event :: after) t
  = Err ("failed to get id from events: "
           ++ "failed to get attribute from event: " ++ "attribute not found").
Proof.
  intros Hname Hbefore Htype Hattrs.
  unfold IDFromEvents, AttributeValueFromEvents, EventFromEvents.
  rewrite Hname, (first_event_found name before after event Hbefore Htype).
  unfold AttributeValueFromEvent.
  assert (Hnone : first_attribute "id" (ev_Attributes event) = None).
  { induction Hattrs as [|a rest Ha _ IH]; [reflexivity|].
    cbn. destruct (String.eqb_spec (attr_Key a) "id"); [contradiction|exact IH]. }
  rewrite Hnone. reflexivity.
Qed.

End IdFacts.

(** ** One broadcast attempt, step by step *)

Section AttemptFacts.

Variable W : Type.
Variable env : Env W.

(** X8. What a signature is made of.  When [signTx] succeeds, the bytes
    it had signed are the sign bytes of the builder, with the placeholder
    signature in place, for the client's chain id and the account's
    number and sequence; the keyring was asked once, for the configured
    key name; and the builder that comes back differs from the one that
    went in only by its single signature, which holds the signed bytes
    under the public key of the key record, not the one the keyring
    returned. *)
Theorem signTx_success (c : Client) (txb txb' : TxBuilder) (key : KeyRecord)
        (acc : Account) (s s' : St W) :
  signTx env c txb key acc s = Ret (Ok txb', s') ->
  exists pubKey buf sig pubKey',
    Record_GetPubKey env key = Ok pubKey /\
    GetSignBytes env SIGN_MODE_DIRECT
      (mkSignerData (rpcChainID c) (acc_AccountNumber acc) (acc_Sequence acc))
      (put_Signatures [placeholder pubKey acc] txb) = Ok buf /\
    keyring_Sign env (txFromName c) buf (world s) = (Ok (sig, pubKey'), world s') /\
    added s s' [EvKeyringSign (txFromName c) buf] /\
    txb' = put_Signatures
             [mkSignatureV2 pubKey (mkSigData SIGN_MODE_DIRECT (Some sig))
                (acc_Sequence acc)] txb.
Proof.
  intros H. unfold_attempt H.
  assert (Hname : (if String.eqb (txFromName c) "" then txFromName c else txFromName c)
                  = txFromName c) by (destruct (String.eqb (txFromName c) ""); reflexivity).
  rewrite Hname in H.
  run_cases H.
  injection H as <- <-.
  repeat eexists; eauto.
Qed.

(** X9. The builder [prepareTx] returns: it carries the given messages,
    the configured memo, timeout height and fee granter, and exactly one
    signature, the placeholder, which has the public key of the key
    record, the sequence of the account, and no signature bytes.  Without
    simulation the gas limit is the configured one and no call leaves
    the process. *)
Theorem prepareTx_builder (c : Client) (key : KeyRecord) (acc : Account)
        (msgs : list Msg) (s s' : St W) (txb : TxBuilder) :
  prepareTx env c key acc msgs s = Ret (Ok txb, s') ->
  tx_Msgs txb = msgs /\
  tx_Memo txb = txMemo c /\
  tx_TimeoutHeight txb = txTimeoutHeight c /\
  tx_FeeGranter txb = txFeeGranterAddr c /\
  (exists pubKey,
      Record_GetPubKey env key = Ok pubKey /\
      tx_Signatures txb = [placeholder pubKey acc]) /\
  (txSimulateAndExecute c = false -> tx_GasLimit txb = txGas c /\ s' = s).
Proof.
  intros H. unfold_attempt H.
  destruct (DecCoins_IsZero (txGasPrices c)) eqn:Hz; cbn [negb] in H;
    destruct (txSimulateAndExecute c) eqn:Hsim;
    run_cases H; injection H as <- <-;
    (repeat split; try reflexivity; try discriminate;
     eexists; split; [reflexivity|reflexivity]).
Qed.

(** X10. The fee of the builder [prepareTx] returns always matches its
    gas limit: when some gas price is non-zero it is the fee
    [calculateFees] gives for the gas limit the builder carries, simulated
    or configured; when no gas price is non-zero (or none is configured)
    it is the configured fixed fee. *)
Theorem prepareTx_fee_matches_gas (c : Client) (key : KeyRecord) (acc : Account)
        (msgs : list Msg) (s s' : St W) (txb : TxBuilder) :
  prepareTx env c key acc msgs s = Ret (Ok txb, s') ->
  if DecCoins_IsZero (txGasPrices c) then tx_FeeAmount txb = txFees c
  else calculateFees (txGasPrices c) (tx_GasLimit txb) = Ret (tx_FeeAmount txb).
Proof.
  intros H. unfold_attempt H.
  destruct (DecCoins_IsZero (txGasPrices c)) eqn:Hz; cbn [negb] in H;
    destruct (txSimulateAndExecute c) eqn:Hsim;
    run_cases H; injection H as <- <-; cbn; try reflexivity; assumption.
Qed.

Lemma key_name (c : Client) :
  (if String.eqb (txFromName c) "" then txFromName c else txFromName c) = txFromName c.
Proof. destruct (String.eqb (txFromName c) ""); reflexivity. Qed.

(** X11. What a response means.  When an attempt returns the node's
    response, then the key was found under the configured name, every
    message that went on passed its validation, the account of the key's
    address was found, and the bytes the node answered encode a
    transaction that carries exactly those messages and one signature,
    made for the sequence of the account as it was just fetched; the
    broadcast is the last call of the attempt. *)
Theorem broadcastTxSync_success (c : Client) (msgs : list Msg) (s s' : St W)
        (res : ResultBroadcastTx) :
  broadcastTxSync env c msgs s = Ret (Ok res, s') ->
  exists key w0 addr acc w1 txb buf,
    keyring_Key env (txFromName c) (world s) = (Found key, w0) /\
    Record_GetAddress env key = Ok addr /\
    validate_from env 0 (wrap_authz c addr msgs) = None /\
    query_Account env addr w0 = (Found acc, w1) /\
    tx_Msgs txb = wrap_authz c addr msgs /\
    (exists pubKey sig,
        tx_Signatures txb
        = [mkSignatureV2 pubKey (mkSigData SIGN_MODE_DIRECT (Some sig))
             (acc_Sequence acc)]) /\
    TxEncoder env txb = Ok buf /\
    (exists w2, rpc_BroadcastTxSync env buf w2 = (Ok res, world s')) /\
    (exists evs, added s s' evs /\ last evs (EvSleep 0) = EvBroadcast buf).
Proof.
  intros H. unfold_pipeline H. rewrite key_name in H.
  destruct (DecCoins_IsZero (txGasPrices c)) eqn:Hz; cbn [negb] in H;
    destruct (txSimulateAndExecute c) eqn:Hsim;
    run_cases H; injection H as <- <-;
    do 7 eexists;
    (repeat match goal with |- _ /\ _ => split end;
     try eassumption; try reflexivity;
     [ eexists; eexists; reflexivity
     | eexists; cbn [world]; eassumption
     | give_events; reflexivity ]).
Qed.

(** The calls of one attempt. *)
Lemma broadcastTxSync_events (c : Client) (msgs : list Msg) (s s' : St W)
      (r : result ResultBroadcastTx) :
  broadcastTxSync env c msgs s = Ret (r, s') ->
  exists evs,
    added s s' evs /\
    attempt_shape (txSimulateAndExecute c) evs = true /\
    count is_key_lookup evs = 1%nat /\
    count is_sleep evs = 0%nat /\
    (count is_broadcast evs <= 1)%nat /\
    (forall res, r = Ok res -> count is_broadcast evs = 1%nat).
Proof.
  intros H. unfold_pipeline H. rewrite key_name in H.
  destruct (DecCoins_IsZero (txGasPrices c)) eqn:Hz; cbn [negb] in H;
    destruct (txSimulateAndExecute c) eqn:Hsim;
    run_cases H; injection H as <- <-;
    give_events;
    cbn; repeat split; try reflexivity; try lia; intros; discriminate.
Qed.

(** X12. The order of the calls of one attempt.  Whatever an attempt
    returns, the calls it has made are a beginning of the sequence: key
    lookup, account lookup, simulation (when, and only when, it is
    enabled), signing, broadcast.  There is exactly one key lookup and no
    delay; and a response is returned only when the broadcast was made. *)
Theorem broadcastTxSync_call_order (c : Client) (msgs : list Msg) (s s' : St W)
        (r : result ResultBroadcastTx) :
  broadcastTxSync env c msgs s = Ret (r, s') ->
  exists evs,
    added s s' evs /\
    attempt_shape (txSimulateAndExecute c) evs = true /\
    count is_key_lookup evs = 1%nat /\
    count is_sleep evs = 0%nat /\
    (count is_broadcast evs <= 1)%nat /\
    (forall res, r = Ok res -> count is_broadcast evs = 1%nat).
Proof. exact (broadcastTxSync_events c msgs s s' r). Qed.

Lemma validate_from_first_invalid (before after : list Msg) (m : Msg) (e : error) :
  forall i,
    Forall (fun x => Msg_ValidateBasic env x = None) before ->
    Msg_ValidateBasic env m = Some e ->
    validate_from env i (before ++ m :: after)
    = Some ("failed to validate message at index "
              ++ string_of_Z (Z.of_nat (i + List.length before)) ++ ": " ++ e).
Proof.
  induction before as [|x before IH]; intros i Hb Hm.
  - cbn [app validate_from List.length]. rewrite Hm, Nat.add_0_r. reflexivity.
  - inversion Hb as [|? ? Hx Hrest]; subst.
    cbn [app validate_from List.length]. rewrite Hx.
    rewrite (IH (Datatypes.S i) Hrest Hm).
    replace (Datatypes.S i + List.length before)%nat
      with (i + Datatypes.S (List.length before))%nat by lia.
    reflexivity.
Qed.

(** X13. Validation comes before the network.  When a message that goes
    on is invalid, the attempt fails with the index of the first such
    message and the text of its error, and has made no call but the key
    lookup: no account lookup, no simulation, no broadcast.  With an
    authorization granter configured the index is always 0, since the
    one wrapped message is all that is validated. *)
Theorem broadcastTxSync_invalid_message
        (c : Client) (msgs before after : list Msg) (m : Msg) (e : error)
        (s : St W) (key : KeyRecord) (w : W) (addr : AccAddress) :
  keyring_Key env (txFromName c) (world s) = (Found key, w) ->
  Record_GetAddress env key = Ok addr ->
  wrap_authz c addr msgs = (before ++ m :: after)%list ->
  Forall (fun x => Msg_ValidateBasic env x = None) before ->
  Msg_ValidateBasic env m = Some e ->
  broadcastTxSync env c msgs s
  = Ret (Err ("failed to validate message at index "
                ++ string_of_Z (Z.of_nat (List.length before)) ++ ": " ++ e),
         after_key_lookup (txFromName c) w s) /\
  (AccAddress_Empty (txAuthzGranterAddr c) = false -> List.length before = 0%nat).
Proof.
  intros Hkey Haddr Hwrap Hbefore Hm. split.
  - unfold broadcastTxSync, bind. rewrite Key_txFromName, Hkey, Haddr, Hwrap.
    rewrite (validate_from_first_invalid before after m e 0%nat Hbefore Hm).
    reflexivity.
  - intros Hg. unfold wrap_authz in Hwrap. rewrite Hg in Hwrap. cbn [negb] in Hwrap.
    destruct before as [|x before]; [reflexivity|].
    cbn in Hwrap. injection Hwrap as _ Hnil.
    destruct before; discriminate.
Qed.

End AttemptFacts.

(** ** What a retried run has done when it returns *)

Section RetryReturns.

Variable S : Type.
Variable cfg : retry.Config S.
Variable f : M S (option error).

(** A bounded loop that returns has made some [n] retried attempts and
    then one more, whose result it returns. *)
Lemma loop_returns (r : nat) :
  forall (s s1 : S) (res : option error),
    retry.loop cfg f (Datatypes.S r) s = Ret (res, s1) ->
    exists n s_n,
      (n <= r)%nat /\
      retry_runs.after_retries cfg f n s = Some s_n /\
      f s_n = Ret (res, s1) /\
      (forall e, res = Some e -> retry.retryIf cfg e = false \/ n = r).
Proof.
  induction r as [|r IH]; intros s s1 res H.
  - cbn [retry.loop] in H. unfold bind, ret in H.
    destruct (f s) as [[[e|] s0]| |] eqn:Hf; try discriminate.
    + exists 0%nat, s. repeat split; [lia| |intros; right; reflexivity].
      destruct (retry.retryIf cfg e); cbn [negb] in H; congruence.
    + exists 0%nat, s. repeat split; [lia|congruence|intros; right; reflexivity].
  - change (retry.loop cfg f (Datatypes.S (Datatypes.S r)) s)
      with (bind f (fun e0 =>
              match e0 with
              | None => ret None
              | Some err =>
                  if negb (retry.retryIf cfg err) then ret (Some err)
                  else bind (retry.timer cfg (retry.delay cfg))
                         (fun _ => retry.loop cfg f (Datatypes.S r))
              end) s) in H.
    unfold bind, ret in H.
    destruct (f s) as [[[e|] s0]| |] eqn:Hf; try discriminate.
    + destruct (retry.retryIf cfg e) eqn:Hr; cbn [negb] in H.
      * destruct (retry.timer cfg (retry.delay cfg) s0) as [[u s2]| |] eqn:Ht;
          try discriminate.
        destruct (IH s2 s1 res H) as (n & s_n & Hn & Hrun & Hlast & Hwhy).
        exists (Datatypes.S n), s_n. repeat split; [lia| |exact Hlast|].
        -- cbn [retry_runs.after_retries]. rewrite Hf, Hr, Ht. exact Hrun.
        -- intros e0 He0. destruct (Hwhy e0 He0) as [Hrej| ->]; [left; exact Hrej|right; reflexivity].
      * exists 0%nat, s. repeat split; [lia|congruence|].
        intros e0 He0. left. congruence.
    + exists 0%nat, s. repeat split; [lia|congruence|intros; congruence].
Qed.

(** The unbounded loop that returns has done the same; its last error,
    if any, is one [retryIf] rejects. *)
Lemma forever_returns (k : nat) :
  forall (s s1 : S) (res : option error),
    retry.forever cfg f k s = Ret (res, s1) ->
    exists n s_n,
      (n < k)%nat /\
      retry_runs.after_retries cfg f n s = Some s_n /\
      f s_n = Ret (res, s1) /\
      (forall e, res = Some e -> retry.retryIf cfg e = false).
Proof.
  induction k as [|k IH]; intros s s1 res H; [discriminate|].
  cbn [retry.forever] in H. unfold bind, ret in H.
  destruct (f s) as [[[e|] s0]| |] eqn:Hf; try discriminate.
  - destruct (retry.retryIf cfg e) eqn:Hr; cbn [negb] in H.
    + destruct (retry.timer cfg (retry.delay cfg) s0) as [[u s2]| |] eqn:Ht;
        try discriminate.
      destruct (IH s2 s1 res H) as (n & s_n & Hn & Hrun & Hlast & Hwhy).
      exists (Datatypes.S n), s_n. repeat split; [lia| |exact Hlast|exact Hwhy].
      cbn [retry_runs.after_retries]. rewrite Hf, Hr, Ht. exact Hrun.
    + exists 0%nat, s. repeat split; [lia|congruence|].
      intros e0 He0. congruence.
  - exists 0%nat, s. repeat split; [lia|congruence|intros; congruence].
Qed.

(** [retry.Do] returns what its last attempt returned, within the budget;
    an error it returns was rejected by [retryIf] or came from the last
    attempt of the budget. *)
Lemma Do_returns (fuel : nat) (s s1 : S) (res : option error) :
  retry.Do cfg f fuel s = Ret (res, s1) ->
  exists n s_n,
    retry_runs.within_budget cfg fuel n /\
    retry_runs.after_retries cfg f n s = Some s_n /\
    f s_n = Ret (res, s1) /\
    (forall e, res = Some e ->
               retry.retryIf cfg e = false \/ retry.attempts cfg = Datatypes.S n).
Proof.
  unfold retry.Do, retry_runs.within_budget.
  destruct (retry.attempts cfg) as [|a] eqn:Ha; intros H.
  - destruct (forever_returns fuel s s1 res H) as (n & s_n & Hn & Hrun & Hlast & Hwhy).
    exists n, s_n. repeat split; [right; split; [reflexivity|exact Hn]|exact Hrun|exact Hlast|].
    intros e He. left. exact (Hwhy e He).
  - destruct (loop_returns a s s1 res H) as (n & s_n & Hn & Hrun & Hlast & Hwhy).
    exists n, s_n. repeat split; [left; lia|exact Hrun|exact Hlast|].
    intros e He. destruct (Hwhy e He) as [Hrej| ->]; [left; exact Hrej|right; reflexivity].
Qed.

End RetryReturns.

Section CountFacts.

Lemma count_app (p : Event -> bool) (a b : list Event) :
  count p (a ++ b) = (count p a + count p b)%nat.
Proof. unfold count. rewrite filter_app, length_app. reflexivity. Qed.

Lemma count_zero_filter (p : Event -> bool) (evs : list Event) :
  count p evs = 0%nat -> filter p evs = [].
Proof. unfold count. destruct (filter p evs); [reflexivity|discriminate]. Qed.

Lemma added_refl (W : Type) (s : St W) : added s s [].
Proof. unfold added. rewrite app_nil_r. reflexivity. Qed.

Lemma added_trans (W : Type) (s s1 s2 : St W) (a b : list Event) :
  added s s1 a -> added s1 s2 b -> added s s2 (a ++ b).
Proof. unfold added. intros -> ->. rewrite app_assoc. reflexivity. Qed.

Lemma added_sleep (W : Type) (d : Z) (s : St W) :
  added s (state_after_sleep d s) [EvSleep d].
Proof. reflexivity. Qed.

End CountFacts.

Section BroadcastReturns.

Variable W : Type.
Variable env : Env W.

(** The generic run of the closure, read back as a run of attempts. *)
Lemma after_retries_sequence (c : Client) (msgs : list Msg) (n : nat) :
  forall (s s' : St W) (l l' : Locals ResultBroadcastTx),
    retry_runs.after_retries (broadcast_retry_config W c)
      (BroadcastTxSync_retryFunc env c msgs) n (s, l) = Some (s', l') ->
    after_sequence_retries env c msgs n s = Some s'.
Proof.
  induction n as [|n IH]; intros s s' l l' Hrun.
  - cbn in Hrun. injection Hrun as -> _. reflexivity.
  - cbn [retry_runs.after_retries] in Hrun.
    rewrite BroadcastTxSync_retryFunc_run in Hrun.
    cbn [after_sequence_retries].
    destruct (broadcastTxSync env c msgs s) as [[[res|e] s1]| |];
      try discriminate.
    destruct (IsTxInMempoolCacheError e); cbn [negb andb]; try discriminate.
    cbn [broadcast_retry_config retry.retryIf retry.timer retry.delay] in Hrun.
    unfold BroadcastTxSync_retryIfFunc in Hrun.
    destruct (IsWrongSequenceError e); try discriminate.
    rewrite lift_sleep_state in Hrun. exact (IH _ _ _ _ Hrun).
Qed.

(** What [n] retried attempts leave in the trace. *)
Lemma after_sequence_retries_events (c : Client) (msgs : list Msg) (n : nat) :
  forall (s s_n : St W),
    after_sequence_retries env c msgs n s = Some s_n ->
    exists evs,
      added s s_n evs /\
      count is_key_lookup evs = n /\
      filter is_sleep evs = repeat (EvSleep (txBroadcastRetryDelay c)) n /\
      (count is_broadcast evs <= n)%nat.
Proof.
  induction n as [|n IH]; intros s s_n Hrun.
  - cbn in Hrun. injection Hrun as <-. exists []. split; [apply added_refl|].
    repeat split; reflexivity || (cbn; lia).
  - cbn [after_sequence_retries] in Hrun.
    destruct (broadcastTxSync env c msgs s) as [[[res|e] s1]| |] eqn:Hatt;
      try discriminate.
    destruct (negb (IsTxInMempoolCacheError e) && IsWrongSequenceError e);
      try discriminate.
    destruct (broadcastTxSync_events W env c msgs s s1 _ Hatt)
      as (evs1 & Hadd1 & _ & Hk1 & Hs1 & Hb1 & _).
    destruct (IH _ _ Hrun) as (evs2 & Hadd2 & Hk2 & Hs2 & Hb2).
    exists (evs1 ++ [EvSleep (txBroadcastRetryDelay c)] ++ evs2)%list.
    split.
    + eapply added_trans; [exact Hadd1|].
      eapply added_trans; [apply added_sleep|exact Hadd2].
    + rewrite !count_app, !filter_app, Hk1, Hk2, Hs2.
      rewrite (count_zero_filter _ _ Hs1).
      repeat split; cbn; try reflexivity. lia.
Qed.

(** The result of a run is the result of its last attempt. *)
Lemma BroadcastTxSync_returns (fuel : nat) (c : Client) (msgs : list Msg)
      (s s' : St W) (resp : option ResultBroadcastTx) (err : option error) :
  BroadcastTxSync env fuel c msgs s = Ret ((resp, err), s') ->
  exists n s_n r,
    retry_runs.within_budget (broadcast_retry_config W c) fuel n /\
    after_sequence_retries env c msgs n s = Some s_n /\
    broadcastTxSync env c msgs s_n = Ret (r, s') /\
    match r with
    | Ok res => resp = Some res /\ err = None
    | Err e =>
        resp = None /\
        if IsTxInMempoolCacheError e then err = None
        else err = Some (wrap "tx sync broadcast failed after retries: " e) /\
             (IsWrongSequenceError e = false \/
              txBroadcastRetryAttempts c = Datatypes.S n)
    end.
Proof.
  rewrite BroadcastTxSync_unfold. intros H.
  destruct (retry.Do _ _ _ _) as [[res [s1 l1]]| |] eqn:HDo; try discriminate.
  destruct (Do_returns _ _ _ _ _ _ _ HDo) as (n & [s_n l_n] & Hb & Hrun & Hlast & Hwhy).
  exists n, s_n.
  rewrite BroadcastTxSync_retryFunc_run in Hlast.
  pose proof (after_retries_sequence c msgs n _ _ _ _ Hrun) as Hseq.
  destruct (broadcastTxSync env c msgs s_n) as [[[r|e] s2]| |] eqn:Hatt;
    try discriminate.
  - injection Hlast as <- <- <-. injection H as <- <- <-.
    exists (Ok r). repeat split; assumption || reflexivity.
  - injection Hlast as <- <- <-.
    exists (Err e). split; [exact Hb|]. split; [exact Hseq|].
    destruct (IsTxInMempoolCacheError e) eqn:Hm.
    + injection H as <- <- <-. repeat split; reflexivity.
    + injection H as <- <- <-. repeat split; try reflexivity.
      destruct (Hwhy e eq_refl) as [Hrej|Hlast].
      * left. cbn in Hrej. unfold BroadcastTxSync_retryIfFunc in Hrej.
        destruct (IsWrongSequenceError e); [discriminate|reflexivity].
      * right. exact Hlast.
Qed.

(** X14. The result of [BroadcastTxSync] is the result of its last
    attempt.  Whenever it returns, some [n] attempts within the budget
    failed with a sequence error and were retried, and the one after them
    decided: a response is returned as it is, with no error; a
    mempool-cache error gives neither response nor error; any other error
    is returned under the prefix, with no response, and it either is no
    sequence error or came from the last attempt of the budget.  So a
    response and an error are never returned together, and neither of the
    two is returned only after a mempool-cache error. *)
Theorem BroadcastTxSync_result_of_last_attempt
        (fuel : nat) (c : Client) (msgs : list Msg)
        (s s' : St W) (resp : option ResultBroadcastTx) (err : option error) :
  BroadcastTxSync env fuel c msgs s = Ret ((resp, err), s') ->
  exists n s_n r,
    retry_runs.within_budget (broadcast_retry_config W c) fuel n /\
    after_sequence_retries env c msgs n s = Some s_n /\
    broadcastTxSync env c msgs s_n = Ret (r, s') /\
    match r with
    | Ok res => resp = Some res /\ err = None
    | Err e =>
        resp = None /\
        if IsTxInMempoolCacheError e then err = None
        else err = Some (wrap "tx sync broadcast failed after retries: " e) /\
             (IsWrongSequenceError e = false \/
              txBroadcastRetryAttempts c = Datatypes.S n)
    end.
Proof. exact (BroadcastTxSync_returns fuel c msgs s s' resp err). Qed.

(** X15. The bound on the work of [BroadcastTxSync].  Whenever it
    returns it has run the attempt [n + 1] times for some [n] within the
    budget (so at most the configured number of times, when that is not
    zero): the trace holds [n + 1] key lookups, at most [n + 1]
    broadcasts, and exactly [n] delays, each of the configured length. *)
Theorem BroadcastTxSync_attempt_bound
        (fuel : nat) (c : Client) (msgs : list Msg)
        (s s' : St W) (r : option ResultBroadcastTx * option error) :
  BroadcastTxSync env fuel c msgs s = Ret (r, s') ->
  exists n evs,
    retry_runs.within_budget (broadcast_retry_config W c) fuel n /\
    added s s' evs /\
    count is_key_lookup evs = Datatypes.S n /\
    filter is_sleep evs = repeat (EvSleep (txBroadcastRetryDelay c)) n /\
    (count is_broadcast evs <= Datatypes.S n)%nat.
Proof.
  destruct r as [resp err]. intros H.
  destruct (BroadcastTxSync_returns fuel c msgs s s' resp err H)
    as (n & s_n & r & Hb & Hrun & Hatt & _).
  destruct (after_sequence_retries_events c msgs n s s_n Hrun)
    as (evs1 & Hadd1 & Hk1 & Hs1 & Hb1).
  destruct (broadcastTxSync_events W env c msgs s_n s' r Hatt)
    as (evs2 & Hadd2 & _ & Hk2 & Hs2 & Hb2 & _).
  exists n, (evs1 ++ evs2)%list.
  split; [exact Hb|]. split; [eapply added_trans; eassumption|].
  rewrite !count_app, filter_app, Hk1, Hk2, Hs1, (count_zero_filter _ _ Hs2), app_nil_r.
  repeat split; lia.
Qed.

End BroadcastReturns.

Section QueryReturns.

Variable W : Type.
Variable env : Env W.

(** One query: at most one call, and only when the rpc client could be
    made. *)
Lemma tx_events (c : Client) (hash : bytes) (s s' : St W) (r : result ResultTx) :
  tx env c hash s = Ret (r, s') ->
  match HTTP env c with
  | Some e => s' = s /\ r = Err (wrap "failed to create rpc client: " e)
  | None => added s s' [EvTx hash (queryProve c)]
  end.
Proof.
  unfold tx. destruct (HTTP env c) as [e|].
  - unfold ret. intros H. injection H as <- <-. split; reflexivity.
  - unfold bind, call, ret.
    destruct (rpc_Tx env hash (queryProve c) (world s)) as [[res|e] w'];
      intros H; injection H as <- <-; reflexivity.
Qed.

Lemma after_retries_queries (c : Client) (hash : bytes) (n : nat) :
  forall (s s' : St W) (l l' : Locals ResultTx),
    retry_runs.after_retries (query_retry_config W c)
      (Tx_retryFunc env c hash) n (s, l) = Some (s', l') ->
    after_query_retries env c hash n s = Some s'.
Proof.
  induction n as [|n IH]; intros s s' l l' Hrun.
  - cbn in Hrun. injection Hrun as -> _. reflexivity.
  - cbn [retry_runs.after_retries] in Hrun.
    rewrite Tx_retryFunc_run in Hrun.
    cbn [after_query_retries].
    destruct (tx env c hash s) as [[[res|e] s1]| |]; try discriminate.
    cbn [query_retry_config retry.retryIf retry.timer retry.delay Tx_retryIfFunc]
      in Hrun.
    rewrite lift_sleep_state in Hrun. exact (IH _ _ _ _ Hrun).
Qed.

(** What [n] failed queries leave in the trace. *)
Lemma after_query_retries_events (c : Client) (hash : bytes) (n : nat) :
  forall (s s_n : St W),
    after_query_retries env c hash n s = Some s_n ->
    added s s_n
      (match HTTP env c with
       | None => polling hash (queryProve c) (txQueryRetryDelay c) n
       | Some _ => repeat (EvSleep (txQueryRetryDelay c)) n
       end).
Proof.
  induction n as [|n IH]; intros s s_n Hrun.
  - cbn in Hrun. injection Hrun as <-.
    destruct (HTTP env c); apply added_refl.
  - cbn [after_query_retries] in Hrun.
    destruct (tx env c hash s) as [[[res|e] s1]| |] eqn:Hq; try discriminate.
    pose proof (tx_events c hash s s1 _ Hq) as Hev.
    pose proof (IH _ _ Hrun) as Hrest.
    destruct (HTTP env c) as [he|].
    + destruct Hev as [-> _].
      exact (added_trans W _ _ _ _ _ (added_sleep W _ s) Hrest).
    + exact (added_trans W _ _ _ _ _ Hev
               (added_trans W _ _ _ _ _ (added_sleep W _ s1) Hrest)).
Qed.

(** The result of a polling is the result of its last query. *)
Lemma Tx_last_query (fuel : nat) (c : Client) (hash : bytes)
      (s s' : St W) (res : option ResultTx) (err : option error) :
  Tx env fuel c hash s = Ret ((res, err), s') ->
  exists n s_n r,
    retry_runs.within_budget (query_retry_config W c) fuel n /\
    after_query_retries env c hash n s = Some s_n /\
    tx env c hash s_n = Ret (r, s') /\
    match r with
    | Ok t => res = Some t /\ err = None
    | Err e =>
        res = None /\
        err = Some (wrap "tx query failed after retries: " e) /\
        txQueryRetryAttempts c = Datatypes.S n
    end.
Proof.
  rewrite Tx_unfold. intros H.
  destruct (retry.Do _ _ _ _) as [[r0 [s1 l1]]| |] eqn:HDo; try discriminate.
  destruct (Do_returns _ _ _ _ _ _ _ HDo) as (n & [s_n l_n] & Hb & Hrun & Hlast & Hwhy).
  exists n, s_n.
  rewrite Tx_retryFunc_run in Hlast.
  pose proof (after_retries_queries c hash n _ _ _ _ Hrun) as Hseq.
  destruct (tx env c hash s_n) as [[[t|e] s2]| |] eqn:Hatt; try discriminate.
  - injection Hlast as <- <- <-. injection H as <- <- <-.
    exists (Ok t). repeat split; assumption || reflexivity.
  - injection Hlast as <- <- <-. injection H as <- <- <-.
    exists (Err e). repeat split; try assumption; try reflexivity.
    destruct (Hwhy e eq_refl) as [Hrej|Hlast]; [discriminate Hrej|exact Hlast].
Qed.

(** X16. The result of [Tx] is the result of its last query.  Whenever
    it returns, some [n] queries within the budget failed and were
    retried, and the one after them decided: a transaction found is
    returned with no error; an error is returned under the prefix, with
    no result, and only when that query was the last of the budget.  So
    [Tx] returns exactly one of the two, and gives up only after the
    configured number of queries. *)
Theorem Tx_result_of_last_query
        (fuel : nat) (c : Client) (hash : bytes)
        (s s' : St W) (res : option ResultTx) (err : option error) :
  Tx env fuel c hash s = Ret ((res, err), s') ->
  exists n s_n r,
    retry_runs.within_budget (query_retry_config W c) fuel n /\
    after_query_retries env c hash n s = Some s_n /\
    tx env c hash s_n = Ret (r, s') /\
    match r with
    | Ok t => res = Some t /\ err = None
    | Err e =>
        res = None /\
        err = Some (wrap "tx query failed after retries: " e) /\
        txQueryRetryAttempts c = Datatypes.S n
    end.
Proof. exact (Tx_last_query fuel c hash s s' res err). Qed.

(** X17. The trace of a polling.  Whenever [Tx] returns it has asked
    the node [n + 1] times, for some [n] within the budget, always for
    the given hash and with the client's prove flag, and has waited the
    configured query delay between two queries, not before the first nor
    after the last; it has made no other call.  When the rpc client
    cannot be made, the node is never asked: the delays are all that
    happens. *)
Theorem Tx_trace (fuel : nat) (c : Client) (hash : bytes) (s s' : St W)
        (r : option ResultTx * option error) :
  Tx env fuel c hash s = Ret (r, s') ->
  exists n,
    retry_runs.within_budget (query_retry_config W c) fuel n /\
    added s s'
      (match HTTP env c with
       | None => polling hash (queryProve c) (txQueryRetryDelay c) n
                   ++ [EvTx hash (queryProve c)]
       | Some _ => repeat (EvSleep (txQueryRetryDelay c)) n
       end).
Proof.
  destruct r as [res err]. intros H.
  destruct (Tx_last_query fuel c hash s s' res err H)
    as (n & s_n & r & Hb & Hrun & Hatt & _).
  exists n. split; [exact Hb|].
  pose proof (after_query_retries_events c hash n s s_n Hrun) as Hev.
  pose proof (tx_events c hash s_n s' r Hatt) as Hl.
  destruct (HTTP env c) as [he|].
  - destruct Hl as [-> _]. exact Hev.
  - exact (added_trans W _ _ _ _ _ Hev Hl).
Qed.

(** A polling does not panic. *)
Lemma Do_tx_no_panic (c : Client) (hash : bytes) :
  forall (fuel : nat) (sl : St W * Locals ResultTx),
    panics (retry.forever (query_retry_config W c) (Tx_retryFunc env c hash) fuel sl)
    = false /\
    panics (retry.loop (query_retry_config W c) (Tx_retryFunc env c hash) fuel sl)
    = false.
Proof.
  induction fuel as [|k IH]; intros [s l]; [split; reflexivity|].
  destruct (tx_returns W env c hash s) as (r & s1 & Hq).
  split.
  - cbn [retry.forever]. unfold bind. rewrite Tx_retryFunc_run, Hq.
    destruct r as [t|e]; [reflexivity|].
    cbn [query_retry_config retry.retryIf retry.timer retry.delay Tx_retryIfFunc negb].
    rewrite lift_sleep_state. apply IH.
  - cbn [retry.loop]. unfold bind. rewrite Tx_retryFunc_run, Hq.
    destruct r as [t|e]; [reflexivity|].
    cbn [query_retry_config retry.retryIf retry.timer retry.delay Tx_retryIfFunc negb].
    destruct k as [|k]; [reflexivity|].
    rewrite lift_sleep_state. apply IH.
Qed.

Lemma Tx_no_panic (fuel : nat) (c : Client) (hash : bytes) (s : St W) :
  panics (Tx env fuel c hash s) = false.
Proof.
  rewrite Tx_unfold.
  assert (Hd : panics (retry.Do (query_retry_config W c) (Tx_retryFunc env c hash)
                         fuel (s, mkLocals None None)) = false).
  { unfold retry.Do. destruct (retry.attempts _); apply Do_tx_no_panic. }
  destruct (retry.Do _ _ _ _) as [[[e|] [s1 l1]]| |]; try reflexivity.
  discriminate Hd.
Qed.

(** X18. Waiting for inclusion never panics.  After a broadcast that
    returned a response, [BroadcastTxBlock] reads the result of [Tx]
    through a pointer that is nil when [Tx] returns neither result nor
    error; [Tx] never does, so this second dereference is safe, whatever
    the node answers and whatever the budget. *)
Theorem confirm_never_panics (fuel : nat) (c : Client) (resp : ResultBroadcastTx)
        (s : St W) :
  panics (confirm env fuel c resp s) = false.
Proof.
  unfold confirm. destruct (negb (rb_Code resp =? CodeTypeOK)); [reflexivity|].
  unfold bind.
  pose proof (Tx_no_panic fuel c (rb_Hash resp) s) as Hp.
  destruct (Tx env fuel c (rb_Hash resp) s) as [[[res err] s1]| |] eqn:HTx;
    try reflexivity; try discriminate Hp.
  cbn [fst snd].
  destruct err as [err|]; [reflexivity|].
  destruct (Tx_last_query fuel c (rb_Hash resp) s s1 res None HTx)
    as (n & s_n & r & _ & _ & _ & Hr).
  destruct r as [t|e].
  - destruct Hr as [-> _].
    destruct (negb (ExecTxResult_IsOK (rt_TxResult t))); reflexivity.
  - destruct Hr as (_ & Hr & _). discriminate Hr.
Qed.

(** What the orchestrator has seen when it returns. *)
Lemma BroadcastTxBlock_returns
        (fuel : nat) (c : Client) (msgs : list Msg) (s s' : St W)
        (resp : option ResultBroadcastTx) (res : option ResultTx)
        (err : option error) :
  BroadcastTxBlock env fuel c msgs s = Ret ((resp, res, err), s') ->
  (forall t, res = Some t ->
     exists r s1 qerr,
       resp = Some r /\ rb_Code r = CodeTypeOK /\
       BroadcastTxSync env fuel c msgs s = Ret ((Some r, None), s1) /\
       Tx env fuel c (rb_Hash r) s1 = Ret ((Some t, qerr), s') /\
       (err = None -> tr_Code (rt_TxResult t) = CodeTypeOK)) /\
  (err = None -> exists t, res = Some t).
Proof.
  unfold BroadcastTxBlock, bind. intros H.
  destruct (BroadcastTxSync env fuel c msgs s) as [[[r0 e0] s1]| |] eqn:Hs;
    try discriminate.
  cbn [fst snd] in H.
  destruct e0 as [e0|].
  { injection H as <- <- <- <-. split; [intros t Ht|intros He]; discriminate. }
  destruct r0 as [r|]; [|discriminate].
  unfold confirm in H.
  destruct (rb_Code r =? CodeTypeOK) eqn:Hcode; cbn [negb] in H.
  2:{ unfold ret in H. injection H as <- <- <- <-.
      split; [intros t Ht|intros He]; discriminate. }
  apply Z.eqb_eq in Hcode.
  unfold bind in H.
  destruct (Tx env fuel c (rb_Hash r) s1) as [[[t0 qerr] s2]| |] eqn:HTx;
    try discriminate.
  cbn [fst snd] in H.
  destruct qerr as [qe|].
  { unfold ret in H. injection H as <- <- <- <-.
    split; [intros t Ht|intros He]; discriminate. }
  destruct t0 as [t|]; [|discriminate].
  unfold ExecTxResult_IsOK in H.
  destruct (tr_Code (rt_TxResult t) =? CodeTypeOK) eqn:Hexec; cbn [negb] in H;
    unfold ret in H; injection H as <- <- <- <-.
  - apply Z.eqb_eq in Hexec. split.
    + intros t' Ht'. injection Ht' as <-.
      exists r, s1, None. repeat split; try assumption; try reflexivity.
      intros _. exact Hexec.
    + intros _. exists t. reflexivity.
  - split.
    + intros t' Ht'. injection Ht' as <-.
      exists r, s1, None. repeat split; try assumption; try reflexivity.
      intros He. discriminate He.
    + intros He. discriminate He.
Qed.

(** X19. What a result of [BroadcastTxBlock] means.  When it returns no
    error, both results are there, the node accepted the transaction
    (code OK) and the chain executed it (code OK), and the transaction
    polled for is the one whose hash the node returned.  And whenever a
    transaction result is returned, with or without an error, the
    response of an accepted broadcast comes with it. *)
Theorem BroadcastTxBlock_result_sound
        (fuel : nat) (c : Client) (msgs : list Msg) (s s' : St W)
        (resp : option ResultBroadcastTx) (res : option ResultTx)
        (err : option error) :
  BroadcastTxBlock env fuel c msgs s = Ret ((resp, res, err), s') ->
  (forall t, res = Some t ->
     exists r s1 qerr,
       resp = Some r /\ rb_Code r = CodeTypeOK /\
       BroadcastTxSync env fuel c msgs s = Ret ((Some r, None), s1) /\
       Tx env fuel c (rb_Hash r) s1 = Ret ((Some t, qerr), s') /\
       (err = None -> tr_Code (rt_TxResult t) = CodeTypeOK)) /\
  (err = None -> exists t, res = Some t).
Proof.
  exact (BroadcastTxBlock_returns fuel c msgs s s' resp res err).
Qed.

End QueryReturns.

(** ** Where an attempt can panic *)

Section PanicFacts.

Variable W : Type.
Variable env : Env W.

(** The retry loop does not catch a panic of its first attempt. *)
Lemma Do_first_panics (S : Type) (cfg : retry.Config S) (f : M S (option error))
      (fuel : nat) (s : S) (msg : string) :
  f s = Panic msg ->
  (0 < retry.attempts cfg \/ 0 < fuel)%nat ->
  retry.Do cfg f fuel s = Panic msg.
Proof.
  intros Hf Hb. unfold retry.Do.
  destruct (retry.attempts cfg) as [|a].
  - destruct fuel as [|k]; [lia|].
    cbn [retry.forever]. unfold bind. rewrite Hf. reflexivity.
  - cbn [retry.loop]. unfold bind. rewrite Hf. reflexivity.
Qed.

(** X20. A panic of the fee computation escapes.  When the key and the
    account are found, the messages are valid and go on unwrapped, some
    gas price is non-zero, and [calculateFees] panics for the configured
    gas limit, then the attempt panics with that message, and so do
    [BroadcastTxSync], which does not retry it, and [BroadcastTxBlock]:
    nothing on the way recovers. *)
Theorem fee_panic_escapes
        (fuel : nat) (c : Client) (msgs : list Msg) (s : St W)
        (key : KeyRecord) (w0 w1 : W) (addr : AccAddress) (acc : Account)
        (msg : string) :
  AccAddress_Empty (txAuthzGranterAddr c) = true ->
  keyring_Key env (txFromName c) (world s) = (Found key, w0) ->
  Record_GetAddress env key = Ok addr ->
  validate_from env 0 msgs = None ->
  query_Account env addr w0 = (Found acc, w1) ->
  TxBuilder_SetMsgs env msgs = None ->
  DecCoins_IsZero (txGasPrices c) = false ->
  calculateFees (txGasPrices c) (txGas c) = Panic msg ->
  (0 < txBroadcastRetryAttempts c \/ 0 < fuel)%nat ->
  broadcastTxSync env c msgs s = Panic msg /\
  BroadcastTxSync env fuel c msgs s = Panic msg /\
  BroadcastTxBlock env fuel c msgs s = Panic msg.
Proof.
  intros Hg Hkey Haddr Hval Hacc Hset Hz Hfee Hb.
  assert (Hatt : broadcastTxSync env c msgs s = Panic msg).
  { unfold broadcastTxSync, bind. rewrite Key_txFromName, Hkey, Haddr.
    unfold wrap_authz. rewrite Hg. cbn [negb]. rewrite Hval.
    unfold broadcast_as, bind, call, after_key_lookup. cbn [world].
    rewrite Hacc. unfold prepareTx. rewrite Hset, Hz. cbn [negb].
    unfold bind, lift_outcome. rewrite Hfee. reflexivity. }
  assert (Hsync : BroadcastTxSync env fuel c msgs s = Panic msg).
  { rewrite BroadcastTxSync_unfold.
    rewrite (Do_first_panics _ (broadcast_retry_config W c)
               (BroadcastTxSync_retryFunc env c msgs) fuel _ msg);
      [reflexivity| |exact Hb].
    rewrite BroadcastTxSync_retryFunc_run, Hatt. reflexivity. }
  split; [exact Hatt|]. split; [exact Hsync|].
  unfold BroadcastTxBlock, bind. rewrite Hsync. reflexivity.
Qed.

End PanicFacts.

(** ** Starting a session *)

Section SessionFacts.

Variable W : Type.
Variable env : Env W.
Variable NewMsgStartSessionRequest_node : AccAddress -> bytes -> Z -> Z -> string -> Msg.
Variable NewMsgStartSessionRequest_subscription : AccAddress -> Z -> bytes -> Msg.
Variable EventCreateSession : string.
Variable event_of : string -> utils.AbciEvent.
Variable Quote : string -> string.

(** The address of the message is found without a panic. *)
Lemma MsgFromAddr_returns (c : Client) (s : St W) :
  exists r s1, MsgFromAddr env c s = Ret (r, s1).
Proof.
  unfold MsgFromAddr, KeyAddr, Key, bind, call, ret.
  destruct (negb (AccAddress_Empty (txAuthzGranterAddr c)));
    [eexists; eexists; reflexivity|].
  destruct (keyring_Key env _ (world s)) as [[key| |e] w]; cbn [snd fst];
    try (eexists; eexists; reflexivity).
  destruct (Record_GetAddress env key); eexists; eexists; reflexivity.
Qed.

(** What the common part of the two calls has seen when it returns. *)
Lemma start_session_returns (fuel : nat) (c : Client) (failed : string)
      (msgs : list Msg) (s s' : St W) (id : Z) (err : option error) :
  start_session env EventCreateSession event_of Quote fuel c failed msgs s
  = Ret ((id, err), s') ->
  match err with
  | Some _ => id = 0
  | None =>
      exists resp t,
        BroadcastTxBlock env fuel c msgs s = Ret ((Some resp, Some t, None), s') /\
        rb_Code resp = CodeTypeOK /\
        tr_Code (rt_TxResult t) = CodeTypeOK /\
        utils.IDFromEvents Quote (GetEvents event_of (rt_TxResult t))
          (utils.RefProto EventCreateSession) = Ok id /\
        0 <= id <= strconv.maxUint64
  end.
Proof.
  unfold start_session, bind. intros H.
  destruct (BroadcastTxBlock env fuel c msgs s) as [[[[resp res] berr] s1]| |] eqn:Hb;
    try discriminate.
  cbn [fst snd] in H.
  destruct berr as [e|]; [injection H as <- <- <-; reflexivity|].
  destruct res as [t|]; [|discriminate].
  destruct (utils.IDFromEvents Quote _ _) as [n|e] eqn:Hid;
    unfold ret in H; injection H as <- <- <-; [|reflexivity].
  destruct (BroadcastTxBlock_returns W env fuel c msgs s s1 resp (Some t) None Hb)
    as [Hres _].
  destruct (Hres t eq_refl) as (r & s0 & qerr & -> & Hcode & _ & _ & Hexec).
  exists r, t. repeat split; try assumption; try reflexivity.
  - exact (Hexec eq_refl).
  - apply (IDFromEvents_bounds Quote _ _ _ Hid).
  - apply (IDFromEvents_bounds Quote _ _ _ Hid).
Qed.

(** The common part panics only when the orchestrator does: the result
    it reads the events from is never nil. *)
Lemma start_session_panics (fuel : nat) (c : Client) (failed : string)
      (msgs : list Msg) (s : St W) (msg : string) :
  start_session env EventCreateSession event_of Quote fuel c failed msgs s = Panic msg ->
  BroadcastTxBlock env fuel c msgs s = Panic msg.
Proof.
  unfold start_session, bind. intros H.
  destruct (BroadcastTxBlock env fuel c msgs s) as [[[[resp res] berr] s1]| |] eqn:Hb;
    try discriminate; [|injection H as <-; reflexivity].
  cbn [fst snd] in H.
  destruct berr as [e|]; [discriminate|].
  destruct (BroadcastTxBlock_returns W env fuel c msgs s s1 resp res None Hb)
    as [_ Hsome].
  destruct (Hsome eq_refl) as [t ->].
  destruct (utils.IDFromEvents Quote _ _); discriminate.
Qed.

(** X21. What [NodeStartSession] returns.  With an error the id is 0.
    Without one, the message was built for the address [MsgFromAddr]
    gave, the node accepted the transaction and the chain executed it
    with code OK, and the id is the one [IDFromEvents] reads from the
    events of that very transaction result for the session event; it is
    a 64-bit number. *)
Theorem NodeStartSession_result
        (fuel : nat) (c : Client) (nodeAddr : bytes) (gigabytes hours : Z)
        (denom : string) (s s' : St W) (id : Z) (err : option error) :
  NodeStartSession env NewMsgStartSessionRequest_node EventCreateSession event_of Quote
    fuel c nodeAddr gigabytes hours denom s = Ret ((id, err), s') ->
  match err with
  | Some _ => id = 0
  | None =>
      exists from s1 resp t,
        MsgFromAddr env c s = Ret ((from, None), s1) /\
        BroadcastTxBlock env fuel c
          [NewMsgStartSessionRequest_node from nodeAddr gigabytes hours denom] s1
        = Ret ((Some resp, Some t, None), s') /\
        rb_Code resp = CodeTypeOK /\
        tr_Code (rt_TxResult t) = CodeTypeOK /\
        utils.IDFromEvents Quote (GetEvents event_of (rt_TxResult t))
          (utils.RefProto EventCreateSession) = Ok id /\
        0 <= id <= strconv.maxUint64
  end.
Proof.
  unfold NodeStartSession, bind. intros H.
  destruct (MsgFromAddr env c s) as [[[from ferr] s1]| |] eqn:Hfrom; try discriminate.
  cbn [fst snd] in H.
  destruct ferr as [e|]; [injection H as <- <- <-; reflexivity|].
  pose proof (start_session_returns _ _ _ _ _ _ _ _ H) as Hs.
  destruct err as [e|]; [exact Hs|].
  destruct Hs as (resp & t & Hs).
  exists from, s1, resp, t. split; [reflexivity|exact Hs].
Qed.

(** X22. What [SubscriptionStartSession] returns: as for a node session,
    with the message of a subscription session. *)
Theorem SubscriptionStartSession_result
        (fuel : nat) (c : Client) (subscription : Z) (nodeAddr : bytes)
        (s s' : St W) (id : Z) (err : option error) :
  SubscriptionStartSession env NewMsgStartSessionRequest_subscription
    EventCreateSession event_of Quote fuel c subscription nodeAddr s
  = Ret ((id, err), s') ->
  match err with
  | Some _ => id = 0
  | None =>
      exists from s1 resp t,
        MsgFromAddr env c s = Ret ((from, None), s1) /\
        BroadcastTxBlock env fuel c
          [NewMsgStartSessionRequest_subscription from subscription nodeAddr] s1
        = Ret ((Some resp, Some t, None), s') /\
        rb_Code resp = CodeTypeOK /\
        tr_Code (rt_TxResult t) = CodeTypeOK /\
        utils.IDFromEvents Quote (GetEvents event_of (rt_TxResult t))
          (utils.RefProto EventCreateSession) = Ok id /\
        0 <= id <= strconv.maxUint64
  end.
Proof.
  unfold SubscriptionStartSession, bind. intros H.
  destruct (MsgFromAddr env c s) as [[[from ferr] s1]| |] eqn:Hfrom; try discriminate.
  cbn [fst snd] in H.
  destruct ferr as [e|]; [injection H as <- <- <-; reflexivity|].
  pose proof (start_session_returns _ _ _ _ _ _ _ _ H) as Hs.
  destruct err as [e|]; [exact Hs|].
  destruct Hs as (resp & t & Hs).
  exists from, s1, resp, t. split; [reflexivity|exact Hs].
Qed.

(** X23. A session call panics only where the orchestrator does.  The
    lookup of the sender does not panic, and the transaction result the
    events are read from is present whenever the orchestrator returned
    no error; so a panic of [NodeStartSession] is a panic of
    [BroadcastTxBlock] on the one message it built. *)
Theorem NodeStartSession_panics_with_broadcast
        (fuel : nat) (c : Client) (nodeAddr : bytes) (gigabytes hours : Z)
        (denom : string) (s : St W) (msg : string) :
  NodeStartSession env NewMsgStartSessionRequest_node EventCreateSession event_of Quote
    fuel c nodeAddr gigabytes hours denom s = Panic msg ->
  exists from s1,
    MsgFromAddr env c s = Ret ((from, None), s1) /\
    BroadcastTxBlock env fuel c
      [NewMsgStartSessionRequest_node from nodeAddr gigabytes hours denom] s1
    = Panic msg.
Proof.
  unfold NodeStartSession, bind. intros H.
  destruct (MsgFromAddr_returns c s) as ([from ferr] & s1 & Hfrom).
  rewrite Hfrom in H. cbn [fst snd] in H.
  destruct ferr as [e|]; [discriminate|].
  exists from, s1. split; [exact Hfrom|].
  exact (start_session_panics _ _ _ _ _ _ H).
Qed.

(** X24. A missing key is reported by the broadcast, not by the lookup
    of the sender.  With no granter configured and a keyring that does
    not hold the key, [NodeStartSession] still builds its message, for
    the nil address, and starts the broadcast, which asks the keyring a
    second time; the error returned is the not-found error of the
    attempt, provided its text (which holds the key name) is taken for
    neither a mempool-cache nor a sequence error.  Nothing reaches the
    node. *)
Theorem NodeStartSession_missing_key
        (fuel : nat) (c : Client) (nodeAddr : bytes) (gigabytes hours : Z)
        (denom : string) (s : St W) (w1 w2 : W) :
  AccAddress_Empty (txAuthzGranterAddr c) = true ->
  keyring_Key env (txFromName c) (world s) = (Missing, w1) ->
  keyring_Key env (txFromName c) w1 = (Missing, w2) ->
  IsTxInMempoolCacheError
    (newErrNotFound ("key " ++ txFromName c ++ " does not exist")) = false ->
  IsWrongSequenceError
    (newErrNotFound ("key " ++ txFromName c ++ " does not exist")) = false ->
  (0 < txBroadcastRetryAttempts c \/ 0 < fuel)%nat ->
  NodeStartSession env NewMsgStartSessionRequest_node EventCreateSession event_of Quote
    fuel c nodeAddr gigabytes hours denom s
  = Ret ((0, Some ("node start session tx failed: "
                     ++ "tx sync broadcast failed after retries: "
                     ++ newErrNotFound ("key " ++ txFromName c ++ " does not exist"))),
         mkSt w2 (trace s ++ [EvKeyringKey (txFromName c); EvKeyringKey (txFromName c)])).
Proof.
  intros Hg Hk1 Hk2 Hm Hq Hbudget.
  unfold NodeStartSession, bind.
  assert (Hfrom : MsgFromAddr env c s
                  = Ret ((nil_addr, None), after_key_lookup (txFromName c) w1 s)).
  { unfold MsgFromAddr, KeyAddr, bind. rewrite Hg. cbn [negb].
    rewrite Key_txFromName, Hk1. reflexivity. }
  rewrite Hfrom. cbn [fst snd].
  unfold start_session, bind, BroadcastTxBlock, bind.
  set (m := [NewMsgStartSessionRequest_node nil_addr nodeAddr gigabytes hours denom]).
  set (s1 := after_key_lookup (txFromName c) w1 s).
  assert (Hatt : broadcastTxSync env c m s1
                 = Ret (Err (newErrNotFound ("key " ++ txFromName c ++ " does not exist")),
                        after_key_lookup (txFromName c) w2 s1)).
  { unfold broadcastTxSync, bind. rewrite Key_txFromName.
    change (world s1) with w1. rewrite Hk2. reflexivity. }
  rewrite (BroadcastTxSync_fatal W env fuel c m 0 s1 s1 _ _
             ltac:(unfold retry_runs.within_budget; cbn [broadcast_retry_config retry.attempts];
                   destruct Hbudget as [Hb|Hb];
                   [left; exact Hb
                   |destruct (txBroadcastRetryAttempts c);
                    [right; split; [reflexivity|exact Hb]|left; lia]])
             eq_refl Hatt Hm Hq).
  cbn [fst snd]. unfold ret, wrap.
  unfold s1, after_key_lookup. cbn [trace world].
  rewrite <- app_assoc. reflexivity.
Qed.

End SessionFacts.

(** ** Termination *)

Section FuelFacts.

Variable S : Type.
Variable cfg : retry.Config S.
Variable f : M S (option error).

(** The bounded loop ends when its attempts and its timer do. *)
Lemma loop_fuel :
  (forall s, out_of_fuel (f s) = false) ->
  (forall d s, out_of_fuel (retry.timer cfg d s) = false) ->
  forall r s, out_of_fuel (retry.loop cfg f r s) = false.
Proof.
  intros Hf Ht. induction r as [|r IH]; intros s; [reflexivity|].
  cbn [retry.loop]. unfold bind.
  pose proof (Hf s) as Hfs.
  destruct (f s) as [[[e|] s1]| |]; try reflexivity; try discriminate Hfs.
  destruct (negb (retry.retryIf cfg e)); [reflexivity|].
  destruct r as [|r]; [reflexivity|].
  pose proof (Ht (retry.delay cfg) s1) as Hts.
  destruct (retry.timer cfg (retry.delay cfg) s1) as [[u s2]| |];
    try reflexivity; try discriminate Hts.
  apply IH.
Qed.

End FuelFacts.

Section Termination.

Variable W : Type.
Variable env : Env W.

Lemma calculateFees_fuel (gasPrices : DecCoins) (gasLimit : Z) :
  out_of_fuel (calculateFees gasPrices gasLimit) = false.
Proof.
  induction gasPrices as [|price rest IH]; [reflexivity|].
  cbn [calculateFees]. unfold obind, MulInt64, RoundInt, NewCoin.
  repeat match goal with
         | |- context [if ?b then _ else _] => destruct b; try reflexivity
         end.
  destruct (calculateFees rest gasLimit); try reflexivity. discriminate IH.
Qed.

Lemma broadcastTxSync_fuel (c : Client) (msgs : list Msg) (s : St W) :
  out_of_fuel (broadcastTxSync env c msgs s) = false.
Proof.
  destruct (broadcastTxSync env c msgs s) as [r|m|] eqn:H; try reflexivity.
  exfalso. unfold_pipeline H. rewrite key_name in H.
  destruct (DecCoins_IsZero (txGasPrices c)) eqn:Hz; cbn [negb] in H;
    destruct (txSimulateAndExecute c) eqn:Hsim;
    run_cases H;
    match goal with
    | E : calculateFees ?p ?g = OutOfFuel |- _ =>
        pose proof (calculateFees_fuel p g) as X; rewrite E in X; discriminate X
    end.
Qed.

Lemma BroadcastTxSync_fuel (fuel : nat) (c : Client) (msgs : list Msg) (s : St W) :
  (0 < txBroadcastRetryAttempts c)%nat ->
  out_of_fuel (BroadcastTxSync env fuel c msgs s) = false /\
  BroadcastTxSync env fuel c msgs s = BroadcastTxSync env 0 c msgs s.
Proof.
  intros Ha. rewrite !BroadcastTxSync_unfold. unfold retry.Do.
  cbn [broadcast_retry_config retry.attempts].
  destruct (txBroadcastRetryAttempts c) as [|a]; [lia|].
  split; [|reflexivity].
  pose proof (loop_fuel _ (broadcast_retry_config W c)
                (BroadcastTxSync_retryFunc env c msgs)) as Hl.
  match goal with
  | |- context [retry.loop ?cf ?g ?r ?st] =>
      assert (Hx : out_of_fuel (retry.loop cf g r st) = false)
  end.
  { apply Hl.
    - intros [s0 l0]. rewrite BroadcastTxSync_retryFunc_run.
      pose proof (broadcastTxSync_fuel c msgs s0) as Hb.
      destruct (broadcastTxSync env c msgs s0) as [[[res|e] s1]| |];
        try reflexivity. discriminate Hb.
    - intros d [s0 l0]. reflexivity. }
  destruct (retry.loop _ _ _ _) as [[[e|] [s1 l1]]| |]; try reflexivity.
  discriminate Hx.
Qed.

Lemma Tx_fuel (fuel : nat) (c : Client) (hash : bytes) (s : St W) :
  (0 < txQueryRetryAttempts c)%nat ->
  out_of_fuel (Tx env fuel c hash s) = false /\
  Tx env fuel c hash s = Tx env 0 c hash s.
Proof.
  intros Ha. rewrite !Tx_unfold. unfold retry.Do.
  cbn [query_retry_config retry.attempts].
  destruct (txQueryRetryAttempts c) as [|a]; [lia|].
  split; [|reflexivity].
  pose proof (loop_fuel _ (query_retry_config W c) (Tx_retryFunc env c hash)) as Hl.
  match goal with
  | |- context [retry.loop ?cf ?g ?r ?st] =>
      assert (Hx : out_of_fuel (retry.loop cf g r st) = false)
  end.
  { apply Hl.
    - intros [s0 l0]. rewrite Tx_retryFunc_run.
      destruct (tx_returns W env c hash s0) as (r & s1 & ->).
      destruct r; reflexivity.
    - intros d [s0 l0]. reflexivity. }
  destruct (retry.loop _ _ _ _) as [[[e|] [s1 l1]]| |]; try reflexivity.
  discriminate Hx.
Qed.

(** With both budgets set, the orchestrator ends without the help of
    fuel. *)
Lemma BroadcastTxBlock_fuel (fuel : nat) (c : Client) (msgs : list Msg) (s : St W) :
  (0 < txBroadcastRetryAttempts c)%nat ->
  (0 < txQueryRetryAttempts c)%nat ->
  out_of_fuel (BroadcastTxBlock env fuel c msgs s) = false /\
  BroadcastTxBlock env fuel c msgs s = BroadcastTxBlock env 0 c msgs s.
Proof.
  intros Hb Hq. unfold BroadcastTxBlock, bind.
  destruct (BroadcastTxSync_fuel fuel c msgs s Hb) as [Hf ->].
  rewrite (proj2 (BroadcastTxSync_fuel fuel c msgs s Hb)) in Hf.
  destruct (BroadcastTxSync env 0 c msgs s) as [[[resp err] s1]| |];
    try (split; reflexivity); [|discriminate Hf].
  cbn [fst snd]. destruct err as [e|]; [split; reflexivity|].
  destruct resp as [resp|]; [|split; reflexivity].
  unfold confirm. destruct (negb (rb_Code resp =? CodeTypeOK)); [split; reflexivity|].
  unfold bind.
  destruct (Tx_fuel fuel c (rb_Hash resp) s1 Hq) as [Hqf ->].
  rewrite (proj2 (Tx_fuel fuel c (rb_Hash resp) s1 Hq)) in Hqf.
  split; [|reflexivity].
  destruct (Tx env 0 c (rb_Hash resp) s1) as [[[res qerr] s2]| |];
    try reflexivity; [|discriminate Hqf].
  cbn [fst snd]. destruct qerr; [reflexivity|].
  destruct res as [res|]; [|reflexivity].
  destruct (negb (ExecTxResult_IsOK (rt_TxResult res))); reflexivity.
Qed.

Lemma count_polling (hash : bytes) (prove : bool) (d : Z) (n : nat) :
  count is_key_lookup (polling hash prove d n) = 0%nat /\
  count is_broadcast (polling hash prove d n) = 0%nat /\
  count is_tx_query (polling hash prove d n) = n /\
  count is_sleep (polling hash prove d n) = n.
Proof.
  induction n as [|n (Hk & Hb & Hq & Hs)]; [repeat split|].
  unfold count in *. cbn [polling filter is_key_lookup is_broadcast is_tx_query
                            is_sleep List.length].
  rewrite Hk, Hb, Hq, Hs. repeat split.
Qed.

Lemma count_delays (d : Z) (n : nat) :
  count is_key_lookup (repeat (EvSleep d) n) = 0%nat /\
  count is_broadcast (repeat (EvSleep d) n) = 0%nat /\
  count is_tx_query (repeat (EvSleep d) n) = 0%nat /\
  count is_sleep (repeat (EvSleep d) n) = n.
Proof.
  induction n as [|n (Hk & Hb & Hq & Hs)]; [repeat split|].
  unfold count in *. cbn [repeat filter is_key_lookup is_broadcast is_tx_query
                            is_sleep List.length].
  rewrite Hk, Hb, Hq, Hs. repeat split.
Qed.

Lemma added_unique (s s' : St W) (a b : list Event) :
  added s s' a -> added s s' b -> a = b.
Proof. unfold added. intros Ha Hb. rewrite Ha in Hb. exact (app_inv_head _ _ _ Hb). Qed.

(** An attempt asks for no transaction. *)
Lemma broadcastTxSync_no_query (c : Client) (msgs : list Msg) (s s' : St W)
      (r : result ResultBroadcastTx) (evs : list Event) :
  broadcastTxSync env c msgs s = Ret (r, s') ->
  added s s' evs ->
  count is_tx_query evs = 0%nat.
Proof.
  intros H Hadd.
  destruct (broadcastTxSync_events W env c msgs s s' r H) as (evs' & Hadd' & Hshape & _).
  rewrite (added_unique s s' evs evs' Hadd Hadd'). clear Hadd Hadd' H.
  unfold attempt_shape, after_account, after_simulation, after_signing in Hshape.
  destruct (txSimulateAndExecute c);
    repeat (let ev := fresh "ev" in
            destruct evs' as [|ev evs']; [try discriminate Hshape; try reflexivity|];
            destruct ev; try discriminate Hshape).
Qed.

Lemma after_sequence_retries_no_query (c : Client) (msgs : list Msg) (n : nat) :
  forall (s s_n : St W) (evs : list Event),
    after_sequence_retries env c msgs n s = Some s_n ->
    added s s_n evs ->
    count is_tx_query evs = 0%nat.
Proof.
  induction n as [|n IH]; intros s s_n evs Hrun Hadd.
  - cbn in Hrun. injection Hrun as <-.
    rewrite (added_unique s s evs [] Hadd (added_refl W s)). reflexivity.
  - cbn [after_sequence_retries] in Hrun.
    destruct (broadcastTxSync env c msgs s) as [[[res|e] s1]| |] eqn:Hatt;
      try discriminate.
    destruct (negb (IsTxInMempoolCacheError e) && IsWrongSequenceError e);
      try discriminate.
    destruct (broadcastTxSync_events W env c msgs s s1 _ Hatt) as (evs1 & Hadd1 & _).
    destruct (after_sequence_retries_events W env c msgs n _ _ Hrun)
      as (evs2 & Hadd2 & _).
    pose proof (added_trans W _ _ _ _ _ Hadd1
                  (added_trans W _ _ _ _ _
                     (added_sleep W (txBroadcastRetryDelay c) s1) Hadd2)) as Hall.
    rewrite (added_unique s s_n evs _ Hadd Hall).
    rewrite !count_app.
    rewrite (broadcastTxSync_no_query c msgs s s1 _ evs1 Hatt Hadd1).
    rewrite (IH _ _ evs2 Hrun Hadd2). reflexivity.
Qed.

(** The work of a broadcast with retries. *)
Lemma BroadcastTxSync_work (fuel : nat) (c : Client) (msgs : list Msg) (s s' : St W)
      (r : option ResultBroadcastTx * option error) :
  (0 < txBroadcastRetryAttempts c)%nat ->
  BroadcastTxSync env fuel c msgs s = Ret (r, s') ->
  exists evs,
    added s s' evs /\
    (count is_key_lookup evs <= txBroadcastRetryAttempts c)%nat /\
    (count is_broadcast evs <= txBroadcastRetryAttempts c)%nat /\
    count is_tx_query evs = 0%nat /\
    (count is_sleep evs <= txBroadcastRetryAttempts c - 1)%nat.
Proof.
  destruct r as [resp err]. intros Ha H.
  destruct (BroadcastTxSync_returns W env fuel c msgs s s' resp err H)
    as (n & s_n & r & Hb & Hrun & Hatt & _).
  assert (Hn : (n < txBroadcastRetryAttempts c)%nat).
  { destruct Hb as [Hb|[Hb _]]; [exact Hb|].
    cbn [broadcast_retry_config retry.attempts] in Hb. lia. }
  destruct (after_sequence_retries_events W env c msgs n s s_n Hrun)
    as (evs1 & Hadd1 & Hk1 & Hs1 & Hb1).
  destruct (broadcastTxSync_events W env c msgs s_n s' r Hatt)
    as (evs2 & Hadd2 & _ & Hk2 & Hs2 & Hb2 & _).
  exists (evs1 ++ evs2)%list.
  split; [exact (added_trans W _ _ _ _ _ Hadd1 Hadd2)|].
  rewrite !count_app, Hk1, Hk2, Hs2.
  rewrite (after_sequence_retries_no_query c msgs n s s_n evs1 Hrun Hadd1).
  rewrite (broadcastTxSync_no_query c msgs s_n s' r evs2 Hatt Hadd2).
  assert (Hsl : count is_sleep evs1 = n).
  { unfold count. rewrite Hs1. apply repeat_length. }
  rewrite Hsl. repeat split; lia.
Qed.

(** The work of a polling. *)
Lemma Tx_work (fuel : nat) (c : Client) (hash : bytes) (s s' : St W)
      (r : option ResultTx * option error) :
  (0 < txQueryRetryAttempts c)%nat ->
  Tx env fuel c hash s = Ret (r, s') ->
  exists evs,
    added s s' evs /\
    count is_key_lookup evs = 0%nat /\
    count is_broadcast evs = 0%nat /\
    (count is_tx_query evs <= txQueryRetryAttempts c)%nat /\
    (count is_sleep evs <= txQueryRetryAttempts c - 1)%nat.
Proof.
  destruct r as [res err]. intros Ha H.
  destruct (Tx_last_query W env fuel c hash s s' res err H)
    as (n & s_n & r & Hb & Hrun & Hatt & _).
  assert (Hn : (n < txQueryRetryAttempts c)%nat).
  { destruct Hb as [Hb|[Hb _]]; [exact Hb|].
    cbn [query_retry_config retry.attempts] in Hb. lia. }
  pose proof (after_query_retries_events W env c hash n s s_n Hrun) as Hev.
  pose proof (tx_events W env c hash s_n s' r Hatt) as Hl.
  destruct (HTTP env c) as [he|].
  - destruct Hl as [-> _]. eexists. split; [exact Hev|].
    destruct (count_delays (txQueryRetryDelay c) n) as (-> & -> & -> & ->).
    repeat split; lia.
  - eexists. split; [exact (added_trans W _ _ _ _ _ Hev Hl)|].
    rewrite !count_app.
    destruct (count_polling hash (queryProve c) (txQueryRetryDelay c) n)
      as (-> & -> & -> & ->).
    cbn. repeat split; lia.
Qed.

(** X25. The work of [BroadcastTxBlock] is bounded by the two budgets.
    With both attempt counts positive, whenever it returns it has asked
    the keyring for the key, and the node to broadcast, at most as often
    as the broadcast attempt count says; it has asked for the transaction
    at most as often as the query attempt count says; and the number of
    its delays is at most the sum of the two counts, each less one. *)
Theorem BroadcastTxBlock_work_bound
        (fuel : nat) (c : Client) (msgs : list Msg) (s s' : St W) (r : BlockResult) :
  (0 < txBroadcastRetryAttempts c)%nat ->
  (0 < txQueryRetryAttempts c)%nat ->
  BroadcastTxBlock env fuel c msgs s = Ret (r, s') ->
  exists evs,
    added s s' evs /\
    (count is_key_lookup evs <= txBroadcastRetryAttempts c)%nat /\
    (count is_broadcast evs <= txBroadcastRetryAttempts c)%nat /\
    (count is_tx_query evs <= txQueryRetryAttempts c)%nat /\
    (count is_sleep evs
     <= (txBroadcastRetryAttempts c - 1) + (txQueryRetryAttempts c - 1))%nat.
Proof.
  intros Hb Hq H. unfold BroadcastTxBlock, bind in H.
  destruct (BroadcastTxSync env fuel c msgs s) as [[[resp err] s1]| |] eqn:Hs;
    try discriminate.
  destruct (BroadcastTxSync_work fuel c msgs s s1 _ Hb Hs)
    as (evs1 & Hadd1 & Hk1 & Hb1 & Hq1 & Hs1).
  assert (Hstop : s' = s1 ->
                  exists evs,
                    added s s' evs /\
                    (count is_key_lookup evs <= txBroadcastRetryAttempts c)%nat /\
                    (count is_broadcast evs <= txBroadcastRetryAttempts c)%nat /\
                    (count is_tx_query evs <= txQueryRetryAttempts c)%nat /\
                    (count is_sleep evs
                     <= (txBroadcastRetryAttempts c - 1)
                        + (txQueryRetryAttempts c - 1))%nat).
  { intros ->. exists evs1. repeat split; try assumption; lia. }
  cbn [fst snd] in H.
  destruct err as [e|]; [injection H as _ <-; apply Hstop; reflexivity|].
  destruct resp as [resp|]; [|discriminate].
  unfold confirm in H.
  destruct (negb (rb_Code resp =? CodeTypeOK));
    [unfold ret in H; injection H as _ <-; apply Hstop; reflexivity|].
  unfold bind in H.
  destruct (Tx env fuel c (rb_Hash resp) s1) as [[[res qerr] s2]| |] eqn:HTx;
    try discriminate.
  destruct (Tx_work fuel c (rb_Hash resp) s1 s2 _ Hq HTx)
    as (evs2 & Hadd2 & Hk2 & Hb2 & Hq2 & Hs2).
  assert (Hs2' : s' = s2).
  { cbn [fst snd] in H. destruct qerr; [unfold ret in H; congruence|].
    destruct res as [res|]; [|discriminate].
    destruct (negb (ExecTxResult_IsOK (rt_TxResult res)));
      unfold ret in H; congruence. }
  subst s'. exists (evs1 ++ evs2)%list.
  split; [exact (added_trans W _ _ _ _ _ Hadd1 Hadd2)|].
  rewrite !count_app, Hk2, Hb2, Hq1. repeat split; lia.
Qed.

(** X26. [HasKey] agrees with the rest of the client.  When [HasKey]
    says, without an error, that the configured key is not there, the
    address lookup from the same state returns the nil address and no
    error, and a broadcast attempt fails with the not-found error before
    anything reaches the node; all three have asked the keyring once. *)
Theorem HasKey_false_consequences (c : Client) (msgs : list Msg) (s s' : St W) :
  HasKey env c (txFromName c) s = Ret ((false, None), s') ->
  KeyAddr env c (txFromName c) s = Ret ((nil_addr, None), s') /\
  broadcastTxSync env c msgs s
  = Ret (Err (newErrNotFound ("key " ++ txFromName c ++ " does not exist")), s') /\
  added s s' [EvKeyringKey (txFromName c)].
Proof.
  unfold HasKey, KeyAddr, broadcastTxSync, bind.
  destruct (Key env c (txFromName c) s) as [[[key| |e] s1]| |] eqn:Hk;
    try discriminate.
  unfold ret. intros H. injection H as <-.
  repeat split.
  rewrite Key_txFromName in Hk. unfold bind, call, ret in Hk.
  destruct (keyring_Key env (txFromName c) (world s)) as [[k| |e] w];
    try discriminate.
  injection Hk as <-. reflexivity.
Qed.

End Termination.

(** ** Configuration and the client made from it *)

Section ConfigFacts.

Variable ParseDuration : string -> result Z.
Variable AccAddressFromBech32 : string -> result AccAddress.
Variable ParseDecCoins : string -> result DecCoins.
Variable validateURL : string -> option error.
Variable Keyring_Validate : option error.
Variable Log_Validate : option error.
Variable SetupKeyring : option error.

Lemma Validate_accepted (t : config.TxConfig) :
  config.Validate AccAddressFromBech32 ParseDecCoins t = None ->
  (0 < config.BroadcastRetryAttempts t)%nat /\
  (0 < config.QueryRetryAttempts t)%nat /\
  config.is_empty (config.FromName t) = false /\
  config.negative (config.GasAdjustment t) = false /\
  (exists a, config.GetAuthzGranterAddr AccAddressFromBech32 t = Ret a) /\
  (exists a, config.GetFeeGranterAddr AccAddressFromBech32 t = Ret a) /\
  (config.is_empty (config.GasPrices t) = false ->
   exists p, config.GetGasPrices ParseDecCoins t = Ret p).
Proof.
  unfold config.Validate, config.GetAuthzGranterAddr, config.GetFeeGranterAddr,
    config.GetGasPrices.
  intros H.
  destruct (config.is_empty (config.AuthzGranterAddr t)) eqn:Ea;
    [|destruct (AccAddressFromBech32 (config.AuthzGranterAddr t)) eqn:Pa;
      cbn [error_of] in H; [|discriminate]];
    (destruct (config.BroadcastRetryAttempts t) as [|b] eqn:Eb;
     cbn [Nat.eqb] in H; [discriminate|]);
    (destruct (config.is_empty (config.FeeGranterAddr t)) eqn:Ef;
     [|destruct (AccAddressFromBech32 (config.FeeGranterAddr t)) eqn:Pf;
       cbn [error_of] in H; [|discriminate]]);
    (destruct (config.is_empty (config.FromName t)) eqn:En; [discriminate|]);
    (destruct (config.negative (config.GasAdjustment t)) eqn:Eg; [discriminate|]);
    (destruct (config.is_empty (config.GasPrices t)) eqn:Ep;
     [|destruct (ParseDecCoins (config.GasPrices t)) eqn:Pp;
       cbn [error_of] in H; [|discriminate]]);
    (destruct (config.QueryRetryAttempts t) as [|q] eqn:Eq;
     cbn [Nat.eqb] in H; [discriminate|]);
    repeat split; try lia; try (eexists; reflexivity); intros; try discriminate;
    eexists; reflexivity.
Qed.

(** X27. What an accepted transaction section guarantees.  When
    [TxConfig.Validate] returns no error, both attempt counts are
    positive, the key name is not empty, the gas adjustment is not
    negative, and the getters of the two granter addresses, and of the
    gas prices when that field is not empty, return without a panic. *)
Theorem TxConfig_Validate_accepted (t : config.TxConfig) :
  config.Validate AccAddressFromBech32 ParseDecCoins t = None ->
  (0 < config.BroadcastRetryAttempts t)%nat /\
  (0 < config.QueryRetryAttempts t)%nat /\
  config.is_empty (config.FromName t) = false /\
  config.negative (config.GasAdjustment t) = false /\
  (exists a, config.GetAuthzGranterAddr AccAddressFromBech32 t = Ret a) /\
  (exists a, config.GetFeeGranterAddr AccAddressFromBech32 t = Ret a) /\
  (config.is_empty (config.GasPrices t) = false ->
   exists p, config.GetGasPrices ParseDecCoins t = Ret p).
Proof. exact (Validate_accepted t). Qed.

Lemma Config_Validate_sections (q : config.QueryConfig) (r : config.RPCConfig)
      (t : config.TxConfig) :
  config.Config_Validate ParseDuration AccAddressFromBech32 ParseDecCoins validateURL
    Keyring_Validate Log_Validate q r t = None ->
  (exists d, ParseDuration (config.RetryDelay q) = Ok d) /\
  (exists addr rest, config.Addrs r = addr :: rest) /\
  (exists d, ParseDuration (config.Timeout r) = Ok d) /\
  config.Validate AccAddressFromBech32 ParseDecCoins t = None.
Proof.
  unfold config.Config_Validate, config.Query_Validate, config.RPC_Validate.
  intros H.
  destruct Keyring_Validate; [discriminate|].
  destruct Log_Validate; [discriminate|].
  destruct (Nat.eqb (config.RetryAttempts q) 0); [discriminate|].
  destruct (ParseDuration (config.RetryDelay q)) as [qd|] eqn:Eq; [|discriminate].
  destruct (config.Addrs r) as [|addr rest] eqn:Ea; [discriminate|].
  destruct (config.is_empty (config.ChainID r)); [discriminate|].
  destruct (config.first_invalid validateURL (addr :: rest)); [discriminate|].
  destruct (ParseDuration (config.Timeout r)) as [rd|] eqn:Er; [|discriminate].
  destruct (config.Validate AccAddressFromBech32 ParseDecCoins t); [discriminate|].
  repeat split; eauto.
Qed.

(** X28. Validation does not cover the broadcast delay.  A
    configuration that [Config.Validate] accepts, whose
    [broadcast_retry_delay] is not a duration, makes
    [NewClientFromConfig] panic with the parse error: every getter
    called before that one returns, because validation has checked its
    field, and this one is checked nowhere. *)
Theorem NewClientFromConfig_panics_after_validation
        (q : config.QueryConfig) (r : config.RPCConfig) (t : config.TxConfig)
        (e : error) :
  config.Config_Validate ParseDuration AccAddressFromBech32 ParseDecCoins validateURL
    Keyring_Validate Log_Validate q r t = None ->
  ParseDuration (config.BroadcastRetryDelay t) = Err e ->
  NewClientFromConfig ParseDuration AccAddressFromBech32 ParseDecCoins SetupKeyring q r t
  = Panic e.
Proof.
  intros Hv Hd.
  destruct (Config_Validate_sections q r t Hv)
    as ((qd & Hq) & (addr & rest & Ha) & (rd & Hr) & Ht).
  destruct (Validate_accepted t Ht) as (_ & _ & _ & _ & (g & Hg) & _).
  unfold NewClientFromConfig, obind, config.Query_GetRetryDelay, config.RPC_GetTimeout,
    config.GetBroadcastRetryDelay.
  rewrite Hq, Ha, Hr, Hg, Hd. reflexivity.
Qed.

(** X29. The client of a validated configuration.  When
    [Config.Validate] accepts and the two transaction delays and the gas
    prices parse, [NewClientFromConfig] returns without a panic; the
    client it gives (when the keyring could be set up) talks to the
    first configured address, has its key name not empty, no fixed fee,
    no memo, and both attempt counts positive, so that its
    [BroadcastTxBlock] always ends. *)
Theorem NewClientFromConfig_validated
        (q : config.QueryConfig) (r : config.RPCConfig) (t : config.TxConfig)
        (bd qd : Z) (prices : DecCoins) :
  config.Config_Validate ParseDuration AccAddressFromBech32 ParseDecCoins validateURL
    Keyring_Validate Log_Validate q r t = None ->
  ParseDuration (config.BroadcastRetryDelay t) = Ok bd ->
  ParseDuration (config.QueryRetryDelay t) = Ok qd ->
  ParseDecCoins (config.GasPrices t) = Ok prices ->
  exists c,
    NewClientFromConfig ParseDuration AccAddressFromBech32 ParseDecCoins SetupKeyring q r t
    = Ret (match SetupKeyring with
           | Some err => Err (wrap "failed to setup keyring: " err)
           | None => Ok c
           end) /\
    Some (rpcAddr c) = hd_error (config.Addrs r) /\
    config.is_empty (txFromName c) = false /\
    txFees c = [] /\ txMemo c = EmptyString /\
    txBroadcastRetryDelay c = bd /\ txQueryRetryDelay c = qd /\
    txGasPrices c = prices /\
    (0 < txBroadcastRetryAttempts c)%nat /\
    (0 < txQueryRetryAttempts c)%nat /\
    (forall (W : Type) (env : Env W) (fuel : nat) (msgs : list Msg) (s : St W),
        out_of_fuel (BroadcastTxBlock env fuel c msgs s) = false).
Proof.
  intros Hv Hbd Hqd Hp.
  destruct (Config_Validate_sections q r t Hv)
    as ((d & Hq) & (addr & rest & Ha) & (rd & Hr) & Ht).
  destruct (Validate_accepted t Ht)
    as (Hb & Hqa & Hn & _ & (g & Hg) & (fg & Hfg) & _).
  unfold NewClientFromConfig, obind, config.Query_GetRetryDelay, config.RPC_GetTimeout,
    config.GetBroadcastRetryDelay, config.GetQueryRetryDelay, config.GetGasPrices.
  rewrite Hq, Ha, Hr, Hg, Hbd, Hfg, Hp, Hqd.
  eexists. split; [destruct SetupKeyring; reflexivity|].
  cbn [rpcAddr txFromName txFees txMemo txBroadcastRetryDelay txQueryRetryDelay
         txGasPrices txBroadcastRetryAttempts txQueryRetryAttempts hd_error
         config.GetBroadcastRetryAttempts config.GetQueryRetryAttempts].
  repeat split; try assumption; try reflexivity.
  intros W env fuel msgs s.
  apply BroadcastTxBlock_fuel; assumption.
Qed.

End ConfigFacts.

(** ** Concrete runs of the further properties *)

Module ExtraChecks.

Import Scenario.
Import SessionScenario.


Lemma IsCodeNotFound_survives_wrapping_witness :
  IsCodeNotFound "rpc error: code = NotFound desc = no session" = None /\
  IsCodeNotFound ("failed to query session: "
                    ++ "rpc error: code = NotFound desc = no session" ++ ": giving up")
  = None.
Proof.
  assert (H : IsCodeNotFound "rpc error: code = NotFound desc = no session" = None)
    by (vm_compute; reflexivity).
  exact (conj H (IsCodeNotFound_survives_wrapping _ _ _ H)).
Defined.

Lemma calculateFees_exact_witness :
  calculateFees [tics (10 ^ 17)] 200000 = Ret [mkCoin "tics" 20000] /\
  [mkCoin "tics" 20000] = map (fee_entry_int64 200000) [tics (10 ^ 17)] /\
  Forall (fun coin => 0 <= Amount coin /\ ValidateDenom (Denom coin) = true)
    [mkCoin "tics" 20000].
Proof.
  assert (H : calculateFees [tics (10 ^ 17)] 200000 = Ret [mkCoin "tics" 20000])
    by (vm_compute; reflexivity).
  exact (conj H (calculateFees_exact _ _ _ H)).
Defined.

Lemma EventFromEvents_first_witness :
  utils.getEventName (utils.RefProto EventCreateSession) = Ok EventCreateSession /\
  match utils.EventFromEvents session_events (utils.RefProto EventCreateSession) with
  | Ok item =>
      exists before after,
        session_events = (before ++ item :: after)%list /\
        utils.ev_Type item = EventCreateSession /\
        Forall (fun e => utils.ev_Type e <> EventCreateSession) before
  | Err e =>
      e = "event not found" /\
      Forall (fun e => utils.ev_Type e <> EventCreateSession) session_events
  end.
Proof.
  assert (H : utils.getEventName (utils.RefProto EventCreateSession)
              = Ok EventCreateSession) by reflexivity.
  exact (conj H (EventFromEvents_first session_events _ _ H)).
Defined.

Lemma IDFromEvents_round_trip_witness :
  utils.getEventName (utils.RefProto EventCreateSession) = Ok EventCreateSession /\
  Forall (fun e => utils.ev_Type e <> EventCreateSession) [transfer] /\
  Forall (fun a => utils.attr_Key a <> "id") [utils.mkAttribute "node" "node-1"] /\
  0 <= 42 <= strconv.maxUint64 /\
  utils.IDFromEvents Quote ([transfer] ++ event_of "42" :: [event_of "43"])
    (utils.RefProto EventCreateSession) = Ok 42.
Proof.
  assert (H1 : utils.getEventName (utils.RefProto EventCreateSession)
               = Ok EventCreateSession) by reflexivity.
  assert (H2 : Forall (fun e => utils.ev_Type e <> EventCreateSession) [transfer])
    by (repeat constructor; discriminate).
  assert (H3 : Forall (fun a => utils.attr_Key a <> "id")
                 [utils.mkAttribute "node" "node-1"])
    by (repeat constructor; discriminate).
  assert (H4 : 0 <= 42 <= strconv.maxUint64) by (vm_compute; split; discriminate).
  refine (conj H1 (conj H2 (conj H3 (conj H4 _)))).
  exact (IDFromEvents_round_trip Quote [transfer] [event_of "43"] (event_of "42")
           [utils.mkAttribute "node" "node-1"] []
           (utils.RefProto EventCreateSession) EventCreateSession (quoted "42") 42
           H1 H2 eq_refl eq_refl H3 (or_intror eq_refl) H4).
Defined.

Lemma IDFromEvents_out_of_range_witness :
  let n := 2 ^ 64 in
  utils.getEventName (utils.RefProto EventCreateSession) = Ok EventCreateSession /\
  Forall (fun e => utils.ev_Type e <> EventCreateSession) [transfer] /\
  Forall (fun a => utils.attr_Key a <> "id") [utils.mkAttribute "node" "node-1"] /\
  strconv.maxUint64 < n /\
  utils.IDFromEvents Quote
    ([transfer] ++ event_of (string_of_Z n) :: [event_of "43"])
    (utils.RefProto EventCreateSession)
  = Err ("failed to parse id from value: "
           ++ strconv.NumError Quote (string_of_Z n) strconv.ErrRange).
Proof.
  intros n.
  assert (H1 : utils.getEventName (utils.RefProto EventCreateSession)
               = Ok EventCreateSession) by reflexivity.
  assert (H2 : Forall (fun e => utils.ev_Type e <> EventCreateSession) [transfer])
    by (repeat constructor; discriminate).
  assert (H3 : Forall (fun a => utils.attr_Key a <> "id")
                 [utils.mkAttribute "node" "node-1"])
    by (repeat constructor; discriminate).
  assert (H4 : strconv.maxUint64 < n) by (vm_compute; reflexivity).
  refine (conj H1 (conj H2 (conj H3 (conj H4 _)))).
  exact (IDFromEvents_out_of_range Quote [transfer] [event_of "43"]
           (event_of (string_of_Z n))
           [utils.mkAttribute "node" "node-1"] []
           (utils.RefProto EventCreateSession) EventCreateSession
           (quoted (string_of_Z n)) n
           H1 H2 eq_refl eq_refl H3 (or_intror eq_refl) H4).
Defined.

Lemma IDFromEvents_first_event_only_witness :
  utils.getEventName (utils.RefProto EventCreateSession) = Ok EventCreateSession /\
  Forall (fun e => utils.ev_Type e <> EventCreateSession) [transfer] /\
  Forall (fun a => utils.attr_Key a <> "id") (utils.ev_Attributes session_without_id) /\
  utils.IDFromEvents Quote ([transfer] ++ session_without_id :: [event_of "42"])
    (utils.RefProto EventCreateSession)
  = Err ("failed to get id from events: "
           ++ "failed to get attribute from event: " ++ "attribute not found").
Proof.
  assert (H1 : utils.getEventName (utils.RefProto EventCreateSession)
               = Ok EventCreateSession) by reflexivity.
  assert (H2 : Forall (fun e => utils.ev_Type e <> EventCreateSession) [transfer])
    by (repeat constructor; discriminate).
  assert (H3 : Forall (fun a => utils.attr_Key a <> "id")
                 (utils.ev_Attributes session_without_id))
    by (repeat constructor; discriminate).
  refine (conj H1 (conj H2 (conj H3 _))).
  exact (IDFromEvents_first_event_only Quote [transfer] [event_of "42"]
           session_without_id (utils.RefProto EventCreateSession) EventCreateSession
           H1 H2 eq_refl H3).
Defined.

Lemma signTx_success_witness :
  let s := start [] [] in
  let acc := mkAccount 7 5 in
  exists txb' s',
    signTx env client NewTxBuilder main_key acc s = Ret (Ok txb', s') /\
    exists pubKey buf sig pubKey',
      Record_GetPubKey env main_key = Ok pubKey /\
      GetSignBytes env SIGN_MODE_DIRECT
        (mkSignerData (rpcChainID client) (acc_AccountNumber acc) (acc_Sequence acc))
        (put_Signatures [placeholder pubKey acc] NewTxBuilder) = Ok buf /\
      keyring_Sign env (txFromName client) buf (world s) = (Ok (sig, pubKey'), world s') /\
      added s s' [EvKeyringSign (txFromName client) buf] /\
      txb' = put_Signatures
               [mkSignatureV2 pubKey (mkSigData SIGN_MODE_DIRECT (Some sig))
                  (acc_Sequence acc)] NewTxBuilder.
Proof.
  intros s acc. eexists; eexists.
  match goal with
  | |- ?A /\ _ => assert (H : A) by (vm_compute; reflexivity)
  end.
  exact (conj H (signTx_success World env client _ _ main_key acc s _ H)).
Defined.

Lemma prepareTx_builder_witness :
  let s := start [] [] in
  let acc := mkAccount 7 5 in
  exists txb s',
    prepareTx env client main_key acc msgs s = Ret (Ok txb, s') /\
    tx_Msgs txb = msgs /\
    tx_Memo txb = txMemo client /\
    tx_TimeoutHeight txb = txTimeoutHeight client /\
    tx_FeeGranter txb = txFeeGranterAddr client /\
    (exists pubKey,
        Record_GetPubKey env main_key = Ok pubKey /\
        tx_Signatures txb = [placeholder pubKey acc]) /\
    (txSimulateAndExecute client = false -> tx_GasLimit txb = txGas client /\ s' = s).
Proof.
  intros s acc. eexists; eexists.
  match goal with
  | |- ?A /\ _ => assert (H : A) by (vm_compute; reflexivity)
  end.
  exact (conj H (prepareTx_builder World env client main_key acc msgs s _ _ H)).
Defined.

Lemma prepareTx_fee_matches_gas_witness :
  let s := start [] [] in
  let acc := mkAccount 7 5 in
  exists txb s',
    prepareTx env client main_key acc msgs s = Ret (Ok txb, s') /\
    if DecCoins_IsZero (txGasPrices client) then tx_FeeAmount txb = txFees client
    else calculateFees (txGasPrices client) (tx_GasLimit txb) = Ret (tx_FeeAmount txb).
Proof.
  intros s acc. eexists; eexists.
  match goal with
  | |- ?A /\ _ => assert (H : A) by (vm_compute; reflexivity)
  end.
  exact (conj H (prepareTx_fee_matches_gas World env client main_key acc msgs s _ _ H)).
Defined.

Lemma broadcastTxSync_success_witness :
  let s := start [Ok accepted] [] in
  exists s',
    broadcastTxSync env client msgs s = Ret (Ok accepted, s') /\
    exists key w0 addr acc w1 txb buf,
      keyring_Key env (txFromName client) (world s) = (Found key, w0) /\
      Record_GetAddress env key = Ok addr /\
      validate_from env 0 (wrap_authz client addr msgs) = None /\
      query_Account env addr w0 = (Found acc, w1) /\
      tx_Msgs txb = wrap_authz client addr msgs /\
      (exists pubKey sig,
          tx_Signatures txb
          = [mkSignatureV2 pubKey (mkSigData SIGN_MODE_DIRECT (Some sig))
               (acc_Sequence acc)]) /\
      TxEncoder env txb = Ok buf /\
      (exists w2, rpc_BroadcastTxSync env buf w2 = (Ok accepted, world s')) /\
      (exists evs, added s s' evs /\ last evs (EvSleep 0) = EvBroadcast buf).
Proof.
  intros s. eexists.
  match goal with
  | |- ?A /\ _ => assert (H : A) by (vm_compute; reflexivity)
  end.
  exact (conj H (broadcastTxSync_success World env client msgs s _ accepted H)).
Defined.

Lemma broadcastTxSync_call_order_witness :
  let s := start [sequence_error] [] in
  exists r s',
    broadcastTxSync env client msgs s = Ret (r, s') /\
    exists evs,
      added s s' evs /\
      attempt_shape (txSimulateAndExecute client) evs = true /\
      count is_key_lookup evs = 1%nat /\
      count is_sleep evs = 0%nat /\
      (count is_broadcast evs <= 1)%nat /\
      (forall res, r = Ok res -> count is_broadcast evs = 1%nat).
Proof.
  intros s. eexists; eexists.
  match goal with
  | |- ?A /\ _ => assert (H : A) by (vm_compute; reflexivity)
  end.
  exact (conj H (broadcastTxSync_call_order World env client msgs s _ _ H)).
Defined.

Lemma broadcastTxSync_invalid_message_witness :
  let s := start [Ok accepted] [] in
  let before := [DomainMsg "good"] in
  let after := [DomainMsg "later"] in
  let m := DomainMsg "bad" in
  keyring_Key strict_env (txFromName client) (world s) = (Found main_key, world s) /\
  Record_GetAddress strict_env main_key = Ok "addr:pk-main" /\
  wrap_authz client "addr:pk-main" (before ++ m :: after) = (before ++ m :: after)%list /\
  Forall (fun x => Msg_ValidateBasic strict_env x = None) before /\
  Msg_ValidateBasic strict_env m = Some "empty node address" /\
  broadcastTxSync strict_env client (before ++ m :: after) s
  = Ret (Err ("failed to validate message at index "
                ++ string_of_Z (Z.of_nat (List.length before)) ++ ": "
                ++ "empty node address"),
         after_key_lookup (txFromName client) (world s) s) /\
  (AccAddress_Empty (txAuthzGranterAddr client) = false -> List.length before = 0%nat).
Proof.
  intros s before after m.
  assert (H1 : keyring_Key strict_env (txFromName client) (world s)
               = (Found main_key, world s)) by reflexivity.
  assert (H2 : Record_GetAddress strict_env main_key = Ok "addr:pk-main") by reflexivity.
  assert (H3 : wrap_authz client "addr:pk-main" (before ++ m :: after)
               = (before ++ m :: after)%list) by reflexivity.
  assert (H4 : Forall (fun x => Msg_ValidateBasic strict_env x = None) before)
    by (repeat constructor).
  assert (H5 : Msg_ValidateBasic strict_env m = Some "empty node address")
    by reflexivity.
  refine (conj H1 (conj H2 (conj H3 (conj H4 (conj H5 _))))).
  exact (broadcastTxSync_invalid_message World strict_env client
           (before ++ m :: after) before after m "empty node address" s main_key
           (world s) "addr:pk-main" H1 H2 H3 H4 H5).
Defined.

Lemma BroadcastTxSync_result_of_last_attempt_witness :
  let s := start [sequence_error; Ok accepted] [] in
  exists resp err s',
    BroadcastTxSync env 0 client msgs s = Ret ((resp, err), s') /\
    exists n s_n r,
      retry_runs.within_budget (broadcast_retry_config World client) 0 n /\
      after_sequence_retries env client msgs n s = Some s_n /\
      broadcastTxSync env client msgs s_n = Ret (r, s') /\
      match r with
      | Ok res => resp = Some res /\ err = None
      | Err e =>
          resp = None /\
          if IsTxInMempoolCacheError e then err = None
          else err = Some (wrap "tx sync broadcast failed after retries: " e) /\
               (IsWrongSequenceError e = false \/
                txBroadcastRetryAttempts client = Datatypes.S n)
      end.
Proof.
  intros s. eexists; eexists; eexists.
  match goal with
  | |- ?A /\ _ => assert (H : A) by (vm_compute; reflexivity)
  end.
  exact (conj H (BroadcastTxSync_result_of_last_attempt World env 0 client msgs s _ _ _ H)).
Defined.

Lemma BroadcastTxSync_attempt_bound_witness :
  let s := start [sequence_error; Ok accepted] [] in
  exists r s',
    BroadcastTxSync env 0 client msgs s = Ret (r, s') /\
    exists n evs,
      retry_runs.within_budget (broadcast_retry_config World client) 0 n /\
      added s s' evs /\
      count is_key_lookup evs = Datatypes.S n /\
      filter is_sleep evs = repeat (EvSleep (txBroadcastRetryDelay client)) n /\
      (count is_broadcast evs <= Datatypes.S n)%nat.
Proof.
  intros s. eexists; eexists.
  match goal with
  | |- ?A /\ _ => assert (H : A) by (vm_compute; reflexivity)
  end.
  exact (conj H (BroadcastTxSync_attempt_bound World env 0 client msgs s _ _ H)).
Defined.

Lemma Tx_result_of_last_query_witness :
  let s := start [] [Err "not yet"; Ok (included 0)] in
  exists res err s',
    Tx env 0 client "HASH" s = Ret ((res, err), s') /\
    exists n s_n r,
      retry_runs.within_budget (query_retry_config World client) 0 n /\
      after_query_retries env client "HASH" n s = Some s_n /\
      tx env client "HASH" s_n = Ret (r, s') /\
      match r with
      | Ok t => res = Some t /\ err = None
      | Err e =>
          res = None /\
          err = Some (wrap "tx query failed after retries: " e) /\
          txQueryRetryAttempts client = Datatypes.S n
      end.
Proof.
  intros s. eexists; eexists; eexists.
  match goal with
  | |- ?A /\ _ => assert (H : A) by (vm_compute; reflexivity)
  end.
  exact (conj H (Tx_result_of_last_query World env 0 client "HASH" s _ _ _ H)).
Defined.

Lemma Tx_trace_witness :
  let s := start [] [Err "not yet"; Ok (included 0)] in
  exists r s',
    Tx env 0 client "HASH" s = Ret (r, s') /\
    exists n,
      retry_runs.within_budget (query_retry_config World client) 0 n /\
      added s s'
        (match HTTP env client with
         | None => polling "HASH" (queryProve client) (txQueryRetryDelay client) n
                     ++ [EvTx "HASH" (queryProve client)]
         | Some _ => repeat (EvSleep (txQueryRetryDelay client)) n
         end).
Proof.
  intros s. eexists; eexists.
  match goal with
  | |- ?A /\ _ => assert (H : A) by (vm_compute; reflexivity)
  end.
  exact (conj H (Tx_trace World env 0 client "HASH" s _ _ H)).
Defined.

Lemma BroadcastTxBlock_result_sound_witness :
  let s := start [Ok accepted] [Ok (included 0)] in
  exists resp res err s',
    BroadcastTxBlock env 0 client msgs s = Ret ((resp, res, err), s') /\
    (forall t, res = Some t ->
       exists r s1 qerr,
         resp = Some r /\ rb_Code r = CodeTypeOK /\
         BroadcastTxSync env 0 client msgs s = Ret ((Some r, None), s1) /\
         Tx env 0 client (rb_Hash r) s1 = Ret ((Some t, qerr), s') /\
         (err = None -> tr_Code (rt_TxResult t) = CodeTypeOK)) /\
    (err = None -> exists t, res = Some t).
Proof.
  intros s. eexists; eexists; eexists; eexists.
  match goal with
  | |- ?A /\ _ => assert (H : A) by (vm_compute; reflexivity)
  end.
  exact (conj H (BroadcastTxBlock_result_sound World env 0 client msgs s _ _ _ _ H)).
Defined.

Lemma fee_panic_escapes_witness :
  let s := start [Ok accepted] [] in
  let msg := "invalid denom: x" in
  AccAddress_Empty (txAuthzGranterAddr bad_denom_client) = true /\
  keyring_Key env (txFromName bad_denom_client) (world s) = (Found main_key, world s) /\
  DecCoins_IsZero (txGasPrices bad_denom_client) = false /\
  calculateFees (txGasPrices bad_denom_client) (txGas bad_denom_client) = Panic msg /\
  broadcastTxSync env bad_denom_client msgs s = Panic msg /\
  BroadcastTxSync env 0 bad_denom_client msgs s = Panic msg /\
  BroadcastTxBlock env 0 bad_denom_client msgs s = Panic msg.
Proof.
  intros s msg.
  assert (H1 : AccAddress_Empty (txAuthzGranterAddr bad_denom_client) = true)
    by reflexivity.
  assert (H2 : keyring_Key env (txFromName bad_denom_client) (world s)
               = (Found main_key, world s)) by reflexivity.
  assert (H3 : DecCoins_IsZero (txGasPrices bad_denom_client) = false)
    by (vm_compute; reflexivity).
  assert (H4 : calculateFees (txGasPrices bad_denom_client) (txGas bad_denom_client)
               = Panic msg) by (vm_compute; reflexivity).
  refine (conj H1 (conj H2 (conj H3 (conj H4 _)))).
  refine (fee_panic_escapes World env 0 bad_denom_client msgs s main_key
            (world s) (world s) "addr:pk-main" (mkAccount 7 5) msg
            H1 H2 eq_refl eq_refl eq_refl eq_refl H3 H4 (or_introl _)).
  vm_compute. lia.
Defined.

Lemma NodeStartSession_result_witness :
  let s := start [Ok accepted] [Ok session_included] in
  exists id err s',
    NodeStartSession env NewMsgStartSessionRequest_node EventCreateSession event_of Quote
      0 client "node-1" 10 0 "tics" s = Ret ((id, err), s') /\
    match err with
    | Some _ => id = 0
    | None =>
        exists from s1 resp t,
          MsgFromAddr env client s = Ret ((from, None), s1) /\
          BroadcastTxBlock env 0 client
            [NewMsgStartSessionRequest_node from "node-1" 10 0 "tics"] s1
          = Ret ((Some resp, Some t, None), s') /\
          rb_Code resp = CodeTypeOK /\
          tr_Code (rt_TxResult t) = CodeTypeOK /\
          utils.IDFromEvents Quote (GetEvents event_of (rt_TxResult t))
            (utils.RefProto EventCreateSession) = Ok id /\
          0 <= id <= strconv.maxUint64
    end.
Proof.
  intros s. eexists; eexists; eexists.
  match goal with
  | |- ?A /\ _ => assert (H : A) by (vm_compute; reflexivity)
  end.
  exact (conj H (NodeStartSession_result World env NewMsgStartSessionRequest_node
                   EventCreateSession event_of Quote 0 client "node-1" 10 0 "tics"
                   s _ _ _ H)).
Defined.

Lemma SubscriptionStartSession_result_witness :
  let s := start [Ok accepted] [Ok session_included] in
  exists id err s',
    SubscriptionStartSession env NewMsgStartSessionRequest_subscription
      EventCreateSession event_of Quote 0 client 9 "node-1" s = Ret ((id, err), s') /\
    match err with
    | Some _ => id = 0
    | None =>
        exists from s1 resp t,
          MsgFromAddr env client s = Ret ((from, None), s1) /\
          BroadcastTxBlock env 0 client
            [NewMsgStartSessionRequest_subscription from 9 "node-1"] s1
          = Ret ((Some resp, Some t, None), s') /\
          rb_Code resp = CodeTypeOK /\
          tr_Code (rt_TxResult t) = CodeTypeOK /\
          utils.IDFromEvents Quote (GetEvents event_of (rt_TxResult t))
            (utils.RefProto EventCreateSession) = Ok id /\
          0 <= id <= strconv.maxUint64
    end.
Proof.
  intros s. eexists; eexists; eexists.
  match goal with
  | |- ?A /\ _ => assert (H : A) by (vm_compute; reflexivity)
  end.
  exact (conj H (SubscriptionStartSession_result World env
                   NewMsgStartSessionRequest_subscription
                   EventCreateSession event_of Quote 0 client 9 "node-1" s _ _ _ H)).
Defined.

Lemma NodeStartSession_panics_with_broadcast_witness :
  let s := start [cache_error] [] in
  NodeStartSession env NewMsgStartSessionRequest_node EventCreateSession event_of Quote
    0 client "node-1" 10 0 "tics" s = Panic nil_deref /\
  exists from s1,
    MsgFromAddr env client s = Ret ((from, None), s1) /\
    BroadcastTxBlock env 0 client
      [NewMsgStartSessionRequest_node from "node-1" 10 0 "tics"] s1
    = Panic nil_deref.
Proof.
  intros s.
  match goal with
  | |- ?A /\ _ => assert (H : A) by (vm_compute; reflexivity)
  end.
  exact (conj H (NodeStartSession_panics_with_broadcast World env
                   NewMsgStartSessionRequest_node EventCreateSession event_of Quote
                   0 client "node-1" 10 0 "tics" s nil_deref H)).
Defined.

Lemma NodeStartSession_missing_key_witness :
  let name := txFromName client in
  let text := newErrNotFound ("key " ++ name ++ " does not exist") in
  AccAddress_Empty (txAuthzGranterAddr client) = true /\
  keyring_Key env name (world no_key) = (Missing, world no_key) /\
  IsTxInMempoolCacheError text = false /\
  IsWrongSequenceError text = false /\
  (0 < txBroadcastRetryAttempts client \/ 0 < 0)%nat /\
  NodeStartSession env NewMsgStartSessionRequest_node EventCreateSession event_of Quote
    0 client "node-1" 10 0 "tics" no_key
  = Ret ((0, Some ("node start session tx failed: "
                     ++ "tx sync broadcast failed after retries: " ++ text)),
         mkSt (world no_key) (trace no_key ++ [EvKeyringKey name; EvKeyringKey name])).
Proof.
  intros name text.
  assert (H1 : AccAddress_Empty (txAuthzGranterAddr client) = true) by reflexivity.
  assert (H2 : keyring_Key env name (world no_key) = (Missing, world no_key))
    by reflexivity.
  assert (H3 : IsTxInMempoolCacheError text = false) by (vm_compute; reflexivity).
  assert (H4 : IsWrongSequenceError text = false) by (vm_compute; reflexivity).
  assert (H5 : (0 < txBroadcastRetryAttempts client \/ 0 < 0)%nat)
    by (left; vm_compute; lia).
  refine (conj H1 (conj H2 (conj H3 (conj H4 (conj H5 _))))).
  exact (NodeStartSession_missing_key World env NewMsgStartSessionRequest_node
           EventCreateSession event_of Quote 0 client "node-1" 10 0 "tics" no_key
           (world no_key) (world no_key) H1 H2 H2 H3 H4 H5).
Defined.

Lemma BroadcastTxBlock_work_bound_witness :
  let s := start [sequence_error; Ok accepted] [Err "not yet"; Ok (included 0)] in
  (0 < txBroadcastRetryAttempts client)%nat /\
  (0 < txQueryRetryAttempts client)%nat /\
  exists r s',
    BroadcastTxBlock env 0 client msgs s = Ret (r, s') /\
    exists evs,
      added s s' evs /\
      (count is_key_lookup evs <= txBroadcastRetryAttempts client)%nat /\
      (count is_broadcast evs <= txBroadcastRetryAttempts client)%nat /\
      (count is_tx_query evs <= txQueryRetryAttempts client)%nat /\
      (count is_sleep evs
       <= (txBroadcastRetryAttempts client - 1) + (txQueryRetryAttempts client - 1))%nat.
Proof.
  intros s.
  assert (H1 : (0 < txBroadcastRetryAttempts client)%nat) by (vm_compute; lia).
  assert (H2 : (0 < txQueryRetryAttempts client)%nat) by (vm_compute; lia).
  refine (conj H1 (conj H2 _)).
  eexists; eexists.
  match goal with
  | |- ?A /\ _ => assert (H : A) by (vm_compute; reflexivity)
  end.
  exact (conj H (BroadcastTxBlock_work_bound World env 0 client msgs s _ _ H1 H2 H)).
Defined.

Lemma HasKey_false_consequences_witness :
  exists s',
    HasKey env client (txFromName client) no_key = Ret ((false, None), s') /\
    KeyAddr env client (txFromName client) no_key = Ret ((nil_addr, None), s') /\
    broadcastTxSync env client msgs no_key
    = Ret (Err (newErrNotFound ("key " ++ txFromName client ++ " does not exist")), s') /\
    added no_key s' [EvKeyringKey (txFromName client)].
Proof.
  eexists.
  match goal with
  | |- ?A /\ _ => assert (H : A) by (vm_compute; reflexivity)
  end.
  exact (conj H (HasKey_false_consequences World env client msgs no_key _ H)).
Defined.

Lemma TxConfig_Validate_accepted_witness :
  let t := config.DefaultTxConfig in
  config.Validate ConfigScenario.AccAddressFromBech32 ConfigScenario.ParseDecCoins t
  = None /\
  (0 < config.BroadcastRetryAttempts t)%nat /\
  (0 < config.QueryRetryAttempts t)%nat /\
  config.is_empty (config.FromName t) = false /\
  config.negative (config.GasAdjustment t) = false /\
  (exists a, config.GetAuthzGranterAddr ConfigScenario.AccAddressFromBech32 t = Ret a) /\
  (exists a, config.GetFeeGranterAddr ConfigScenario.AccAddressFromBech32 t = Ret a) /\
  (config.is_empty (config.GasPrices t) = false ->
   exists p, config.GetGasPrices ConfigScenario.ParseDecCoins t = Ret p).
Proof.
  intros t.
  assert (H : config.Validate ConfigScenario.AccAddressFromBech32
                ConfigScenario.ParseDecCoins t = None) by (vm_compute; reflexivity).
  exact (conj H (TxConfig_Validate_accepted ConfigScenario.AccAddressFromBech32
                   ConfigScenario.ParseDecCoins t H)).
Defined.

Lemma NewClientFromConfig_panics_after_validation_witness :
  let e := "time: invalid duration " ++ quoted "soon" in
  config.Config_Validate ConfigScenario.ParseDuration ConfigScenario.AccAddressFromBech32
    ConfigScenario.ParseDecCoins ConfigScenario.validateURL None None
    config.DefaultQueryConfig config.DefaultRPCConfig ConfigScenario.tx_bad_delay = None /\
  ConfigScenario.ParseDuration (config.BroadcastRetryDelay ConfigScenario.tx_bad_delay)
  = Err e /\
  NewClientFromConfig ConfigScenario.ParseDuration ConfigScenario.AccAddressFromBech32
    ConfigScenario.ParseDecCoins None
    config.DefaultQueryConfig config.DefaultRPCConfig ConfigScenario.tx_bad_delay
  = Panic e.
Proof.
  intros e.
  match goal with
  | |- ?A /\ ?B /\ _ =>
      assert (H1 : A) by (vm_compute; reflexivity);
      assert (H2 : B) by (vm_compute; reflexivity)
  end.
  refine (conj H1 (conj H2 _)).
  exact (NewClientFromConfig_panics_after_validation
           ConfigScenario.ParseDuration ConfigScenario.AccAddressFromBech32
           ConfigScenario.ParseDecCoins ConfigScenario.validateURL None None None
           config.DefaultQueryConfig config.DefaultRPCConfig ConfigScenario.tx_bad_delay
           e H1 H2).
Defined.

Lemma NewClientFromConfig_validated_witness :
  let q := config.DefaultQueryConfig in
  let r := config.DefaultRPCConfig in
  let t := config.DefaultTxConfig in
  let bd := 5 * time_Second in
  let qd := time_Second in
  let prices := [tics (10 ^ 17)] in
  config.Config_Validate ConfigScenario.ParseDuration ConfigScenario.AccAddressFromBech32
    ConfigScenario.ParseDecCoins ConfigScenario.validateURL None None q r t = None /\
  ConfigScenario.ParseDuration (config.BroadcastRetryDelay t) = Ok bd /\
  ConfigScenario.ParseDuration (config.QueryRetryDelay t) = Ok qd /\
  ConfigScenario.ParseDecCoins (config.GasPrices t) = Ok prices /\
  exists c,
    NewClientFromConfig ConfigScenario.ParseDuration ConfigScenario.AccAddressFromBech32
      ConfigScenario.ParseDecCoins None q r t
    = Ret (match @None error with
           | Some err => Err (wrap "failed to setup keyring: " err)
           | None => Ok c
           end) /\
    Some (rpcAddr c) = hd_error (config.Addrs r) /\
    config.is_empty (txFromName c) = false /\
    txFees c = [] /\ txMemo c = EmptyString /\
    txBroadcastRetryDelay c = bd /\ txQueryRetryDelay c = qd /\
    txGasPrices c = prices /\
    (0 < txBroadcastRetryAttempts c)%nat /\
    (0 < txQueryRetryAttempts c)%nat /\
    (forall (W : Type) (env : Env W) (fuel : nat) (msgs : list Msg) (s : St W),
        out_of_fuel (BroadcastTxBlock env fuel c msgs s) = false).
Proof.
  intros q r t bd qd prices.
  match goal with
  | |- ?A /\ ?B /\ ?C /\ ?D /\ _ =>
      assert (H1 : A) by (vm_compute; reflexivity);
      assert (H2 : B) by (vm_compute; reflexivity);
      assert (H3 : C) by (vm_compute; reflexivity);
      assert (H4 : D) by (vm_compute; reflexivity)
  end.
  refine (conj H1 (conj H2 (conj H3 (conj H4 _)))).
  exact (NewClientFromConfig_validated
           ConfigScenario.ParseDuration ConfigScenario.AccAddressFromBech32
           ConfigScenario.ParseDecCoins ConfigScenario.validateURL None None None
           q r t bd qd prices H1 H2 H3 H4).
Defined.

End ExtraChecks.
